(** * xyz-payment: webhook verification, checkout links and the Tap
      saved-card flow

    A shallow embedding of the provider adapters of [src/provider/*.ts]
    (Stripe, LemonSqueezy, Polar, Creem, DodoPayments, Tap, Console,
    Custom) together with the platform primitives they call
    ([createHmac], [timingSafeEqual], [JSON.parse], [fetch],
    [process.env]).

    Conventions.
    - A JavaScript string is modelled by the byte string of its UTF-8
      encoding ([string] of the Standard Library); request bodies are
      assumed to be well-formed UTF-8, so that [req.text()] followed by
      [hmac.update(text)] sees the bytes that were sent, less the byte
      order mark [req.text()] drops at the start of a body.
    - A 32-bit word is a [Z] in [0, 2^32) with the wrap-around written out.
    - [process.env] and the header set of a request are finite maps from
      names to values; header names are lower case, as [Headers.get]
      normalises them.
    - Asynchronous functions are modelled by their completion: a value
      or a thrown exception, together with the list of outbound
      requests they issued.
    - A Number is a double. The numbers of a checkout request (seats,
      trial days) are integers: a [Z] stands for the double of that
      value, and what is made of it is made of [to_double] of it. An
      amount is a decimal. [NaN] and the infinities are left out of
      the inputs; [parseInt] can return them.
    - Time is not observed. What is observed of a comparison of
      signatures is which one a handler performs, [!==] or
      [timingSafeEqual]: the three handlers that compare signatures
      are given a second time as [webhookHandler_observed], with the
      comparisons next to the response.
    - [@xyz/webhook-verifier] and [@xyz/logger] are packages of their
      own: the verifier is a parameter of the Tap handler, the logger
      has no effect on what the adapters return or send. *)

From Stdlib Require Import ZArith List String Ascii Bool Lia DecimalString.
From Stdlib Require Import DecimalPos.
From stdpp Require Import base option gmap strings.

Import ListNotations.
Set Warnings "-register-all".
Local Open Scope string_scope.
Local Open Scope list_scope.
Local Open Scope Z_scope.

(** ** Bytes and hexadecimal rendering *)

Definition byte_of_ascii (c : ascii) : Z := Z.of_N (N_of_ascii c).

Definition ascii_of_byte (b : Z) : ascii := ascii_of_N (Z.to_N (b mod 256)).

Fixpoint bytes_of_string (s : string) : list Z :=
  match s with
  | EmptyString => []
  | String c s' => byte_of_ascii c :: bytes_of_string s'
  end.

Definition hex_digit (n : Z) : ascii :=
  if n <? 10 then ascii_of_byte (48 + n) else ascii_of_byte (87 + n).

Fixpoint hex_of_bytes (bs : list Z) : string :=
  match bs with
  | [] => EmptyString
  | b :: bs' =>
      String (hex_digit (Z.shiftr b 4 mod 16))
        (String (hex_digit (Z.land b 15)) (hex_of_bytes bs'))
  end.

(** ** SHA-256 (FIPS 180-4) and HMAC (RFC 2104)

    [createHmac("sha256", key).update(msg).digest("hex")] of
    [node:crypto]. *)

Module SHA256.

Definition wrap32 (x : Z) : Z := x mod 2 ^ 32.
Definition add32 (x y : Z) : Z := wrap32 (x + y).
Definition rotr (n x : Z) : Z :=
  Z.lor (Z.shiftr x n) (wrap32 (Z.shiftl x (32 - n))).
Definition not32 (x : Z) : Z := Z.lxor x (2 ^ 32 - 1).

Definition Ch (x y z : Z) : Z := Z.lxor (Z.land x y) (Z.land (not32 x) z).
Definition Maj (x y z : Z) : Z :=
  Z.lxor (Z.lxor (Z.land x y) (Z.land x z)) (Z.land y z).
Definition bsig0 (x : Z) : Z := Z.lxor (Z.lxor (rotr 2 x) (rotr 13 x)) (rotr 22 x).
Definition bsig1 (x : Z) : Z := Z.lxor (Z.lxor (rotr 6 x) (rotr 11 x)) (rotr 25 x).
Definition ssig0 (x : Z) : Z := Z.lxor (Z.lxor (rotr 7 x) (rotr 18 x)) (Z.shiftr x 3).
Definition ssig1 (x : Z) : Z := Z.lxor (Z.lxor (rotr 17 x) (rotr 19 x)) (Z.shiftr x 10).

(** The constants are fractional parts of roots of the first primes:
    the first 32 bits of the fractional part of the cube root of the
    i-th prime for the round constant [K i], of its square root for
    the initial hash value. *)
Definition is_prime (n : Z) : bool :=
  (2 <=? n) &&
  forallb (fun d => negb (n mod d =? 0))
          (map Z.of_nat (seq 2 (Z.to_nat (Z.sqrt n) - 1))).

Definition first_primes (count : nat) : list Z :=
  firstn count (filter is_prime (map Z.of_nat (seq 2 320))).

(** The integer cube root, found bit by bit from bit [bits - 1] down. *)
Fixpoint cube_root_bits (bits : nat) (n r : Z) : Z :=
  match bits with
  | O => r
  | S b =>
      let r' := r + 2 ^ Z.of_nat b in
      cube_root_bits b n (if r' * r' * r' <=? n then r' else r)
  end.

Definition cube_root_fraction (p : Z) : Z :=
  wrap32 (cube_root_bits 40 (p * 2 ^ 96) 0).

Definition square_root_fraction (p : Z) : Z :=
  wrap32 (Z.sqrt (p * 2 ^ 64)).

Definition K : list Z :=
  Eval vm_compute in map cube_root_fraction (first_primes 64).

Record state := State
  { ha : Z; hb : Z; hc : Z; hd : Z; he : Z; hf : Z; hg : Z; hh : Z }.

Definition H0 : state :=
  Eval vm_compute in
    match map square_root_fraction (first_primes 8) with
    | [a; b; c; d; e; f; g; h] => State a b c d e f g h
    | _ => State 0 0 0 0 0 0 0 0
    end.

(** Big-endian packing of bytes into words; the padded message has a
    length that is a multiple of four. *)
Fixpoint words_of_bytes (bs : list Z) : list Z :=
  match bs with
  | a :: b :: c :: d :: rest =>
      (Z.shiftl a 24 + Z.shiftl b 16 + Z.shiftl c 8 + d) :: words_of_bytes rest
  | _ => []
  end.

Definition bytes_of_word (x : Z) : list Z :=
  [ Z.shiftr x 24 mod 256; Z.shiftr x 16 mod 256; Z.shiftr x 8 mod 256; x mod 256 ].

Definition be64 (n : Z) : list Z :=
  bytes_of_word (Z.shiftr n 32 mod 2 ^ 32) ++ bytes_of_word (n mod 2 ^ 32).

(** Padding: a one bit, zeros up to 56 modulo 64, the bit length. *)
Definition pad (msg : list Z) : list Z :=
  let l := Z.of_nat (length msg) in
  let k := (55 - l) mod 64 in
  msg ++ [128] ++ repeat 0 (Z.to_nat k) ++ be64 (8 * l).

(** The message schedule, most recent word first: [rev_sched] holds
    W(t-1), W(t-2), ... *)
Definition next_W (rev_sched : list Z) : Z :=
  add32 (add32 (ssig1 (nth 1 rev_sched 0)) (nth 6 rev_sched 0))
        (add32 (ssig0 (nth 14 rev_sched 0)) (nth 15 rev_sched 0)).

Fixpoint extend (n : nat) (rev_sched : list Z) : list Z :=
  match n with
  | O => rev_sched
  | S n' => extend n' (next_W rev_sched :: rev_sched)
  end.

Definition schedule (block : list Z) : list Z :=
  rev (extend 48 (rev block)).

Definition round (s : state) (kw : Z * Z) : state :=
  let '(k, w) := kw in
  let t1 := add32 (add32 (add32 (hh s) (bsig1 (he s)))
                         (add32 (Ch (he s) (hf s) (hg s)) k)) w in
  let t2 := add32 (bsig0 (ha s)) (Maj (ha s) (hb s) (hc s)) in
  State (add32 t1 t2) (ha s) (hb s) (hc s) (add32 (hd s) t1) (he s) (hf s) (hg s).

Definition compress (h : state) (block : list Z) : state :=
  let s := fold_left round (combine K (schedule block)) h in
  State (add32 (ha h) (ha s)) (add32 (hb h) (hb s)) (add32 (hc h) (hc s))
        (add32 (hd h) (hd s)) (add32 (he h) (he s)) (add32 (hf h) (hf s))
        (add32 (hg h) (hg s)) (add32 (hh h) (hh s)).

(** One call of [compress] per 16-word block, [n] blocks in all. *)
Fixpoint hash_blocks (n : nat) (ws : list Z) (h : state) : state :=
  match n with
  | O => h
  | S n' => hash_blocks n' (skipn 16 ws) (compress h (firstn 16 ws))
  end.

Definition digest_of_state (h : state) : list Z :=
  bytes_of_word (ha h) ++ bytes_of_word (hb h) ++ bytes_of_word (hc h) ++
  bytes_of_word (hd h) ++ bytes_of_word (he h) ++ bytes_of_word (hf h) ++
  bytes_of_word (hg h) ++ bytes_of_word (hh h).

Definition sha256 (msg : list Z) : list Z :=
  let ws := words_of_bytes (pad msg) in
  digest_of_state (hash_blocks (Nat.div (length ws) 16) ws H0).

End SHA256.

Module HMAC.

Definition block_size : nat := 64.

Definition block_key (key : list Z) : list Z :=
  let k := if (block_size <? length key)%nat then SHA256.sha256 key else key in
  k ++ repeat 0 (block_size - length k)%nat.

Definition xor_pad (p : Z) (key : list Z) : list Z := map (Z.lxor p) key.

Definition hmac_sha256 (key msg : list Z) : list Z :=
  let k := block_key key in
  SHA256.sha256 (xor_pad 0x5c k ++ SHA256.sha256 (xor_pad 0x36 k ++ msg)).

End HMAC.

(** [createHmac("sha256", secret).update(text).digest("hex")]. *)
Definition hmac_sha256_hex (secret text : string) : string :=
  hex_of_bytes (HMAC.hmac_sha256 (bytes_of_string secret) (bytes_of_string text)).

(** ** JSON values and [JSON.parse]

    A number keeps its decimal literal: [JNum m e] is [m * 10^e]. An
    object keeps its members in source order; on a repeated key the last
    member wins, as in [JSON.parse]. [undefined] is the [None] of
    [option JSON]. *)

Inductive JSON : Type :=
| JNull
| JBool (b : bool)
| JNum (mantissa exponent : Z)
| JStr (s : string)
| JArr (elems : list JSON)
| JObj (members : list (string * JSON)).

Inductive exn : Type :=
| Error (message : string)
| ApiError (prefix : string) (diagnostic : JSON)
| SyntaxError
| TypeError
| RangeError
| FetchError.

Inductive completion (A : Type) : Type :=
| Return (a : A)
| Throw (e : exn).
Arguments Return {A} a.
Arguments Throw {A} e.

Definition cbind {A B} (c : completion A) (k : A -> completion B) : completion B :=
  match c with
  | Return a => k a
  | Throw e => Throw e
  end.

Definition try_catch {A} (c : completion A) (handler : exn -> completion A)
  : completion A :=
  match c with
  | Return a => Return a
  | Throw e => handler e
  end.

#[global] Instance completion_ret : MRet completion := fun A a => Return a.
#[global] Instance completion_bind : MBind completion :=
  fun A B k c => cbind c k.

Module Json.

Fixpoint lookup_last (k : string) (ms : list (string * JSON)) : option JSON :=
  match ms with
  | [] => None
  | (k', v) :: ms' =>
      match lookup_last k ms' with
      | Some v' => Some v'
      | None => if String.eqb k k' then Some v else None
      end
  end.

(** [v.name] for the member names the adapters read; none of them is
    an inherited property of strings, arrays or numbers. *)
Definition get (v : option JSON) (name : string) : completion (option JSON) :=
  match v with
  | None | Some JNull => Throw TypeError
  | Some (JObj ms) => Return (lookup_last name ms)
  | Some _ => Return None
  end.

(** [v?.name] *)
Definition get_opt (v : option JSON) (name : string) : option JSON :=
  match v with
  | Some (JObj ms) => lookup_last name ms
  | _ => None
  end.

(** A decimal literal denotes zero as a double when its mantissa is
    zero or its magnitude is at most 2^-1075, half the least
    subnormal, which rounds to zero. *)
Definition number_is_zero (m e : Z) : bool :=
  (m =? 0) || ((e <? 0) && (Z.abs m * 2 ^ 1075 <=? 10 ^ (- e))).

(** ToBoolean *)
Definition truthy (v : option JSON) : bool :=
  match v with
  | None | Some JNull => false
  | Some (JBool b) => b
  | Some (JNum m e) => negb (number_is_zero m e)
  | Some (JStr s) => negb (String.eqb s "")
  | Some (JArr _) | Some (JObj _) => true
  end.

(** [x === "literal"] *)
Definition is_string (lit : string) (v : option JSON) : bool :=
  match v with
  | Some (JStr s) => String.eqb s lit
  | _ => false
  end.

(** An object literal handed to [JSON.stringify]: members whose value
    is [undefined] are left out. *)
Fixpoint object (ms : list (string * option JSON)) : list (string * JSON) :=
  match ms with
  | [] => []
  | (k, Some v) :: ms' => (k, v) :: object ms'
  | (_, None) :: ms' => object ms'
  end.

Inductive token : Type :=
| TLBrace | TRBrace | TLBracket | TRBracket | TColon | TComma
| TValue (v : JSON).

(** Where a completed value goes. *)
Inductive frame : Type :=
| FArr (rev_elems : list JSON)
| FObj (rev_members : list (string * JSON)) (key : string).

Inductive pstate : Type :=
| PValue (stack : list frame)
| PArrFirst (stack : list frame)
| PArrNext (rev_elems : list JSON) (stack : list frame)
| PObjFirst (stack : list frame)
| PObjKey (rev_members : list (string * JSON)) (stack : list frame)
| PObjColon (rev_members : list (string * JSON)) (key : string) (stack : list frame)
| PObjNext (rev_members : list (string * JSON)) (stack : list frame)
| PDone (v : JSON).

Definition complete (v : JSON) (stack : list frame) : pstate :=
  match stack with
  | [] => PDone v
  | FArr acc :: st => PArrNext (v :: acc) st
  | FObj ms k :: st => PObjNext ((k, v) :: ms) st
  end.

Definition begin_value (stack : list frame) (t : token) : option pstate :=
  match t with
  | TValue v => Some (complete v stack)
  | TLBracket => Some (PArrFirst stack)
  | TLBrace => Some (PObjFirst stack)
  | _ => None
  end.

Definition pstep (p : pstate) (t : token) : option pstate :=
  match p, t with
  | PValue st, _ => begin_value st t
  | PArrFirst st, TRBracket => Some (complete (JArr []) st)
  | PArrFirst st, _ => begin_value (FArr [] :: st) t
  | PArrNext acc st, TComma => Some (PValue (FArr acc :: st))
  | PArrNext acc st, TRBracket => Some (complete (JArr (rev acc)) st)
  | PObjFirst st, TRBrace => Some (complete (JObj []) st)
  | PObjFirst st, TValue (JStr k) => Some (PObjColon [] k st)
  | PObjKey ms st, TValue (JStr k) => Some (PObjColon ms k st)
  | PObjColon ms k st, TColon => Some (PValue (FObj ms k :: st))
  | PObjNext ms st, TComma => Some (PObjKey ms st)
  | PObjNext ms st, TRBrace => Some (complete (JObj (rev ms)) st)
  | _, _ => None
  end.

Inductive numstate : Type :=
| NSign | NZero | NInt | NDot | NFrac | NE | NESign | NExp.

Record numacc := NumAcc
  { n_neg : bool; n_mant : Z; n_frac : Z; n_eneg : bool; n_exp : Z }.

Inductive lexmode : Type :=
| LIdle
| LLit (rest : list Z) (v : JSON)
| LStr (rev_acc : list Z)
| LEsc (rev_acc : list Z)
| LUni (rev_acc : list Z) (remaining : nat) (code : Z)
| LNum (st : numstate) (acc : numacc).

Definition number_value (a : numacc) : JSON :=
  JNum (if n_neg a then - n_mant a else n_mant a)
       ((if n_eneg a then - n_exp a else n_exp a) - n_frac a).

Definition is_digit (c : Z) : bool := (48 <=? c) && (c <=? 57).

Definition hex_value (c : Z) : option Z :=
  if (48 <=? c) && (c <=? 57) then Some (c - 48)
  else if (65 <=? c) && (c <=? 70) then Some (c - 55)
  else if (97 <=? c) && (c <=? 102) then Some (c - 87)
  else None.

(** UTF-8 bytes of a UTF-16 code unit written as an escape, pushed on
    a reversed accumulator. A low surrogate that follows a high one
    makes one code point with it, of four bytes: the three bytes
    [ED A0..AF 80..BF] on top of the accumulator are a high surrogate,
    and in a well-formed body only an escape can have put them there.
    A surrogate on its own has no UTF-8 encoding and keeps its three
    bytes. *)
Definition push_code_unit (u : Z) (rev_acc : list Z) : list Z :=
  let alone :=
    if u <? 128 then u :: rev_acc
    else if u <? 2048 then
      (128 + u mod 64) :: (192 + u / 64) :: rev_acc
    else
      (128 + u mod 64) :: (128 + (u / 64) mod 64) :: (224 + u / 4096) :: rev_acc in
  if (56320 <=? u) && (u <=? 57343) then
    match rev_acc with
    | b3 :: b2 :: 237 :: rest =>
        if (160 <=? b2) && (b2 <=? 175) && (128 <=? b3) && (b3 <=? 191) then
          let high := 53248 + (b2 - 128) * 64 + (b3 - 128) in
          let point := 65536 + (high - 55296) * 1024 + (u - 56320) in
          (128 + point mod 64) :: (128 + (point / 64) mod 64)
          :: (128 + (point / 4096) mod 64) :: (240 + point / 262144) :: rest
        else alone
    | _ => alone
    end
  else alone.

Fixpoint string_of_bytes (bs : list Z) : string :=
  match bs with
  | [] => EmptyString
  | b :: bs' => String (ascii_of_byte b) (string_of_bytes bs')
  end.

Definition machine : Type := lexmode * pstate.

Definition emit (p : pstate) (t : token) : option machine :=
  match pstep p t with
  | Some p' => Some (LIdle, p')
  | None => None
  end.

(** A character met between tokens. *)
Definition idle (p : pstate) (c : Z) : option machine :=
  if (c =? 32) || (c =? 9) || (c =? 10) || (c =? 13) then Some (LIdle, p)
  else if c =? 123 then emit p TLBrace
  else if c =? 125 then emit p TRBrace
  else if c =? 91 then emit p TLBracket
  else if c =? 93 then emit p TRBracket
  else if c =? 58 then emit p TColon
  else if c =? 44 then emit p TComma
  else if c =? 34 then Some (LStr [], p)
  else if c =? 45 then Some (LNum NSign (NumAcc true 0 0 false 0), p)
  else if c =? 48 then Some (LNum NZero (NumAcc false 0 0 false 0), p)
  else if is_digit c then Some (LNum NInt (NumAcc false (c - 48) 0 false 0), p)
  else if c =? 116 then Some (LLit (bytes_of_string "rue") (JBool true), p)
  else if c =? 102 then Some (LLit (bytes_of_string "alse") (JBool false), p)
  else if c =? 110 then Some (LLit (bytes_of_string "ull") JNull, p)
  else None.

(** The number is over: hand it to the parser, then read [c]. *)
Definition finish_number (a : numacc) (p : pstate) (c : Z) : option machine :=
  match pstep p (TValue (number_value a)) with
  | Some p' => idle p' c
  | None => None
  end.

Definition is_e (c : Z) : bool := (c =? 101) || (c =? 69).

Definition num_step (st : numstate) (a : numacc) (p : pstate) (c : Z)
  : option machine :=
  let d := c - 48 in
  let mant := NumAcc (n_neg a) (10 * n_mant a + d) (n_frac a) (n_eneg a) (n_exp a) in
  let frac := NumAcc (n_neg a) (10 * n_mant a + d) (n_frac a + 1) (n_eneg a) (n_exp a) in
  let expo := NumAcc (n_neg a) (n_mant a) (n_frac a) (n_eneg a) (10 * n_exp a + d) in
  let eminus := NumAcc (n_neg a) (n_mant a) (n_frac a) true (n_exp a) in
  match st with
  | NSign =>
      if c =? 48 then Some (LNum NZero a, p)
      else if is_digit c then Some (LNum NInt mant, p)
      else None
  | NZero =>
      if c =? 46 then Some (LNum NDot a, p)
      else if is_e c then Some (LNum NE a, p)
      else finish_number a p c
  | NInt =>
      if is_digit c then Some (LNum NInt mant, p)
      else if c =? 46 then Some (LNum NDot a, p)
      else if is_e c then Some (LNum NE a, p)
      else finish_number a p c
  | NDot => if is_digit c then Some (LNum NFrac frac, p) else None
  | NFrac =>
      if is_digit c then Some (LNum NFrac frac, p)
      else if is_e c then Some (LNum NE a, p)
      else finish_number a p c
  | NE =>
      if c =? 43 then Some (LNum NESign a, p)
      else if c =? 45 then Some (LNum NESign eminus, p)
      else if is_digit c then Some (LNum NExp expo, p)
      else None
  | NESign => if is_digit c then Some (LNum NExp expo, p) else None
  | NExp =>
      if is_digit c then Some (LNum NExp expo, p)
      else finish_number a p c
  end.

Definition escape (c : Z) : option Z :=
  if (c =? 34) || (c =? 92) || (c =? 47) then Some c
  else if c =? 98 then Some 8
  else if c =? 102 then Some 12
  else if c =? 110 then Some 10
  else if c =? 114 then Some 13
  else if c =? 116 then Some 9
  else None.

Definition step (m : machine) (c : Z) : option machine :=
  let '(mode, p) := m in
  match mode with
  | LIdle => idle p c
  | LLit rest v =>
      match rest with
      | [] => None
      | x :: rest' =>
          if c =? x then
            match rest' with
            | [] => emit p (TValue v)
            | _ => Some (LLit rest' v, p)
            end
          else None
      end
  | LStr acc =>
      if c =? 34 then emit p (TValue (JStr (string_of_bytes (rev acc))))
      else if c =? 92 then Some (LEsc acc, p)
      else if c <? 32 then None
      else Some (LStr (c :: acc), p)
  | LEsc acc =>
      if c =? 117 then Some (LUni acc 4 0, p)
      else match escape c with
           | Some x => Some (LStr (x :: acc), p)
           | None => None
           end
  | LUni acc k code =>
      match hex_value c with
      | None => None
      | Some d =>
          let code' := 16 * code + d in
          match k with
          | 1%nat => Some (LStr (push_code_unit code' acc), p)
          | _ => Some (LUni acc (Nat.pred k) code', p)
          end
      end
  | LNum st a => num_step st a p c
  end.

Fixpoint run (m : machine) (cs : list Z) : option machine :=
  match cs with
  | [] => Some m
  | c :: cs' =>
      match step m c with
      | Some m' => run m' cs'
      | None => None
      end
  end.

(** End of input: a number may be pending; anything else unfinished is
    a syntax error. *)
Definition finish (m : machine) : option JSON :=
  let '(mode, p) := m in
  let final := fun p => match p with PDone v => Some v | _ => None end in
  match mode with
  | LIdle => final p
  | LNum st a =>
      match st with
      | NZero | NInt | NFrac | NExp =>
          match pstep p (TValue (number_value a)) with
          | Some p' => final p'
          | None => None
          end
      | _ => None
      end
  | _ => None
  end.

(** [JSON.parse(text)]; a [SyntaxError] where the text is not JSON. *)
Definition parse (text : string) : completion JSON :=
  match run (LIdle, PValue []) (bytes_of_string text) with
  | Some m =>
      match finish m with
      | Some v => Return v
      | None => Throw SyntaxError
      end
  | None => Throw SyntaxError
  end.

End Json.

(** ** Platform primitives *)

(** JSON texts are written here with apostrophes where JSON has double
    quotes; [json_text] puts the double quotes back. *)
Fixpoint json_text (s : string) : string :=
  match s with
  | EmptyString => EmptyString
  | String c s' =>
      String (if Ascii.eqb c (ascii_of_nat 39) then ascii_of_nat 34 else c)
        (json_text s')
  end.

(** *** Numbers

    A Number is a double. An integer of the model stands for the double
    of that value; [to_double] is the rounding every conversion to a
    Number ends with: to the nearest double, ties to the even
    significand. A result of magnitude [2^1024] or more stands for an
    infinity. *)
Definition to_double (z : Z) : Z :=
  let a := Z.abs z in
  if a <? 2 ^ 53 then z
  else
    let e := Z.log2 a - 52 in
    let m := Z.shiftr a e in
    let r := a - Z.shiftl m e in
    let half := 2 ^ (e - 1) in
    let m' := if (half <? r) || ((r =? half) && Z.odd m) then m + 1 else m in
    Z.sgn z * Z.shiftl m' e.

Definition is_infinite (d : Z) : bool := 2 ^ 1024 <=? Z.abs d.

(** The decimal digits of an integer. *)
Definition decimal (z : Z) : string :=
  DecimalString.NilZero.string_of_int (Z.to_int z).

Fixpoint zeros (n : nat) : string :=
  match n with
  | O => EmptyString
  | S n' => String "0" (zeros n')
  end.

(** Number::toString, step 5: the least [k] and the [s] of [k] digits
    with [s * 10^(n - k)] a decimal that reads back as [d]; of two such
    [s] the one nearer to [d], and the even one when they are as near.
    The result is [(s, n)]. *)
Fixpoint shortest (fuel : nat) (k n d : Z) : Z * Z :=
  match fuel with
  | O => (d, n)
  | S fuel' =>
      let q := 10 ^ (n - k) in
      let lo := d / q in
      let hi := lo + 1 in
      let ok_lo := to_double (lo * q) =? d in
      let ok_hi := to_double (hi * q) =? d in
      if ok_lo || ok_hi then
        let nearer := hi * q - d <? d - lo * q in
        let as_near := hi * q - d =? d - lo * q in
        if ok_hi && (negb ok_lo || nearer || (as_near && Z.even hi))
        then (if hi =? 10 ^ k then (1, n + 1) else (hi, n))
        else (lo, n)
      else shortest fuel' (k + 1) n d
  end.

(** Number::toString for a double that is an integer and not zero: the
    digits of [s] and [n - k] zeros when [n <= 21], and from there on
    the exponent notation, [d.ddde+x]. *)
Definition Number_toString (d : Z) : string :=
  let a := Z.abs d in
  let text :=
    if is_infinite d then "Infinity"
    else
      let n0 := Z.of_nat (String.length (decimal a)) in
      let '(s, n) := shortest (Z.to_nat (Z.min n0 17)) 1 n0 a in
      let digits := decimal s in
      let k := Z.of_nat (String.length digits) in
      if n <=? 21 then digits +:+ zeros (Z.to_nat (n - k))
      else
        match digits with
        | String c rest =>
            String c (if String.eqb rest "" then "" else "." +:+ rest)
            +:+ "e+" +:+ decimal (n - 1)
        | EmptyString => EmptyString
        end in
  if d <? 0 then "-" +:+ text else text.

(** [String(n)] and [`${n}`] for a Number that is an integer: an
    integer below [2^53] in magnitude is a double and is written with
    all its digits. *)
Definition string_of_Z (z : Z) : string :=
  if Z.abs z <? 2 ^ 53 then decimal z else Number_toString (to_double z).

(** [!x] is false exactly for a present, non-empty string. *)
Definition nonempty (o : option string) : option string :=
  match o with
  | Some s => if String.eqb s "" then None else Some s
  | None => None
  end.

(** [a !== b] on strings. *)
Definition strict_neq (a b : string) : bool := negb (String.eqb a b).

(** [x === "literal"] for a string that may be [undefined]. *)
Definition is_literal (lit : string) (x : option string) : bool :=
  match x with
  | Some s => String.eqb s lit
  | None => false
  end.

(** [crypto.timingSafeEqual(a, b)]: a [RangeError] for buffers of
    different byte lengths; otherwise the differences of all byte pairs
    are accumulated and tested once. *)
Definition timingSafeEqual (a b : list Z) : completion bool :=
  if (length a =? length b)%nat then
    Return (fold_left Z.lor (zip_with Z.lxor a b) 0 =? 0)
  else Throw RangeError.

(** What a handler does to compare the signature it was sent with the
    one it computed, as an event: [a !== b] on two strings, or
    [timingSafeEqual(a, b)] on two buffers. *)
Inductive comparison : Type :=
| StrictInequality (a b : string)
| TimingSafeEqual (a b : list Z).

(** [Buffer.from(s, "utf8")]; a [TypeError] for [null]. *)
Definition Buffer_from (s : option string) : completion (list Z) :=
  match s with
  | Some s => Return (bytes_of_string s)
  | None => Throw TypeError
  end.

Fixpoint digits_value (acc : Z) (cs : list Z) : Z :=
  match cs with
  | c :: cs' => if Json.is_digit c then digits_value (10 * acc + (c - 48)) cs' else acc
  | [] => acc
  end.

(** The white space [parseInt] skips (StrWhiteSpaceChar), in UTF-8:
    TAB, LF, VT, FF, CR and the space; U+00A0; U+1680; U+2000 to
    U+200A, U+2028, U+2029 and U+202F; U+205F; U+3000; U+FEFF. *)
Definition white_space_3 (a b c : Z) : bool :=
  ((a =? 225) && (b =? 154) && (c =? 128)) ||
  ((a =? 226) && (b =? 128) &&
   (((128 <=? c) && (c <=? 138)) || (c =? 168) || (c =? 169) || (c =? 175))) ||
  ((a =? 226) && (b =? 129) && (c =? 159)) ||
  ((a =? 227) && (b =? 128) && (c =? 128)) ||
  ((a =? 239) && (b =? 187) && (c =? 191)).

Fixpoint skip_space (cs : list Z) : list Z :=
  match cs with
  | a :: cs1 =>
      if (a =? 32) || ((9 <=? a) && (a <=? 13)) then skip_space cs1
      else
        match cs1 with
        | b :: cs2 =>
            if (a =? 194) && (b =? 160) then skip_space cs2
            else
              match cs2 with
              | c :: cs3 => if white_space_3 a b c then skip_space cs3 else cs
              | [] => cs
              end
        | [] => cs
        end
  | [] => []
  end.

(** A Number that may not be finite. The sign of a zero is not kept:
    [JSON.stringify] writes [0] for either. *)
Inductive Number : Type :=
| NaN
| Infinity (negative : bool)
| Finite (value : Z).

(** The Number a mathematical integer is rounded to. *)
Definition Number_of_Z (z : Z) : Number :=
  if is_infinite (to_double z) then Infinity (z <? 0) else Finite (to_double z).

(** [parseInt(s, 10)]: the digits after the white space and the sign,
    as far as they go, read as an integer and rounded to a Number.
    (Past the twentieth significant digit an implementation may read
    zeros for the digits; this is the exact reading.) *)
Definition parseInt (s : string) : Number :=
  let digits := fun (sign : Z) (cs : list Z) =>
    match cs with
    | c :: _ =>
        if Json.is_digit c then Number_of_Z (sign * digits_value 0 cs) else NaN
    | [] => NaN
    end in
  match skip_space (bytes_of_string s) with
  | 45 :: cs => digits (-1) cs
  | 43 :: cs => digits 1 cs
  | cs => digits 1 cs
  end.

(** A Number inside [JSON.stringify]: [NaN] and the infinities are
    written [null]. *)
Definition json_of_number (n : Number) : JSON :=
  match n with
  | Finite z => JNum z 0
  | NaN | Infinity _ => JNull
  end.

(** [s.split(" ")[0]] and [s.split(" ").slice(1).join(" ")]. *)
Fixpoint split_first_space (s : string) : string * string :=
  match s with
  | EmptyString => (EmptyString, EmptyString)
  | String c s' =>
      if Ascii.eqb c " "%char then (EmptyString, s')
      else let '(a, b) := split_first_space s' in (String c a, b)
  end.

(** ** Inbound requests and responses (the Fetch [Request], [Response]) *)

Record Request := mkRequest
  { method : string;
    headers : gmap string string;
    body : option string }.

Record Response := mkResponse
  { status : Z;
    responseText : option string }.

(** The UTF-8 decoding of a body that is well-formed UTF-8: one byte
    order mark ([EF BB BF]) at its start is dropped, everything else is
    kept. *)
Definition utf8_decode (bytes : string) : string :=
  match bytes with
  | String c1 (String c2 (String c3 rest)) =>
      if Ascii.eqb c1 (ascii_of_nat 239) && Ascii.eqb c2 (ascii_of_nat 187)
         && Ascii.eqb c3 (ascii_of_nat 191)
      then rest else bytes
  | _ => bytes
  end.

(** [await req.text()] *)
Definition text (req : Request) : string := utf8_decode (default "" (body req)).

(** ** Outbound requests: [fetch] and [process.env] *)

Inductive Body : Type :=
| FormBody (params : list (string * string))
| JsonBody (value : JSON).

Record HttpRequest := mkHttpRequest
  { url : string;
    httpMethod : string;
    httpHeaders : list (string * string);
    httpBody : Body }.

Record HttpResponse := mkHttpResponse
  { httpStatus : Z;
    httpText : string }.

(** [response.ok] *)
Definition ok (r : HttpResponse) : bool :=
  (200 <=? httpStatus r) && (httpStatus r <=? 299).

(** The surroundings of a call: the environment variables, what the
    network answers to a request given the requests already sent, and
    the clock. *)
Record World := mkWorld
  { env : gmap string string;
    network : list HttpRequest -> HttpRequest -> completion HttpResponse;
    clock : Z }.

(** An asynchronous function: from the world and the requests sent so
    far to its completion and the requests sent by then. *)
Definition IO (A : Type) : Type :=
  World -> list HttpRequest -> completion A * list HttpRequest.

#[global] Instance IO_ret : MRet IO := fun A a _ sent => (Return a, sent).
#[global] Instance IO_bind : MBind IO :=
  fun A B k c w sent =>
    match c w sent with
    | (Return a, sent') => k a w sent'
    | (Throw e, sent') => (Throw e, sent')
    end.

Definition throw {A} (e : exn) : IO A := fun _ sent => (Throw e, sent).
Definition lift {A} (c : completion A) : IO A := fun _ sent => (c, sent).
Definition getenv (name : string) : IO (option string) :=
  fun w sent => (Return (env w !! name), sent).
Definition Date_now : IO Z := fun w sent => (Return (clock w), sent).

(** [await fetch(url, init)] *)
Definition fetch (r : HttpRequest) : IO HttpResponse :=
  fun w sent => (network w sent r, sent ++ [r]).

(** [await response.json()] *)
Definition json (r : HttpResponse) : IO JSON := lift (Json.parse (httpText r)).

(** The function that reads a required variable; every adapter has one:
    [if (!v) throw new Error("Missing env variable NAME")]. *)
Definition required_env (name : string) : IO string :=
  v ← getenv name;
  match nonempty v with
  | Some s => mret s
  | None => throw (Error ("Missing env variable " +:+ name))
  end.

(** The common tail of the adapters:
    [if (!response.ok) throw new Error(prefix + JSON.stringify(await response.json()))]. *)
Definition check_ok (prefix : string) (response : HttpResponse) : IO unit :=
  if ok response then mret tt
  else error ← json response; throw (ApiError prefix error).

(** ** [types.ts] *)

Inductive PaymentType : Type := subscription | one_time.

Definition PaymentType_string (t : PaymentType) : string :=
  match t with
  | subscription => "subscription"
  | one_time => "one-time"
  end.

Record CreateCheckoutLinkParams := mkCheckout
  { type : PaymentType;
    productId : string;
    email : option string;
    name : option string;
    redirectUrl : option string;
    customerId : option string;
    organizationId : option string;
    userId : option string;
    trialPeriodDays : option Z;
    seats : option Z }.

(** The fields of [CreateCustomerPortalLinkParams] carry the prefix
    [portal_]: two of them have the names of fields of the checkout
    parameters. *)
Record CreateCustomerPortalLinkParams := mkPortal
  { portal_subscriptionId : option string;
    portal_customerId : string;
    portal_redirectUrl : option string }.

(** [if (organizationId) m.organization_id = ...; if (userId) m.user_id = ...] *)
Definition metadata_of (params : CreateCheckoutLinkParams) : list (string * JSON) :=
  match nonempty (organizationId params) with
  | Some o => [("organization_id", JStr o)]
  | None => []
  end ++
  match nonempty (userId params) with
  | Some u => [("user_id", JStr u)]
  | None => []
  end.

Definition bearer (token : string) : string * string :=
  ("Authorization", "Bearer " +:+ token).

Definition respond (code : Z) (message : option string) : completion Response :=
  Return (mkResponse code message).

(** The [switch] on the event name: every case, the default included,
    is an empty placeholder. *)
Definition dispatch (cases : list string) (name : option JSON) : bool :=
  existsb (fun c => Json.is_string c name) cases.

Definition post_json (target : string) (auth : list (string * string)) (v : JSON)
  : HttpRequest :=
  mkHttpRequest target "POST" (auth ++ [("Content-Type", "application/json")])
    (JsonBody v).

(** ** [provider/stripe.ts] *)

Module Stripe.

Definition STRIPE_API_URL : string := "https://api.stripe.com/v1".

Definition getStripeSecretKey : IO string := required_env "STRIPE_SECRET_KEY".

Definition checkout_form (params : CreateCheckoutLinkParams)
  : list (string * string) :=
  [ ("mode", match type params with
             | subscription => "subscription"
             | one_time => "payment"
             end);
    ("success_url", default "" (redirectUrl params));
    ("line_items[0][price]", productId params);
    ("line_items[0][quantity]", string_of_Z (default 1 (seats params))) ]
  ++ match nonempty (customerId params), nonempty (email params) with
     | Some c, _ => [("customer", c)]
     | None, Some e => [("customer_email", e)]
     | None, None => []
     end
  ++ match nonempty (organizationId params) with
     | Some o => [("metadata[organization_id]", o)]
     | None => []
     end
  ++ match nonempty (userId params) with
     | Some u => [("metadata[user_id]", u)]
     | None => []
     end
  ++ match type params, trialPeriodDays params with
     | subscription, Some d =>
         if d =? 0 then []
         else [("subscription_data[trial_period_days]", string_of_Z d)]
     | _, _ => []
     end.

Definition createCheckoutLink (params : CreateCheckoutLinkParams)
  : IO (option JSON) :=
  secretKey ← getStripeSecretKey;
  response ← fetch
    (mkHttpRequest (STRIPE_API_URL +:+ "/checkout/sessions") "POST"
       [ bearer secretKey;
         ("Content-Type", "application/x-www-form-urlencoded") ]
       (FormBody (checkout_form params)));
  _ ← check_ok "Stripe API error: " response;
  session ← json response;
  lift (Json.get (Some session) "url").

Definition webhookHandler (env : gmap string string) (req : Request)
  : completion Response :=
  match nonempty (env !! "STRIPE_WEBHOOK_SECRET") with
  | None => respond 500 (Some "Missing STRIPE_WEBHOOK_SECRET")
  | Some webhookSecret =>
      match body req with
      | None => respond 400 (Some "Invalid request")
      | Some _ =>
          match nonempty (headers req !! "stripe-signature") with
          | None => respond 400 (Some "Missing stripe-signature header")
          | Some signature =>
              try_catch
                (event ← Json.parse (text req);
                 name ← Json.get (Some event) "type";
                 let _ := dispatch [ "checkout.session.completed";
                                     "customer.subscription.created";
                                     "customer.subscription.updated";
                                     "customer.subscription.deleted" ] name in
                 respond 200 None)
                (fun _ => respond 400 (Some "Invalid webhook payload"))
          end
      end
  end.

Definition portal_form (params : CreateCustomerPortalLinkParams)
  : list (string * string) :=
  [ ("customer", portal_customerId params) ]
  ++ match nonempty (portal_redirectUrl params) with
     | Some u => [("return_url", u)]
     | None => []
     end.

Definition createCustomerPortalLink (params : CreateCustomerPortalLinkParams)
  : IO (option JSON) :=
  secretKey ← getStripeSecretKey;
  response ← fetch
    (mkHttpRequest (STRIPE_API_URL +:+ "/billing_portal/sessions") "POST"
       [ bearer secretKey;
         ("Content-Type", "application/x-www-form-urlencoded") ]
       (FormBody (portal_form params)));
  _ ← check_ok "Stripe API error: " response;
  session ← json response;
  lift (Json.get (Some session) "url").

End Stripe.

(** ** [provider/lemonsqueezy.ts] *)

Module LemonSqueezy.

Definition LEMONSQUEEZY_API_URL : string := "https://api.lemonsqueezy.com/v1".

Definition getLemonSqueezyApiKey : IO string := required_env "LEMONSQUEEZY_API_KEY".
Definition getLemonSqueezyStoreId : IO string := required_env "LEMONSQUEEZY_STORE_ID".

Definition checkout_body (storeId : string) (params : CreateCheckoutLinkParams)
  : JSON :=
  let variant := json_of_number (parseInt (productId params)) in
  JObj
    [ ("data", JObj
        [ ("type", JStr "checkouts");
          ("attributes", JObj
            [ ("product_options", JObj (Json.object
                [ ("redirect_url", JStr <$> redirectUrl params);
                  ("enabled_variants", Some (JArr [variant])) ]));
              ("checkout_data", JObj (Json.object
                [ ("email", JStr <$> email params);
                  ("name", JStr <$> name params);
                  ("variant_quantities", Some (JArr
                    [ JObj [ ("variant_id", variant);
                             ("quantity", JNum (default 1 (seats params)) 0) ] ]));
                  ("custom", Some (JObj (metadata_of params))) ])) ]);
          ("relationships", JObj
            [ ("store", JObj [ ("data", JObj [ ("type", JStr "stores");
                                               ("id", JStr storeId) ]) ]);
              ("variant", JObj [ ("data", JObj [ ("type", JStr "variants");
                                                 ("id", JStr (productId params)) ]) ]) ]) ]) ].

Definition createCheckoutLink (params : CreateCheckoutLinkParams)
  : IO (option JSON) :=
  apiKey ← getLemonSqueezyApiKey;
  storeId ← getLemonSqueezyStoreId;
  response ← fetch
    (mkHttpRequest (LEMONSQUEEZY_API_URL +:+ "/checkouts") "POST"
       [ bearer apiKey;
         ("Content-Type", "application/vnd.api+json");
         ("Accept", "application/vnd.api+json") ]
       (JsonBody (checkout_body storeId params)));
  _ ← check_ok "LemonSqueezy API error: " response;
  result ← json response;
  lift (data ← Json.get (Some result) "data";
        attributes ← Json.get data "attributes";
        Json.get attributes "url").

Definition webhookHandler (env : gmap string string) (req : Request)
  : completion Response :=
  match nonempty (env !! "LEMONSQUEEZY_WEBHOOK_SECRET") with
  | None => respond 500 (Some "Missing LEMONSQUEEZY_WEBHOOK_SECRET")
  | Some webhookSecret =>
      try_catch
        (let text := text req in
         digest ← Buffer_from (Some (hmac_sha256_hex webhookSecret text));
         signature ← Buffer_from (headers req !! "x-signature");
         equal ← timingSafeEqual digest signature;
         if negb equal then respond 400 (Some "Invalid signature")
         else
           payload ← Json.parse text;
           meta ← Json.get (Some payload) "meta";
           name ← Json.get meta "event_name";
           let _ := dispatch [ "subscription_created"; "subscription_updated";
                               "subscription_cancelled"; "subscription_expired";
                               "order_created" ] name in
           respond 204 None)
        (fun _ => respond 400 (Some "Invalid webhook payload"))
  end.

(** [webhookHandler] once more, with the comparisons of signatures it
    performs next to its response. *)
Definition webhookHandler_observed (env : gmap string string) (req : Request)
  : completion Response * list comparison :=
  match nonempty (env !! "LEMONSQUEEZY_WEBHOOK_SECRET") with
  | None => (respond 500 (Some "Missing LEMONSQUEEZY_WEBHOOK_SECRET"), [])
  | Some webhookSecret =>
      let text := text req in
      let invalid := respond 400 (Some "Invalid webhook payload") in
      match Buffer_from (Some (hmac_sha256_hex webhookSecret text)),
            Buffer_from (headers req !! "x-signature") with
      | Return digest, Return signature =>
          (try_catch
             (equal ← timingSafeEqual digest signature;
              if negb equal then respond 400 (Some "Invalid signature")
              else
                payload ← Json.parse text;
                meta ← Json.get (Some payload) "meta";
                name ← Json.get meta "event_name";
                let _ := dispatch [ "subscription_created"; "subscription_updated";
                                    "subscription_cancelled"; "subscription_expired";
                                    "order_created" ] name in
                respond 204 None)
             (fun _ => invalid),
           [TimingSafeEqual digest signature])
      | _, _ => (invalid, [])
      end
  end.

End LemonSqueezy.

(** ** [provider/polar.ts] *)

Module Polar.

Definition POLAR_API_URL : string := "https://api.polar.sh/v1".

Definition getPolarAccessToken : IO string := required_env "POLAR_ACCESS_TOKEN".

Definition checkout_body (params : CreateCheckoutLinkParams) : JSON :=
  JObj (Json.object
    [ ("products", Some (JArr [JStr (productId params)]));
      ("success_url", Some (JStr (default "" (redirectUrl params))));
      ("metadata", Some (JObj (metadata_of params)));
      ("customer_id", JStr <$> nonempty (customerId params)) ]).

Definition createCheckoutLink (params : CreateCheckoutLinkParams)
  : IO (option JSON) :=
  accessToken ← getPolarAccessToken;
  response ← fetch
    (post_json (POLAR_API_URL +:+ "/checkouts") [bearer accessToken]
       (checkout_body params));
  _ ← check_ok "Polar API error: " response;
  result ← json response;
  lift (Json.get (Some result) "url").

Definition webhookHandler (env : gmap string string) (req : Request)
  : completion Response :=
  match nonempty (env !! "POLAR_WEBHOOK_SECRET") with
  | None => respond 500 (Some "Missing POLAR_WEBHOOK_SECRET")
  | Some webhookSecret =>
      match body req with
      | None => respond 400 (Some "No body")
      | Some _ =>
          try_catch
            (event ← Json.parse (text req);
             name ← Json.get (Some event) "type";
             let _ := dispatch [ "order.created"; "subscription.created";
                                 "subscription.updated";
                                 "subscription.canceled" ] name in
             respond 202 None)
            (fun _ => respond 400 (Some "Invalid webhook payload"))
      end
  end.

Definition createCustomerPortalLink (params : CreateCustomerPortalLinkParams)
  : IO (option JSON) :=
  accessToken ← getPolarAccessToken;
  response ← fetch
    (post_json (POLAR_API_URL +:+ "/customer-sessions") [bearer accessToken]
       (JObj [ ("customer_id", JStr (portal_customerId params)) ]));
  _ ← check_ok "Polar API error: " response;
  result ← json response;
  lift (Json.get (Some result) "customer_portal_url").

End Polar.

(** ** [provider/creem.ts] *)

Module Creem.

Definition getCreemApiUrl : IO string :=
  mode ← getenv "NODE_ENV";
  mret (if is_literal "production" mode
        then "https://api.creem.io/v1"
        else "https://test-api.creem.io/v1").

Definition getCreemApiKey : IO string := required_env "CREEM_API_KEY".

(** [creemFetch(path, { method: "POST", body })] *)
Definition creemFetch (path : string) (init_method : string) (init_body : JSON)
  : IO HttpResponse :=
  apiKey ← getCreemApiKey;
  baseUrl ← getCreemApiUrl;
  fetch (mkHttpRequest (baseUrl +:+ path) init_method
           [ ("x-api-key", apiKey); ("Content-Type", "application/json") ]
           (JsonBody init_body)).

Definition or_null (o : option string) : JSON :=
  match nonempty o with
  | Some s => JStr s
  | None => JNull
  end.

Definition checkout_body (params : CreateCheckoutLinkParams) : JSON :=
  JObj (Json.object
    [ ("product_id", Some (JStr (productId params)));
      ("units", Some (JNum (default 1 (seats params)) 0));
      ("success_url", JStr <$> redirectUrl params);
      ("metadata", Some (JObj
        [ ("organization_id", or_null (organizationId params));
          ("user_id", or_null (userId params)) ]));
      ("customer", Some (JObj (Json.object
        [ ("email", JStr <$> email params) ]))) ]).

Definition createCheckoutLink (params : CreateCheckoutLinkParams)
  : IO (option JSON) :=
  response ← creemFetch "/checkouts" "POST" (checkout_body params);
  _ ← check_ok "Creem API error: " response;
  result ← json response;
  lift (Json.get (Some result) "checkout_url").

Definition webhookHandler (env : gmap string string) (req : Request)
  : completion Response :=
  if strict_neq (method req) "POST" then respond 405 (Some "Method not allowed")
  else
    match nonempty (headers req !! "creem-signature") with
    | None => respond 400 (Some "Missing signature")
    | Some signature =>
        match nonempty (env !! "CREEM_WEBHOOK_SECRET") with
        | None => respond 500 (Some "Missing CREEM_WEBHOOK_SECRET")
        | Some secret =>
            let bodyText := text req in
            let computedSignature := hmac_sha256_hex secret bodyText in
            if strict_neq computedSignature signature
            then respond 400 (Some "Invalid signature")
            else
              try_catch
                (payload ← Json.parse bodyText;
                 name ← Json.get (Some payload) "eventType";
                 let _ := dispatch [ "checkout.completed"; "subscription.active";
                                     "subscription.canceled";
                                     "subscription.expired" ] name in
                 respond 204 None)
                (fun _ => respond 400 (Some "Invalid webhook payload"))
        end
    end.

(** [webhookHandler] once more, with the comparisons of signatures it
    performs next to its response. *)
Definition webhookHandler_observed (env : gmap string string) (req : Request)
  : completion Response * list comparison :=
  if strict_neq (method req) "POST" then (respond 405 (Some "Method not allowed"), [])
  else
    match nonempty (headers req !! "creem-signature") with
    | None => (respond 400 (Some "Missing signature"), [])
    | Some signature =>
        match nonempty (env !! "CREEM_WEBHOOK_SECRET") with
        | None => (respond 500 (Some "Missing CREEM_WEBHOOK_SECRET"), [])
        | Some secret =>
            let bodyText := text req in
            let computedSignature := hmac_sha256_hex secret bodyText in
            (if strict_neq computedSignature signature
             then respond 400 (Some "Invalid signature")
             else
               try_catch
                 (payload ← Json.parse bodyText;
                  name ← Json.get (Some payload) "eventType";
                  let _ := dispatch [ "checkout.completed"; "subscription.active";
                                      "subscription.canceled";
                                      "subscription.expired" ] name in
                  respond 204 None)
                 (fun _ => respond 400 (Some "Invalid webhook payload")),
             [StrictInequality computedSignature signature])
        end
    end.

Definition createCustomerPortalLink (params : CreateCustomerPortalLinkParams)
  : IO (option JSON) :=
  response ← creemFetch "/customers/billing" "POST"
               (JObj [ ("customer_id", JStr (portal_customerId params)) ]);
  _ ← check_ok "Creem API error: " response;
  result ← json response;
  lift (Json.get (Some result) "customer_portal_link").

End Creem.

(** ** [provider/dodopayments.ts] *)

Module DodoPayments.

Definition getDodoPaymentsApiUrl : IO string :=
  mode ← getenv "NODE_ENV";
  mret (if is_literal "production" mode
        then "https://api.dodopayments.com/v1"
        else "https://api.dodopayments.com/test/v1").

Definition getDodoPaymentsApiKey : IO string := required_env "DODO_PAYMENTS_API_KEY".

Definition checkout_body (params : CreateCheckoutLinkParams) : JSON :=
  JObj (Json.object
    [ ("product_cart", Some (JArr
        [ JObj [ ("product_id", JStr (productId params));
                 ("quantity", JNum (default 1 (seats params)) 0) ] ]));
      ("return_url", Some (JStr (default "" (redirectUrl params))));
      ("customer", Some
        match nonempty (customerId params) with
        | Some c => JObj [ ("customer_id", JStr c) ]
        | None => JObj [ ("email", JStr (default "" (email params)));
                         ("name", JStr (default "" (name params))) ]
        end);
      ("metadata", Some (JObj (metadata_of params)));
      ("subscription_data",
        match trialPeriodDays params with
        | Some d => if d =? 0 then None
                    else Some (JObj [ ("trial_period_days", JNum d 0) ])
        | None => None
        end) ]).

Definition createCheckoutLink (params : CreateCheckoutLinkParams)
  : IO (option JSON) :=
  apiKey ← getDodoPaymentsApiKey;
  baseUrl ← getDodoPaymentsApiUrl;
  response ← fetch
    (post_json (baseUrl +:+ "/checkout-sessions") [bearer apiKey]
       (checkout_body params));
  _ ← check_ok "DodoPayments API error: " response;
  result ← json response;
  lift (Json.get (Some result) "checkout_url").

Definition webhookHandler (env : gmap string string) (req : Request)
  : completion Response :=
  match nonempty (env !! "DODO_PAYMENTS_WEBHOOK_SECRET") with
  | None => respond 500 (Some "Missing DODO_PAYMENTS_WEBHOOK_SECRET")
  | Some webhookSecret =>
      match body req with
      | None => respond 400 (Some "Invalid request")
      | Some _ =>
          try_catch
            (let body := text req in
             match nonempty (headers req !! "webhook-id"),
                   nonempty (headers req !! "webhook-signature"),
                   nonempty (headers req !! "webhook-timestamp") with
             | Some webhookId, Some webhookSignature, Some webhookTimestamp =>
                 let payload :=
                   webhookId +:+ "." +:+ webhookTimestamp +:+ "." +:+ body in
                 let expectedSignature := hmac_sha256_hex webhookSecret payload in
                 if strict_neq webhookSignature expectedSignature
                 then respond 401 (Some "Invalid webhook signature")
                 else
                   event ← Json.parse body;
                   name ← Json.get (Some event) "type";
                   let _ := dispatch [ "checkout.session.completed";
                                       "subscription.created";
                                       "subscription.updated";
                                       "subscription.cancelled" ] name in
                   respond 204 None
             | _, _, _ => respond 400 (Some "Missing webhook headers")
             end)
            (fun _ => respond 400 (Some "Invalid webhook payload"))
      end
  end.

(** [webhookHandler] once more, with the comparisons of signatures it
    performs next to its response. *)
Definition webhookHandler_observed (env : gmap string string) (req : Request)
  : completion Response * list comparison :=
  match nonempty (env !! "DODO_PAYMENTS_WEBHOOK_SECRET") with
  | None => (respond 500 (Some "Missing DODO_PAYMENTS_WEBHOOK_SECRET"), [])
  | Some webhookSecret =>
      match body req with
      | None => (respond 400 (Some "Invalid request"), [])
      | Some _ =>
          let body := text req in
          match nonempty (headers req !! "webhook-id"),
                nonempty (headers req !! "webhook-signature"),
                nonempty (headers req !! "webhook-timestamp") with
          | Some webhookId, Some webhookSignature, Some webhookTimestamp =>
              let payload :=
                webhookId +:+ "." +:+ webhookTimestamp +:+ "." +:+ body in
              let expectedSignature := hmac_sha256_hex webhookSecret payload in
              (try_catch
                 (if strict_neq webhookSignature expectedSignature
                  then respond 401 (Some "Invalid webhook signature")
                  else
                    event ← Json.parse body;
                    name ← Json.get (Some event) "type";
                    let _ := dispatch [ "checkout.session.completed";
                                        "subscription.created";
                                        "subscription.updated";
                                        "subscription.cancelled" ] name in
                    respond 204 None)
                 (fun _ => respond 400 (Some "Invalid webhook payload")),
               [StrictInequality webhookSignature expectedSignature])
          | _, _, _ => (respond 400 (Some "Missing webhook headers"), [])
          end
      end
  end.

End DodoPayments.

(** ** [provider/tap.ts] *)

(** [@xyz/webhook-verifier] is a package of its own. Its verifier is a
    parameter of the Tap handler: [new WebhookVerifier({...tapConfig,
    secretKey})] is [newWebhookVerifier secretKey], and [verify] of the
    result takes the parsed payload and the headers. *)
Record VerificationResult := mkVerification
  { isValid : bool;
    error : option string;
    data : option JSON }.

Record WebhookVerifier := mkVerifier
  { verify : JSON -> gmap string string -> completion VerificationResult }.

Module Tap.

Definition TAP_API_URL : string := "https://api.tap.company/v2".

Definition getTapSecretKey : IO string := required_env "TAP_SECRET_KEY".

Record TapSavedCardResult := mkSavedCard
  { customerId : JSON;
    cardId : JSON;
    paymentAgreementId : JSON }.

(** An amount is a decimal number: [amount_mantissa * 10^amount_exponent]. *)
Record ChargeCardParams := mkChargeCard
  { charge_customerId : string;
    charge_cardId : string;
    charge_paymentAgreementId : string;
    amount_mantissa : Z;
    amount_exponent : Z;
    currency : string;
    description : option string;
    metadata : option (list (string * string)) }.

Record ChargeResult := mkChargeResult
  { chargeId : option JSON;
    chargeStatus : option JSON }.

Definition checkout_metadata (params : CreateCheckoutLinkParams)
  : list (string * JSON) :=
  metadata_of params ++
  [ ("product_id", JStr (productId params));
    ("quantity", JStr (string_of_Z (default 1 (seats params))));
    ("type", JStr (PaymentType_string (type params))) ].

Definition customer_of (email name : option string) : JSON :=
  JObj (Json.object
    [ ("email", JStr <$> email);
      ("first_name", Some (JStr (default "" (fst <$> (split_first_space <$> name)))));
      ("last_name", Some (JStr (default "" (snd <$> (split_first_space <$> name))))) ]).

Definition checkout_body (now : Z) (params : CreateCheckoutLinkParams) : JSON :=
  JObj
    [ ("amount", JNum 0 0);
      ("currency", JStr "USD");
      ("save_card", JBool match type params with
                          | subscription => true
                          | one_time => false
                          end);
      ("customer", customer_of (email params) (name params));
      ("source", JObj [ ("id", JStr "src_all") ]);
      ("redirect", JObj [ ("url", JStr (default "" (redirectUrl params))) ]);
      ("post", JObj [ ("url", JStr (default "" (redirectUrl params))) ]);
      ("metadata", JObj (checkout_metadata params));
      ("reference", JObj
        [ ("transaction", JStr (productId params));
          ("order", JStr (PaymentType_string (type params) +:+ "_"
                          +:+ string_of_Z now)) ]) ].

Definition createCheckoutLink (params : CreateCheckoutLinkParams)
  : IO (option JSON) :=
  secretKey ← getTapSecretKey;
  now ← Date_now;
  response ← fetch
    (post_json (TAP_API_URL +:+ "/charges") [bearer secretKey]
       (checkout_body now params));
  _ ← check_ok "Tap API error: " response;
  result ← json response;
  transaction ← lift (Json.get (Some result) "transaction");
  mret (Some (default JNull (Json.get_opt transaction "url"))).

Definition createCustomerPortalLink : IO (option JSON) :=
  throw (Error "Tap Payments does not have a built-in customer portal. Build your own billing management page using the subscription helpers.").

Definition token_body (params : ChargeCardParams) : JSON :=
  JObj [ ("saved_card", JObj [ ("card_id", JStr (charge_cardId params));
                               ("customer_id", JStr (charge_customerId params)) ]) ].

Definition charge_body (tokenId : option JSON) (params : ChargeCardParams) : JSON :=
  JObj (Json.object
    [ ("amount", Some (JNum (amount_mantissa params) (amount_exponent params)));
      ("currency", Some (JStr (currency params)));
      ("customer_initiated", Some (JBool false));
      ("source", Some (JObj (Json.object [ ("id", tokenId) ])));
      ("customer", Some (JObj [ ("id", JStr (charge_customerId params)) ]));
      ("payment_agreement",
        Some (JObj [ ("id", JStr (charge_paymentAgreementId params)) ]));
      ("description", Some (JStr (default "Recurring payment" (description params))));
      ("metadata",
        (fun ms => JObj (map (fun kv => (fst kv, JStr (snd kv))) ms))
          <$> metadata params) ]).

Definition token_request (secretKey : string) (params : ChargeCardParams)
  : HttpRequest :=
  post_json (TAP_API_URL +:+ "/tokens") [bearer secretKey] (token_body params).

Definition charge_request (secretKey : string) (tokenId : option JSON)
    (params : ChargeCardParams) : HttpRequest :=
  post_json (TAP_API_URL +:+ "/charges") [bearer secretKey]
    (charge_body tokenId params).

Definition chargeCard (params : ChargeCardParams) : IO ChargeResult :=
  secretKey ← getTapSecretKey;
  (* First, create a token from the saved card *)
  tokenResponse ← fetch (token_request secretKey params);
  _ ← check_ok "Tap Token API error: " tokenResponse;
  tokenResult ← json tokenResponse;
  tokenId ← lift (Json.get (Some tokenResult) "id");
  (* Create a merchant-initiated charge *)
  chargeResponse ← fetch (charge_request secretKey tokenId params);
  _ ← check_ok "Tap Charge API error: " chargeResponse;
  chargeResult ← json chargeResponse;
  id ← lift (Json.get (Some chargeResult) "id");
  st ← lift (Json.get (Some chargeResult) "status");
  mret (mkChargeResult id st).

(** The casts [as string] are not checked: a field holds whatever
    truthy value the payload has. *)
Definition extractSavedCardFromWebhook (webhookData : option JSON)
  : completion (option TapSavedCardResult) :=
  card ← Json.get webhookData "card";
  customer ← Json.get webhookData "customer";
  paymentAgreement ← Json.get webhookData "payment_agreement";
  if negb (Json.truthy (Json.get_opt card "id"))
     || negb (Json.truthy (Json.get_opt customer "id"))
     || negb (Json.truthy (Json.get_opt paymentAgreement "id"))
  then Return None
  else Return (Some (mkSavedCard
                       (default JNull (Json.get_opt customer "id"))
                       (default JNull (Json.get_opt card "id"))
                       (default JNull (Json.get_opt paymentAgreement "id")))).

Definition getTapVerifier (newWebhookVerifier : string -> WebhookVerifier)
    (env : gmap string string) : completion WebhookVerifier :=
  match nonempty (env !! "TAP_WEBHOOK_SECRET") with
  | None => Throw (Error "Missing TAP_WEBHOOK_SECRET")
  | Some webhookSecret => Return (newWebhookVerifier webhookSecret)
  end.

Definition webhookHandler (newWebhookVerifier : string -> WebhookVerifier)
    (env : gmap string string) (req : Request) : completion Response :=
  match body req with
  | None => respond 400 (Some "Invalid request")
  | Some _ =>
      try_catch
        (let body := text req in
         verifier ← getTapVerifier newWebhookVerifier env;
         payload ← Json.parse body;
         result ← verify verifier payload (headers req);
         if negb (isValid result)
         then respond 401 (Some ("Invalid signature: "
                                 +:+ default "undefined" (error result)))
         else
           let event := data result in
           name ← Json.get event "event";
           _ ← (if Json.is_string "CHARGE.CAPTURED" name
                then eventData ← Json.get event "data";
                     savedCard ← extractSavedCardFromWebhook eventData;
                     Return tt
                else Return tt);
           respond 200 None)
        (fun _ => respond 400 (Some "Invalid webhook payload"))
  end.

(** [CreateChargeParams]; its fields carry the prefix [new_]. *)
Record CreateChargeParams := mkCreateCharge
  { new_amount_mantissa : Z;
    new_amount_exponent : Z;
    new_currency : string;
    new_email : option string;
    new_name : option string;
    new_saveCard : option bool;
    new_redirectUrl : option string;
    new_description : option string;
    new_metadata : option (list (string * string)) }.

Record CreateChargeResult := mkCreateChargeResult
  { created_chargeId : option JSON;
    created_url : JSON }.

Definition createCharge_body (params : CreateChargeParams) : JSON :=
  JObj (Json.object
    [ ("amount", Some (JNum (new_amount_mantissa params) (new_amount_exponent params)));
      ("currency", Some (JStr (new_currency params)));
      ("save_card", Some (JBool (default false (new_saveCard params))));
      ("customer", Some (customer_of (new_email params) (new_name params)));
      ("source", Some (JObj [ ("id", JStr "src_all") ]));
      ("redirect", Some (JObj [ ("url", JStr (default "" (new_redirectUrl params))) ]));
      ("post", Some (JObj [ ("url", JStr (default "" (new_redirectUrl params))) ]));
      ("description", JStr <$> new_description params);
      ("metadata",
        (fun ms => JObj (map (fun kv => (fst kv, JStr (snd kv))) ms))
          <$> new_metadata params) ]).

Definition createCharge (params : CreateChargeParams) : IO CreateChargeResult :=
  secretKey ← getTapSecretKey;
  response ← fetch
    (post_json (TAP_API_URL +:+ "/charges") [bearer secretKey]
       (createCharge_body params));
  _ ← check_ok "Tap Charge API error: " response;
  result ← json response;
  id ← lift (Json.get (Some result) "id");
  transaction ← lift (Json.get (Some result) "transaction");
  mret (mkCreateChargeResult id (default JNull (Json.get_opt transaction "url"))).

End Tap.

(** ** [provider/console.ts] and [provider/custom.ts] *)

Module Console.

(** [logger.info] writes to the log of [@xyz/logger] and has no
    other effect. *)
Definition createCheckoutLink (params : CreateCheckoutLinkParams)
  : IO (option JSON) :=
  mret (Some (JStr "https://example.com/checkout/mock-session-id")).

Definition webhookHandler (env : gmap string string) (req : Request)
  : completion Response :=
  respond 200 None.

Definition createCustomerPortalLink (params : CreateCustomerPortalLinkParams)
  : IO (option JSON) :=
  mret (Some (JStr "https://example.com/portal/mock-session-id")).

End Console.

Module Custom.

Definition createCheckoutLink (params : CreateCheckoutLinkParams)
  : IO (option JSON) :=
  throw (Error "Custom createCheckoutLink not implemented").

Definition webhookHandler (env : gmap string string) (req : Request)
  : completion Response :=
  Throw (Error "Custom webhookHandler not implemented").

Definition createCustomerPortalLink (params : CreateCustomerPortalLinkParams)
  : IO (option JSON) :=
  throw (Error "Custom createCustomerPortalLink not implemented").

End Custom.

(** ** The providers side by side *)

(** [PaymentProviderName] of the README. *)
Inductive PaymentProviderName : Type :=
| stripe | lemonsqueezy | polar | creem | dodopayments | tap | console | custom.

(** The [webhookHandler] export of each provider module. *)
Definition webhookHandler_of (newWebhookVerifier : string -> WebhookVerifier)
    (p : PaymentProviderName) : gmap string string -> Request -> completion Response :=
  match p with
  | stripe => Stripe.webhookHandler
  | lemonsqueezy => LemonSqueezy.webhookHandler
  | polar => Polar.webhookHandler
  | creem => Creem.webhookHandler
  | dodopayments => DodoPayments.webhookHandler
  | tap => Tap.webhookHandler newWebhookVerifier
  | console => Console.webhookHandler
  | custom => Custom.webhookHandler
  end.

(** The [createCheckoutLink] export of each provider module. *)
Definition createCheckoutLink_of (p : PaymentProviderName)
  : CreateCheckoutLinkParams -> IO (option JSON) :=
  match p with
  | stripe => Stripe.createCheckoutLink
  | lemonsqueezy => LemonSqueezy.createCheckoutLink
  | polar => Polar.createCheckoutLink
  | creem => Creem.createCheckoutLink
  | dodopayments => DodoPayments.createCheckoutLink
  | tap => Tap.createCheckoutLink
  | console => Console.createCheckoutLink
  | custom => Custom.createCheckoutLink
  end.

(** ** The vocabulary of the specification *)

(** The status of the response a handler returns; nothing when it throws. *)
Definition status_of (c : completion Response) : option Z :=
  match c with
  | Return r => Some (status r)
  | Throw _ => None
  end.

(** Error taxonomy: a [ConfigurationError] is the error of a missing
    required variable, a [ProviderError] the error that carries the
    diagnostic body of a non-success response. *)
Fixpoint starts_with (prefix s : string) : bool :=
  match prefix, s with
  | EmptyString, _ => true
  | String a prefix', String b s' => Ascii.eqb a b && starts_with prefix' s'
  | String _ _, EmptyString => false
  end.

Definition is_ConfigurationError (e : exn) : bool :=
  match e with
  | Error m => starts_with "Missing env variable " m
  | _ => false
  end.

Definition is_ProviderError (e : exn) : bool :=
  match e with
  | ApiError _ _ => true
  | _ => false
  end.

(** The success status of each webhook handler in the table of the
    specification; [Custom] has no entry. *)
Definition success_status (p : PaymentProviderName) : option Z :=
  match p with
  | stripe => Some 200
  | lemonsqueezy => Some 204
  | polar => Some 202
  | creem => Some 204
  | dodopayments => Some 204
  | tap => Some 200
  | console => Some 200
  | custom => None
  end.

(** The variable that holds the webhook secret of a provider. *)
Definition webhook_secret_variable (p : PaymentProviderName) : option string :=
  match p with
  | stripe => Some "STRIPE_WEBHOOK_SECRET"
  | lemonsqueezy => Some "LEMONSQUEEZY_WEBHOOK_SECRET"
  | polar => Some "POLAR_WEBHOOK_SECRET"
  | creem => Some "CREEM_WEBHOOK_SECRET"
  | dodopayments => Some "DODO_PAYMENTS_WEBHOOK_SECRET"
  | tap => Some "TAP_WEBHOOK_SECRET"
  | console | custom => None
  end.

(** The variables [createCheckoutLink] requires. *)
Definition required_variables (p : PaymentProviderName) : list string :=
  match p with
  | stripe => ["STRIPE_SECRET_KEY"]
  | lemonsqueezy => ["LEMONSQUEEZY_API_KEY"; "LEMONSQUEEZY_STORE_ID"]
  | polar => ["POLAR_ACCESS_TOKEN"]
  | creem => ["CREEM_API_KEY"]
  | dodopayments => ["DODO_PAYMENTS_API_KEY"]
  | tap => ["TAP_SECRET_KEY"]
  | console | custom => []
  end.




(** The member a handler reads of the parsed payload to find the event
    name does not fail: the payload is not [null], and for LemonSqueezy
    its [meta] member is neither missing nor [null]. *)
Definition event_readable (p : PaymentProviderName) (payload : JSON) : Prop :=
  match p with
  | lemonsqueezy =>
      exists meta, Json.get (Some payload) "meta" = Return (Some meta)
                   /\ meta <> JNull
  | _ => payload <> JNull
  end.


(** An event the Tap handler gets through after verification. *)
Definition tap_event_readable (event : option JSON) : Prop :=
  exists name, Json.get event "event" = Return name /\
    (Json.is_string "CHARGE.CAPTURED" name = true ->
     exists d, Json.get event "data" = Return (Some d) /\ d <> JNull).

(** The webhook secret of the provider is configured, where it has one. *)
Definition secret_configured (p : PaymentProviderName) (env : gmap string string)
    (secret : string) : Prop :=
  match webhook_secret_variable p with
  | Some var => nonempty (env !! var) = Some secret
  | None => True
  end.

Definition secret_absent (p : PaymentProviderName) (env : gmap string string) : Prop :=
  match webhook_secret_variable p with
  | Some var => nonempty (env !! var) = None
  | None => False
  end.



(** The requests a call has sent, and its completion, starting from a
    world in which nothing has been sent. *)
Definition sent_by {A} (c : IO A) (w : World) : list HttpRequest := snd (c w []).
Definition completion_of {A} (c : IO A) (w : World) : completion A := fst (c w []).

Definition is_charge_call (r : HttpRequest) : Prop :=
  url r = Tap.TAP_API_URL +:+ "/charges".

Definition is_token_call (r : HttpRequest) : Prop :=
  url r = Tap.TAP_API_URL +:+ "/tokens".

(** A member of the JSON body of an outbound request. *)
Definition body_member (name : string) (r : HttpRequest) : option JSON :=
  match httpBody r with
  | JsonBody v => Json.get_opt (Some v) name
  | FormBody _ => None
  end.

(** The quantity 1 as a provider writes it: a number in a JSON body, the
    string [1] in the form of Stripe and in the metadata of Tap. *)
Definition quantity_one (p : PaymentProviderName) : JSON :=
  match p with
  | stripe | tap => JStr "1"
  | _ => JNum 1 0
  end.

(** Providers whose [createCheckoutLink] writes the seats in its request. *)
Definition writes_quantity (p : PaymentProviderName) : bool :=
  match p with
  | stripe | lemonsqueezy | creem | dodopayments | tap => true
  | polar | console | custom => false
  end.

Definition variables_configured (p : PaymentProviderName) (w : World) : Prop :=
  Forall (fun var => is_Some (nonempty (env w !! var))) (required_variables p).

(** The identifier [k.id] of a captured charge, with optional chaining. *)
Definition saved_id (webhookData : JSON) (k : string) : option JSON :=
  Json.get_opt (Json.get_opt (Some webhookData) k) "id".

(** Where the quantity sits in the outbound request of a provider. *)
Definition at_index0 (v : option JSON) : option JSON :=
  match v with
  | Some (JArr (x :: _)) => Some x
  | _ => None
  end.

Fixpoint form_get (k : string) (fs : list (string * string)) : option string :=
  match fs with
  | [] => None
  | (k', v) :: fs' => if String.eqb k k' then Some v else form_get k fs'
  end.

Definition quantity_of (p : PaymentProviderName) (r : HttpRequest) : option JSON :=
  match p, httpBody r with
  | stripe, FormBody fs => JStr <$> form_get "line_items[0][quantity]" fs
  | lemonsqueezy, JsonBody v =>
      let data := Json.get_opt (Some v) "data" in
      let attributes := Json.get_opt data "attributes" in
      let checkout_data := Json.get_opt attributes "checkout_data" in
      let quantities := Json.get_opt checkout_data "variant_quantities" in
      Json.get_opt (at_index0 quantities) "quantity"
  | creem, JsonBody v => Json.get_opt (Some v) "units"
  | dodopayments, JsonBody v =>
      Json.get_opt (at_index0 (Json.get_opt (Some v) "product_cart")) "quantity"
  | tap, JsonBody v => Json.get_opt (Json.get_opt (Some v) "metadata") "quantity"
  | _, _ => None
  end.

(** Every member name that occurs in a value, at any depth. *)
Fixpoint member_names (v : JSON) : list string :=
  match v with
  | JArr xs => (fix go (xs : list JSON) : list string :=
                  match xs with
                  | [] => []
                  | x :: xs' => member_names x ++ go xs'
                  end) xs
  | JObj ms => (fix go (ms : list (string * JSON)) : list string :=
                  match ms with
                  | [] => []
                  | (k, x) :: ms' => k :: member_names x ++ go ms'
                  end) ms
  | _ => []
  end.

Definition body_member_names (r : HttpRequest) : list string :=
  match httpBody r with
  | FormBody fs => map fst fs
  | JsonBody v => member_names v
  end.

(** ** The vocabulary of the adapters' calls *)

(** What an adapter makes of the answer to its request: the error of
    [fetch] itself, the error with the diagnostic body on a non-success
    status, and on success what [read] finds in the parsed body. *)
Definition outcome {A} (prefix : string) (read : JSON -> completion A)
    (answer : completion HttpResponse) : completion A :=
  response ← answer;
  if ok response
  then v ← Json.parse (httpText response); read v
  else d ← Json.parse (httpText response); Throw (ApiError prefix d).

(** The text each adapter puts before the diagnostic body. *)
Definition error_prefix (p : PaymentProviderName) : string :=
  match p with
  | stripe => "Stripe API error: "
  | lemonsqueezy => "LemonSqueezy API error: "
  | polar => "Polar API error: "
  | creem => "Creem API error: "
  | dodopayments => "DodoPayments API error: "
  | tap => "Tap API error: "
  | console | custom => ""
  end.

(** How [createCheckoutLink] reads the link in the parsed response:
    [session.url], [result.data.attributes.url], [result.checkout_url],
    [result.transaction?.url ?? null]. *)
Definition read_link (p : PaymentProviderName) (v : JSON) : completion (option JSON) :=
  match p with
  | stripe | polar => Json.get (Some v) "url"
  | lemonsqueezy =>
      data ← Json.get (Some v) "data";
      attributes ← Json.get data "attributes";
      Json.get attributes "url"
  | creem | dodopayments => Json.get (Some v) "checkout_url"
  | tap =>
      transaction ← Json.get (Some v) "transaction";
      Return (Some (default JNull (Json.get_opt transaction "url")))
  | console | custom => Return None
  end.

(** The member of the response that holds the link. *)
Definition link_of (p : PaymentProviderName) (v : JSON) : option JSON :=
  match p with
  | stripe | polar => Json.get_opt (Some v) "url"
  | lemonsqueezy =>
      Json.get_opt (Json.get_opt (Json.get_opt (Some v) "data") "attributes") "url"
  | creem | dodopayments => Json.get_opt (Some v) "checkout_url"
  | tap => Json.get_opt (Json.get_opt (Some v) "transaction") "url"
  | console | custom => None
  end.

(** The variable that holds the API key, and the header that carries it. *)
Definition api_key_variable (p : PaymentProviderName) : option string :=
  match p with
  | stripe => Some "STRIPE_SECRET_KEY"
  | lemonsqueezy => Some "LEMONSQUEEZY_API_KEY"
  | polar => Some "POLAR_ACCESS_TOKEN"
  | creem => Some "CREEM_API_KEY"
  | dodopayments => Some "DODO_PAYMENTS_API_KEY"
  | tap => Some "TAP_SECRET_KEY"
  | console | custom => None
  end.

Definition auth_header (p : PaymentProviderName) (key : string) : string * string :=
  match p with
  | creem => ("x-api-key", key)
  | _ => bearer key
  end.

(** The statuses a webhook handler answers with. *)
Definition possible_statuses (p : PaymentProviderName) : list Z :=
  match p with
  | stripe => [200; 400; 500]
  | lemonsqueezy => [204; 400; 500]
  | polar => [202; 400; 500]
  | creem => [204; 400; 405; 500]
  | dodopayments => [204; 400; 401; 500]
  | tap => [200; 400; 401]
  | console => [200]
  | custom => []
  end.

(** The seats as a provider writes them in its request. *)
Definition quantity_as (p : PaymentProviderName) (n : Z) : JSON :=
  match p with
  | stripe | tap => JStr (string_of_Z n)
  | _ => JNum n 0
  end.

(** Where the organization and the user sit in the request of a
    provider. *)
Definition metadata_member (name : string) (p : PaymentProviderName)
    (r : HttpRequest) : option JSON :=
  match p, httpBody r with
  | stripe, FormBody fs => JStr <$> form_get ("metadata[" +:+ name +:+ "]") fs
  | lemonsqueezy, JsonBody v =>
      let data := Json.get_opt (Some v) "data" in
      let attributes := Json.get_opt data "attributes" in
      let checkout_data := Json.get_opt attributes "checkout_data" in
      Json.get_opt (Json.get_opt checkout_data "custom") name
  | (polar | creem | dodopayments | tap), JsonBody v =>
      Json.get_opt (Json.get_opt (Some v) "metadata") name
  | _, _ => None
  end.

(** A provider with a key of its own. *)
Definition keyed (p : PaymentProviderName) : bool :=
  match p with
  | console | custom => false
  | _ => true
  end.

(** A string without a space. *)
Fixpoint no_space (s : string) : bool :=
  match s with
  | EmptyString => true
  | String c s' => negb (Ascii.eqb c " "%char) && no_space s'
  end.

(** The fields of [CreateCheckoutLinkParams]. *)
Inductive Field : Type :=
| f_type | f_productId | f_email | f_name | f_redirectUrl | f_customerId
| f_organizationId | f_userId | f_trialPeriodDays | f_seats.

(** Two requests for a checkout link agree in a field. *)
Definition same_at (f : Field) (a b : CreateCheckoutLinkParams) : Prop :=
  match f with
  | f_type => type a = type b
  | f_productId => productId a = productId b
  | f_email => email a = email b
  | f_name => name a = name b
  | f_redirectUrl => redirectUrl a = redirectUrl b
  | f_customerId => customerId a = customerId b
  | f_organizationId => organizationId a = organizationId b
  | f_userId => userId a = userId b
  | f_trialPeriodDays => trialPeriodDays a = trialPeriodDays b
  | f_seats => seats a = seats b
  end.

(** The fields [createCheckoutLink] of a provider mentions. *)
Definition fields_read (p : PaymentProviderName) : list Field :=
  match p with
  | stripe => [ f_type; f_productId; f_email; f_redirectUrl; f_customerId;
                f_organizationId; f_userId; f_trialPeriodDays; f_seats ]
  | lemonsqueezy => [ f_productId; f_email; f_name; f_redirectUrl;
                      f_organizationId; f_userId; f_seats ]
  | polar => [ f_productId; f_redirectUrl; f_customerId; f_organizationId;
               f_userId ]
  | creem => [ f_productId; f_email; f_redirectUrl; f_organizationId; f_userId;
               f_seats ]
  | dodopayments => [ f_productId; f_email; f_name; f_redirectUrl; f_customerId;
                      f_organizationId; f_userId; f_trialPeriodDays; f_seats ]
  | tap => [ f_type; f_productId; f_email; f_name; f_redirectUrl;
             f_organizationId; f_userId; f_seats ]
  | console | custom => []
  end.

(** A request for a checkout link with one field changed. *)
Definition alter (f : Field) (a : CreateCheckoutLinkParams) : CreateCheckoutLinkParams :=
  let other := fun o => Some (default "" o +:+ "x") in
  let next := fun o => Some (default 1 o + 1) in
  match f with
  | f_type =>
      mkCheckout (match type a with subscription => one_time | one_time => subscription end)
        (productId a) (email a) (name a) (redirectUrl a) (customerId a)
        (organizationId a) (userId a) (trialPeriodDays a) (seats a)
  | f_productId =>
      mkCheckout (type a) (productId a +:+ "x") (email a) (name a) (redirectUrl a)
        (customerId a) (organizationId a) (userId a) (trialPeriodDays a) (seats a)
  | f_email =>
      mkCheckout (type a) (productId a) (other (email a)) (name a) (redirectUrl a)
        (customerId a) (organizationId a) (userId a) (trialPeriodDays a) (seats a)
  | f_name =>
      mkCheckout (type a) (productId a) (email a) (other (name a)) (redirectUrl a)
        (customerId a) (organizationId a) (userId a) (trialPeriodDays a) (seats a)
  | f_redirectUrl =>
      mkCheckout (type a) (productId a) (email a) (name a) (other (redirectUrl a))
        (customerId a) (organizationId a) (userId a) (trialPeriodDays a) (seats a)
  | f_customerId =>
      mkCheckout (type a) (productId a) (email a) (name a) (redirectUrl a)
        (other (customerId a)) (organizationId a) (userId a) (trialPeriodDays a)
        (seats a)
  | f_organizationId =>
      mkCheckout (type a) (productId a) (email a) (name a) (redirectUrl a)
        (customerId a) (other (organizationId a)) (userId a) (trialPeriodDays a)
        (seats a)
  | f_userId =>
      mkCheckout (type a) (productId a) (email a) (name a) (redirectUrl a)
        (customerId a) (organizationId a) (other (userId a)) (trialPeriodDays a)
        (seats a)
  | f_trialPeriodDays =>
      mkCheckout (type a) (productId a) (email a) (name a) (redirectUrl a)
        (customerId a) (organizationId a) (userId a) (next (trialPeriodDays a))
        (seats a)
  | f_seats =>
      mkCheckout (type a) (productId a) (email a) (name a) (redirectUrl a)
        (customerId a) (organizationId a) (userId a) (trialPeriodDays a)
        (next (seats a))
  end.

(** Where the customer and the email address sit in the request of
    the two providers that take either. *)
Definition customer_in (p : PaymentProviderName) (r : HttpRequest) : option JSON :=
  match p, httpBody r with
  | stripe, FormBody fs => JStr <$> form_get "customer" fs
  | dodopayments, JsonBody v =>
      Json.get_opt (Json.get_opt (Some v) "customer") "customer_id"
  | _, _ => None
  end.

Definition email_in (p : PaymentProviderName) (r : HttpRequest) : option JSON :=
  match p, httpBody r with
  | stripe, FormBody fs => JStr <$> form_get "customer_email" fs
  | dodopayments, JsonBody v =>
      Json.get_opt (Json.get_opt (Some v) "customer") "email"
  | _, _ => None
  end.

(** Where the variant sits in the request of LemonSqueezy: in the
    quantities of the checkout data, and in the enabled variants. *)
Definition variant_of (r : HttpRequest) : option JSON :=
  match httpBody r with
  | JsonBody v =>
      let data := Json.get_opt (Some v) "data" in
      let attributes := Json.get_opt data "attributes" in
      let checkout_data := Json.get_opt attributes "checkout_data" in
      Json.get_opt (at_index0 (Json.get_opt checkout_data "variant_quantities"))
        "variant_id"
  | FormBody _ => None
  end.

Definition enabled_variant_of (r : HttpRequest) : option JSON :=
  match httpBody r with
  | JsonBody v =>
      let data := Json.get_opt (Some v) "data" in
      let attributes := Json.get_opt data "attributes" in
      let product_options := Json.get_opt attributes "product_options" in
      at_index0 (Json.get_opt product_options "enabled_variants")
  | FormBody _ => None
  end.

(** Where the trial days sit in the request of a provider. *)
Definition trial_of (p : PaymentProviderName) (r : HttpRequest) : option JSON :=
  match p, httpBody r with
  | stripe, FormBody fs =>
      JStr <$> form_get "subscription_data[trial_period_days]" fs
  | dodopayments, JsonBody v =>
      Json.get_opt (Json.get_opt (Some v) "subscription_data") "trial_period_days"
  | _, _ => None
  end.

(** The trial days as a provider writes them. *)
Definition trial_as (p : PaymentProviderName) (d : Z) : JSON :=
  match p with
  | stripe => JStr (string_of_Z d)
  | _ => JNum d 0
  end.

(** The base address of the API of a provider, in production and
    otherwise, and the path of its checkout endpoint. *)
Definition api_url (p : PaymentProviderName) (production : bool) : string :=
  match p with
  | stripe => "https://api.stripe.com/v1"
  | lemonsqueezy => "https://api.lemonsqueezy.com/v1"
  | polar => "https://api.polar.sh/v1"
  | creem => if production then "https://api.creem.io/v1"
             else "https://test-api.creem.io/v1"
  | dodopayments => if production then "https://api.dodopayments.com/v1"
                    else "https://api.dodopayments.com/test/v1"
  | tap => "https://api.tap.company/v2"
  | console | custom => ""
  end.

Definition checkout_path (p : PaymentProviderName) : string :=
  match p with
  | stripe => "/checkout/sessions"
  | lemonsqueezy | polar | creem => "/checkouts"
  | dodopayments => "/checkout-sessions"
  | tap => "/charges"
  | console | custom => ""
  end.

(** The [createCustomerPortalLink] export of a provider module. Those
    of LemonSqueezy and DodoPayments send a request without a body,
    which [Body] does not describe; they have no entry. *)
Definition createCustomerPortalLink_of (p : PaymentProviderName)
  : option (CreateCustomerPortalLinkParams -> IO (option JSON)) :=
  match p with
  | stripe => Some Stripe.createCustomerPortalLink
  | polar => Some Polar.createCustomerPortalLink
  | creem => Some Creem.createCustomerPortalLink
  | tap => Some (fun _ => Tap.createCustomerPortalLink)
  | console => Some Console.createCustomerPortalLink
  | custom => Some Custom.createCustomerPortalLink
  | lemonsqueezy | dodopayments => None
  end.

(** The path of the portal endpoint, the member of the response that
    holds the portal link, and where the customer sits in the request. *)
Definition portal_path (p : PaymentProviderName) : string :=
  match p with
  | stripe => "/billing_portal/sessions"
  | polar => "/customer-sessions"
  | creem => "/customers/billing"
  | _ => ""
  end.

Definition portal_member (p : PaymentProviderName) : string :=
  match p with
  | stripe => "url"
  | polar => "customer_portal_url"
  | creem => "customer_portal_link"
  | _ => ""
  end.

Definition portal_customer (p : PaymentProviderName) (r : HttpRequest)
  : option JSON :=
  match p, httpBody r with
  | stripe, FormBody fs => JStr <$> form_get "customer" fs
  | (polar | creem), JsonBody v => Json.get_opt (Some v) "customer_id"
  | _, _ => None
  end.

(** Providers whose portal call goes to the network. *)
Definition has_portal_call (p : PaymentProviderName) : bool :=
  match p with
  | stripe | polar | creem => true
  | _ => false
  end.

(** ** The criterion of the specification for a comparison

    [timingSafeEqual] is constant-time; ordinary string equality is
    not, and the specification calls its use a defect. *)
Definition constant_time (c : comparison) : bool :=
  match c with
  | TimingSafeEqual _ _ => true
  | StrictInequality _ _ => false
  end.

(** ** Sample data *)

Module Sample.

(** A stand-in for the verifier of [@xyz/webhook-verifier]: it accepts
    a payload when the [hashstring] header is the HMAC of the
    payload's [id] under the secret. *)
Definition newWebhookVerifier (secretKey : string) : WebhookVerifier :=
  mkVerifier (fun payload hs =>
    let id := match Json.get_opt (Some payload) "id" with
              | Some (JStr s) => s
              | _ => ""
              end in
    if is_literal (hmac_sha256_hex secretKey id) (hs !! "hashstring")
    then Return (mkVerification true None (Some payload))
    else Return (mkVerification false (Some "hash mismatch") None)).

Definition lemonsqueezy_body : string :=
  (json_text "{'meta':{'event_name':'subscription_created'},'data':{}}").

Definition dodo_body : string :=
  (json_text "{'type':'subscription.created','data':{}}").

Definition stripe_body : string :=
  (json_text "{'type':'checkout.session.completed','data':{'object':{'amount_total':100}}}").


Definition creem_body : string :=
  (json_text "{'eventType':'checkout.completed','object':{}}").

Definition tap_body : string :=
  (json_text "{'id':'chg_1','event':'CHARGE.CAPTURED','data':{'card':{'id':'card_1'},'customer':{'id':'cus_1'},'payment_agreement':{'id':'pa_1'}}}").

Definition webhook_env : gmap string string :=
  list_to_map
    [ ("STRIPE_WEBHOOK_SECRET", "whsec_stripe");
      ("LEMONSQUEEZY_WEBHOOK_SECRET", "shh");
      ("POLAR_WEBHOOK_SECRET", "whsec_polar");
      ("CREEM_WEBHOOK_SECRET", "whsec_creem");
      ("DODO_PAYMENTS_WEBHOOK_SECRET", "whsec_dodo");
      ("TAP_WEBHOOK_SECRET", "whsec_tap") ].



Definition dodo_headers (signature : string) : gmap string string :=
  list_to_map
    [ ("webhook-id", "wh_1");
      ("webhook-timestamp", "1700000000");
      ("webhook-signature", signature) ].


(** The DodoPayments request of the end-to-end scenario, with any
    method and any further headers. *)
Definition dodo_request (m : string) (extra : gmap string string)
    (signature : string) : Request :=
  mkRequest m
    (<["webhook-id" := "wh_1"]>
       (<["webhook-timestamp" := "1700000000"]>
          (<["webhook-signature" := signature]> extra)))
    (Some dodo_body).

Definition dodo_signed_message : string := "wh_1.1700000000." +:+ dodo_body.

(** The LemonSqueezy request of the end-to-end scenario. *)
Definition lemonsqueezy_request (m : string) (extra : gmap string string)
    (signature : string) : Request :=
  mkRequest m (<["x-signature" := signature]> extra) (Some lemonsqueezy_body).

(** A wrong Creem signature as long as the right one, [e055...48f3],
    and a wrong DodoPayments signature as long as the right one,
    [6423...e0b5]. *)
Definition creem_wrong_first : string :=
  "f055a3cc180df06aa3b9b0d71d05407f20744b42aed9575a672c0b2c55a148f3".

Definition dodo_wrong_first : string :=
  "7423a3b82426767b07cf51814e59a8ac19041245a263aec7c7eec2624b2fe0b5".

(** The byte order mark, [EF BB BF]. *)
Definition byte_order_mark : string :=
  String (ascii_of_nat 239) (String (ascii_of_nat 187) (String (ascii_of_nat 191) "")).

Definition creem_request (signature : string) : Request :=
  mkRequest "POST" {[ "creem-signature" := signature ]} (Some creem_body).


Definition tap_respaced_body : string :=
  (json_text "{'id':'chg_1', 'event':'CHARGE.CAPTURED','data':{'card':{'id':'card_1'},'customer':{'id':'cus_1'},'payment_agreement':{'id':'pa_1'}}}").

Definition tap_headers : gmap string string :=
  {[ "hashstring" := hmac_sha256_hex "whsec_tap" "chg_1" ]}.

Definition params : CreateCheckoutLinkParams :=
  mkCheckout subscription "prod_1" (Some "user@example.com") (Some "Ada Lovelace")
    (Some "https://example.com/success") None (Some "org_1") None None None.

Definition answer (code : Z) (txt : string)
  : list HttpRequest -> HttpRequest -> completion HttpResponse :=
  fun _ _ => Return (mkHttpResponse code txt).

Definition checkout_env : gmap string string :=
  list_to_map
    [ ("STRIPE_SECRET_KEY", "sk_test");
      ("LEMONSQUEEZY_API_KEY", "ls_key");
      ("LEMONSQUEEZY_STORE_ID", "42");
      ("POLAR_ACCESS_TOKEN", "polar_token");
      ("CREEM_API_KEY", "creem_key");
      ("DODO_PAYMENTS_API_KEY", "dodo_key");
      ("TAP_SECRET_KEY", "sk_tap") ].

Definition world : World :=
  mkWorld checkout_env (answer 200 (json_text "{'url':'https://pay.example/1'}")) 1700000000000.

(** The token endpoint answers 502 with a body that is not JSON. *)
Definition gateway_down : World :=
  mkWorld checkout_env (answer 502 "Bad Gateway") 1700000000000.

(** The token endpoint answers 401 with a JSON diagnostic. *)
Definition token_refused : World :=
  mkWorld checkout_env (answer 401 (json_text "{'errors':[{'code':'1004'}]}")) 1700000000000.

Definition charge : Tap.ChargeCardParams :=
  Tap.mkChargeCard "cus_1" "card_1" "pa_1" 999 (-2) "USD" (Some "Monthly subscription") None.

(** A captured charge whose [card.id] is present and empty. *)
Definition empty_card_id : JSON :=
  JObj [ ("card", JObj [ ("id", JStr "") ]);
         ("customer", JObj [ ("id", JStr "cus_1") ]);
         ("payment_agreement", JObj [ ("id", JStr "pa_1") ]) ].

Definition saved_card_payload : JSON :=
  JObj [ ("card", JObj [ ("id", JStr "card_1") ]);
         ("customer", JObj [ ("id", JStr "cus_1") ]);
         ("payment_agreement", JObj [ ("id", JStr "pa_1") ]) ].

(** Two requests for a checkout link with every field set, the second
    without a customer. *)
Definition full_params : CreateCheckoutLinkParams :=
  mkCheckout subscription "prod_1" (Some "user@example.com") (Some "Ada Lovelace")
    (Some "https://example.com/success") (Some "cus_1") (Some "org_1")
    (Some "user_1") (Some 14) (Some 3).

Definition guest_params : CreateCheckoutLinkParams :=
  mkCheckout subscription "prod_1" (Some "user@example.com") (Some "Ada Lovelace")
    (Some "https://example.com/success") None (Some "org_1")
    (Some "user_1") (Some 14) (Some 3).

Definition portal : CreateCustomerPortalLinkParams :=
  mkPortal (Some "sub_1") "cus_1" (Some "https://example.com/account").

Definition new_charge : Tap.CreateChargeParams :=
  Tap.mkCreateCharge 4999 (-2) "USD" (Some "user@example.com") (Some "Ada Lovelace")
    None (Some "https://example.com/success") None None.

(** The token endpoint answers with a token, the charge endpoint with a
    declined charge. *)
Definition card_declined : World :=
  mkWorld checkout_env
    (fun sent _ =>
       match sent with
       | [] => Return (mkHttpResponse 200 (json_text "{'id':'tok_1'}"))
       | _ => Return (mkHttpResponse 200
                        (json_text "{'id':'chg_2','status':'DECLINED'}"))
       end)
    1700000000000.

End Sample.

(** * Properties *)

(** Split a conjunction into its conjuncts, and nothing else. *)
Ltac split_all := repeat match goal with |- _ /\ _ => split end.


(** ** The primitives *)

Example sha256_abc :
  hex_of_bytes (SHA256.sha256 (bytes_of_string "abc"))
  = "ba7816bf8f01cfea414140de5dae2223b00361a396177a9cb410ff61f20015ad".
Proof. vm_compute. reflexivity. Qed.

Example sha256_two_blocks :
  hex_of_bytes (SHA256.sha256 (repeat 97 56))
  = "b35439a4ac6f0948b6d6f9e3c6af0f5f590ce20f1bde7090ef7970686ec6738a".
Proof. vm_compute. reflexivity. Qed.

Example hmac_rfc4231_case2 :
  hmac_sha256_hex "Jefe" "what do ya want for nothing?"
  = "5bdcc146bf60754e6a042426089575c75a003f089d2739839dec58b964ec3843".
Proof. vm_compute. reflexivity. Qed.

Example hmac_long_key :
  hex_of_bytes (HMAC.hmac_sha256 (repeat 107 100) (repeat 120 200))
  = "e326f00ce14194bb85e2683fe9b1a78851753f77479303f94c2c3cd1998bdda3".
Proof. vm_compute. reflexivity. Qed.

Example hmac_lemonsqueezy_body :
  hmac_sha256_hex "shh" Sample.lemonsqueezy_body
  = "9d38b5c055f97dbac17ca1176874901f86901ad40a2c16b740dacb046143b96d".
Proof. vm_compute. reflexivity. Qed.

Example parse_lemonsqueezy_body :
  Json.parse Sample.lemonsqueezy_body
  = Return (JObj [ ("meta", JObj [ ("event_name", JStr "subscription_created") ]);
                   ("data", JObj []) ]).
Proof. vm_compute. reflexivity. Qed.

Example parse_rejects_trailing_comma : Json.parse "[1,]" = Throw SyntaxError.
Proof. vm_compute. reflexivity. Qed.

Example parse_rejects_leading_zero : Json.parse "01" = Throw SyntaxError.
Proof. vm_compute. reflexivity. Qed.

Example parse_number : Json.parse " -2.50e+3 " = Return (JNum (-250) 1).
Proof. vm_compute. reflexivity. Qed.

Example parse_repeated_key :
  (v ← Json.parse (json_text "{'a':1,'a':null}"); Json.get (Some v) "a") = Return (Some JNull).
Proof. vm_compute. reflexivity. Qed.

(** A surrogate pair written as two escapes is one code point of four
    bytes, [F0 9F 98 80] for U+1F600; a surrogate on its own keeps
    three. *)
Example parse_escaped_surrogates :
  Json.parse (json_text "'\ud83d\ude00'")
  = Return (JStr (String (ascii_of_nat 240) (String (ascii_of_nat 159)
                   (String (ascii_of_nat 152) (String (ascii_of_nat 128) ""))))) /\
  Json.parse (json_text "'\ud83d'")
  = Return (JStr (String (ascii_of_nat 237) (String (ascii_of_nat 160)
                   (String (ascii_of_nat 189) "")))) /\
  Json.parse (json_text "'\u00e9\u20ac'")
  = Return (JStr (String (ascii_of_nat 195) (String (ascii_of_nat 169)
                   (String (ascii_of_nat 226) (String (ascii_of_nat 130)
                   (String (ascii_of_nat 172) "")))))).
Proof. split_all; vm_compute; reflexivity. Qed.

Example underflow_is_falsy : Json.truthy (Some (JNum 1 (-400))) = false.
Proof. vm_compute. reflexivity. Qed.

Example least_subnormal_is_truthy : Json.truthy (Some (JNum 5 (-324))) = true.
Proof. vm_compute. reflexivity. Qed.


Lemma hex_of_bytes_length (bs : list Z) :
  String.length (hex_of_bytes bs) = (2 * length bs)%nat.
Proof. induction bs as [|b bs IH]; simpl; [reflexivity | rewrite IH; lia]. Qed.

Lemma sha256_length (msg : list Z) : length (SHA256.sha256 msg) = 32%nat.
Proof. reflexivity. Qed.

Lemma hmac_sha256_hex_length (secret text : string) :
  String.length (hmac_sha256_hex secret text) = 64%nat.
Proof.
  unfold hmac_sha256_hex, HMAC.hmac_sha256.
  rewrite hex_of_bytes_length, sha256_length. reflexivity.
Qed.

Lemma eqb_empty_of_length (s : string) (n : nat) :
  String.length s = S n -> String.eqb s "" = false.
Proof. destruct s; simpl; [discriminate | reflexivity]. Qed.

Lemma nonempty_Some (s : string) : s <> "" -> nonempty (Some s) = Some s.
Proof.
  intros Hs. unfold nonempty.
  destruct (String.eqb_spec s "") as [E|_]; [contradiction | reflexivity].
Qed.


Lemma nonempty_hmac (secret text : string) :
  nonempty (Some (hmac_sha256_hex secret text)) = Some (hmac_sha256_hex secret text).
Proof.
  unfold nonempty.
  rewrite (eqb_empty_of_length _ 63); [reflexivity | apply hmac_sha256_hex_length].
Qed.

Lemma strict_neq_false (a b : string) : strict_neq a b = false <-> a = b.
Proof.
  unfold strict_neq. destruct (String.eqb_spec a b); simpl; split; congruence.
Qed.

Lemma strict_neq_true (a b : string) : strict_neq a b = true <-> a <> b.
Proof.
  unfold strict_neq. destruct (String.eqb_spec a b); simpl; split; congruence.
Qed.

Lemma byte_of_ascii_inj (c d : ascii) : byte_of_ascii c = byte_of_ascii d -> c = d.
Proof.
  unfold byte_of_ascii. intros H. apply N2Z.inj in H.
  rewrite <- (ascii_N_embedding c), <- (ascii_N_embedding d). congruence.
Qed.

Lemma bytes_of_string_inj (s t : string) :
  bytes_of_string s = bytes_of_string t -> s = t.
Proof.
  revert t. induction s as [|c s IH]; intros [|d t]; simpl; try discriminate.
  - reflexivity.
  - intros [= Hc Hs]. f_equal; [apply byte_of_ascii_inj, Hc | apply IH, Hs].
Qed.

Lemma bytes_of_string_length (s : string) :
  length (bytes_of_string s) = String.length s.
Proof. induction s; simpl; congruence. Qed.

(** The accumulated difference is zero exactly when no pair differs. *)
Lemma fold_lor_zero (l : list Z) (acc : Z) :
  fold_left Z.lor l acc = 0 <-> acc = 0 /\ Forall (fun x => x = 0) l.
Proof.
  revert acc. induction l as [|x l IH]; intros acc; simpl.
  - split; [intros ->; split; [reflexivity | constructor] | intros [-> _]; reflexivity].
  - rewrite IH, Z.lor_eq_0_iff. split.
    + intros [[-> ->] Hl]. split; [reflexivity | constructor; [reflexivity | assumption]].
    + intros [-> Hl]. inversion Hl; subst. repeat split; assumption.
Qed.

Lemma zip_xor_zero (a b : list Z) :
  length a = length b ->
  Forall (fun x => x = 0) (zip_with Z.lxor a b) <-> a = b.
Proof.
  revert b. induction a as [|x a IH]; intros [|y b]; simpl; try discriminate.
  - intros _. split; [reflexivity | constructor].
  - intros [= Hlen]. split.
    + intros H. inversion H as [|? ? Hx Hr]; subst.
      apply Z.lxor_eq in Hx. apply (IH _ Hlen) in Hr. congruence.
    + intros [= -> ->]. constructor; [apply Z.lxor_nilpotent | apply IH; auto].
Qed.

Lemma timingSafeEqual_same_length (a b : list Z) :
  length a = length b ->
  timingSafeEqual a b = Return (bool_decide (a = b)).
Proof.
  intros Hlen. unfold timingSafeEqual.
  rewrite Hlen, Nat.eqb_refl. f_equal.
  destruct (Z.eqb_spec (fold_left Z.lor (zip_with Z.lxor a b) 0) 0) as [E|N].
  - apply fold_lor_zero in E as [_ E]. apply (zip_xor_zero _ _ Hlen) in E.
    symmetry. apply bool_decide_eq_true. assumption.
  - symmetry. apply bool_decide_eq_false. intros ->.
    apply N, fold_lor_zero. split; [reflexivity | apply zip_xor_zero; auto].
Qed.

Lemma timingSafeEqual_length_mismatch (a b : list Z) :
  length a <> length b -> timingSafeEqual a b = Throw RangeError.
Proof.
  intros Hlen. unfold timingSafeEqual.
  destruct (Nat.eqb_spec (length a) (length b)); [contradiction | reflexivity].
Qed.

(** What the LemonSqueezy comparison amounts to: equal strings pass,
    strings of equal length that differ are refused, strings of
    different lengths make [timingSafeEqual] throw. *)
Lemma timingSafeEqual_strings (a b : string) :
  timingSafeEqual (bytes_of_string a) (bytes_of_string b)
  = if (String.length a =? String.length b)%nat
    then Return (bool_decide (a = b)) else Throw RangeError.
Proof.
  destruct (Nat.eqb_spec (String.length a) (String.length b)) as [E|N].
  - rewrite timingSafeEqual_same_length by (rewrite !bytes_of_string_length; exact E).
    f_equal. apply bool_decide_ext. split; [apply bytes_of_string_inj | congruence].
  - apply timingSafeEqual_length_mismatch. rewrite !bytes_of_string_length. exact N.
Qed.

(** ** Webhook handlers *)

#[local] Opaque hmac_sha256_hex Json.parse.
Arguments Json.get : simpl never.
Arguments Json.get_opt : simpl never.

Ltac run_handler :=
  unfold mbind, completion_bind, cbind, try_catch, respond, status_of; simpl.

Lemma LemonSqueezy_rejects (env : gmap string string) (req : Request) (secret : string) :
  nonempty (env !! "LEMONSQUEEZY_WEBHOOK_SECRET") = Some secret ->
  headers req !! "x-signature" <> Some (hmac_sha256_hex secret (text req)) ->
  status_of (LemonSqueezy.webhookHandler env req) = Some 400.
Proof.
  intros Hsecret Hsig. unfold LemonSqueezy.webhookHandler. rewrite Hsecret.
  destruct (headers req !! "x-signature") as [sig|]; [|reflexivity].
  unfold Buffer_from. run_handler. rewrite timingSafeEqual_strings.
  destruct (_ =? _)%nat; [|reflexivity].
  rewrite bool_decide_eq_false_2 by congruence. reflexivity.
Qed.

Lemma LemonSqueezy_accepts (env : gmap string string) (req : Request)
    (secret : string) (payload : JSON) :
  nonempty (env !! "LEMONSQUEEZY_WEBHOOK_SECRET") = Some secret ->
  headers req !! "x-signature" = Some (hmac_sha256_hex secret (text req)) ->
  Json.parse (text req) = Return payload ->
  event_readable lemonsqueezy payload ->
  LemonSqueezy.webhookHandler env req = respond 204 None.
Proof.
  intros Hsecret Hsig Hparse (meta & Hmeta & Hnull).
  unfold LemonSqueezy.webhookHandler. rewrite Hsecret, Hsig.
  unfold Buffer_from. run_handler. rewrite timingSafeEqual_strings, Nat.eqb_refl.
  rewrite bool_decide_eq_true_2 by reflexivity. simpl.
  rewrite Hparse, Hmeta. destruct meta; try reflexivity. contradiction.
Qed.



Lemma Dodo_rejects (env : gmap string string) (req : Request)
    (secret id timestamp signature : string) :
  nonempty (env !! "DODO_PAYMENTS_WEBHOOK_SECRET") = Some secret ->
  body req <> None ->
  nonempty (headers req !! "webhook-id") = Some id ->
  nonempty (headers req !! "webhook-timestamp") = Some timestamp ->
  nonempty (headers req !! "webhook-signature") = Some signature ->
  signature <> hmac_sha256_hex secret (id +:+ "." +:+ timestamp +:+ "." +:+ text req) ->
  DodoPayments.webhookHandler env req = respond 401 (Some "Invalid webhook signature").
Proof.
  intros Hsecret Hbody Hid Hts Hsig Hne. unfold DodoPayments.webhookHandler.
  rewrite Hsecret. destruct (body req) eqn:Eb; [|contradiction].
  rewrite Hid, Hsig, Hts.
  rewrite (proj2 (strict_neq_true _ _) Hne). reflexivity.
Qed.

Lemma Dodo_accepts (env : gmap string string) (req : Request)
    (secret id timestamp : string) (payload : JSON) :
  nonempty (env !! "DODO_PAYMENTS_WEBHOOK_SECRET") = Some secret ->
  body req <> None ->
  nonempty (headers req !! "webhook-id") = Some id ->
  nonempty (headers req !! "webhook-timestamp") = Some timestamp ->
  headers req !! "webhook-signature"
    = Some (hmac_sha256_hex secret (id +:+ "." +:+ timestamp +:+ "." +:+ text req)) ->
  Json.parse (text req) = Return payload ->
  payload <> JNull ->
  DodoPayments.webhookHandler env req = respond 204 None.
Proof.
  intros Hsecret Hbody Hid Hts Hsig Hparse Hnull. unfold DodoPayments.webhookHandler.
  rewrite Hsecret. destruct (body req) eqn:Eb; [|contradiction].
  rewrite Hid, Hsig, Hts, nonempty_hmac.
  rewrite (proj2 (strict_neq_false _ _) eq_refl). run_handler. rewrite Hparse.
  destruct payload; try reflexivity. contradiction.
Qed.

(** A missing or empty header makes the DodoPayments handler answer 400. *)
Lemma Dodo_missing_header (env : gmap string string) (req : Request) (secret : string) :
  nonempty (env !! "DODO_PAYMENTS_WEBHOOK_SECRET") = Some secret ->
  nonempty (headers req !! "webhook-id") = None \/
  nonempty (headers req !! "webhook-signature") = None \/
  nonempty (headers req !! "webhook-timestamp") = None ->
  status_of (DodoPayments.webhookHandler env req) = Some 400.
Proof.
  intros Hsecret H. unfold DodoPayments.webhookHandler. rewrite Hsecret.
  destruct (body req); [|reflexivity].
  destruct H as [-> | [-> | ->]]; repeat case_match; reflexivity.
Qed.

(** The Stripe handler looks at the presence of the signature only. *)
Lemma Stripe_accepts (env : gmap string string) (req : Request)
    (secret signature : string) (payload : JSON) :
  nonempty (env !! "STRIPE_WEBHOOK_SECRET") = Some secret ->
  body req <> None ->
  nonempty (headers req !! "stripe-signature") = Some signature ->
  Json.parse (text req) = Return payload ->
  payload <> JNull ->
  Stripe.webhookHandler env req = respond 200 None.
Proof.
  intros Hsecret Hbody Hsig Hparse Hnull. unfold Stripe.webhookHandler.
  rewrite Hsecret, Hsig. destruct (body req); [|contradiction].
  run_handler. rewrite Hparse. destruct payload; try reflexivity. contradiction.
Qed.

(** The Polar handler looks at no signature at all. *)
Lemma Polar_accepts (env : gmap string string) (req : Request)
    (secret : string) (payload : JSON) :
  nonempty (env !! "POLAR_WEBHOOK_SECRET") = Some secret ->
  body req <> None ->
  Json.parse (text req) = Return payload ->
  payload <> JNull ->
  Polar.webhookHandler env req = respond 202 None.
Proof.
  intros Hsecret Hbody Hparse Hnull. unfold Polar.webhookHandler.
  rewrite Hsecret. destruct (body req); [|contradiction].
  run_handler. rewrite Hparse. destruct payload; try reflexivity. contradiction.
Qed.

(** [extractSavedCardFromWebhook] throws only for a payload that is
    [undefined] or [null]. *)
Lemma extractSavedCard_returns (d : JSON) :
  d <> JNull -> exists r, Tap.extractSavedCardFromWebhook (Some d) = Return r.
Proof.
  intros Hd. unfold Tap.extractSavedCardFromWebhook, Json.get.
  destruct d; try contradiction; run_handler;
    try match goal with |- context [if ?c then _ else _] => destruct c end; eauto.
Qed.


Lemma Tap_accepts (nv : string -> WebhookVerifier) (env : gmap string string)
    (req : Request) (secret : string) (payload : JSON) (res : VerificationResult) :
  nonempty (env !! "TAP_WEBHOOK_SECRET") = Some secret ->
  body req <> None ->
  Json.parse (text req) = Return payload ->
  verify (nv secret) payload (headers req) = Return res ->
  isValid res = true ->
  tap_event_readable (data res) ->
  Tap.webhookHandler nv env req = respond 200 None.
Proof.
  intros Hsecret Hbody Hparse Hverify Hvalid (name & Hname & Hdata).
  unfold Tap.webhookHandler, Tap.getTapVerifier.
  destruct (body req); [|contradiction]. rewrite Hsecret.
  run_handler. rewrite Hparse, Hverify, Hvalid. simpl. rewrite Hname.
  destruct (Json.is_string "CHARGE.CAPTURED" name); [|reflexivity].
  destruct (Hdata eq_refl) as (d & -> & Hd).
  destruct (extractSavedCard_returns d Hd) as [r ->]. reflexivity.
Qed.

(** Two bodies whose texts parse to the same payload are the same to
    the Tap handler: what it verifies is the parsed payload, not the
    bytes. *)
Lemma Tap_verifies_parsed_payload (nv : string -> WebhookVerifier)
    (env : gmap string string) (m : string) (hs : gmap string string) (b b' : string) :
  Json.parse (utf8_decode b) = Json.parse (utf8_decode b') ->
  Tap.webhookHandler nv env (mkRequest m hs (Some b))
  = Tap.webhookHandler nv env (mkRequest m hs (Some b')).
Proof.
  intros H. unfold Tap.webhookHandler, text. simpl body. simpl default.
  rewrite H. reflexivity.
Qed.




(** A byte order mark at the start of a body is not part of its text:
    the Creem request that carries the mark and then the sample body,
    with the signature of the sample body, is answered 204; a second
    mark stays in the text, and the request is answered 400. *)
Example byte_order_mark_dropped :
  utf8_decode (Sample.byte_order_mark +:+ Sample.creem_body) = Sample.creem_body /\
  utf8_decode Sample.creem_body = Sample.creem_body /\
  status_of (Creem.webhookHandler Sample.webhook_env
               (mkRequest "POST"
                  {[ "creem-signature" :=
                       hmac_sha256_hex "whsec_creem" Sample.creem_body ]}
                  (Some (Sample.byte_order_mark +:+ Sample.creem_body))))
  = Some 204 /\
  status_of (Creem.webhookHandler Sample.webhook_env
               (mkRequest "POST"
                  {[ "creem-signature" :=
                       hmac_sha256_hex "whsec_creem" Sample.creem_body ]}
                  (Some (Sample.byte_order_mark +:+ Sample.byte_order_mark
                         +:+ Sample.creem_body))))
  = Some 400 /\
  status_of (Stripe.webhookHandler Sample.webhook_env
               (mkRequest "POST" {[ "stripe-signature" := "t=1,v1=00" ]}
                  (Some (Sample.byte_order_mark +:+ "{}"))))
  = Some 200.
Proof. split_all; vm_compute; reflexivity. Qed.

(** A body that is signed and is not JSON is answered 400. *)
Lemma signed_body_not_json_400 :
  status_of (LemonSqueezy.webhookHandler Sample.webhook_env
               (mkRequest "POST" {[ "x-signature" := hmac_sha256_hex "shh" "ping" ]}
                  (Some "ping"))) = Some 400.
Proof. vm_compute. reflexivity. Qed.


(** The Polar handler answers 202 whatever the headers are. *)
Lemma Polar_ignores_headers (env : gmap string string) (m : string)
    (hs hs' : gmap string string) (b : option string) :
  Polar.webhookHandler env (mkRequest m hs b) = Polar.webhookHandler env (mkRequest m hs' b).
Proof. reflexivity. Qed.

(** The sample Tap request is accepted; the same payload with a space
    inserted between two members is accepted as well, and a wrong
    [hashstring] is refused. *)
Example tap_sample_accepted :
  status_of (Tap.webhookHandler Sample.newWebhookVerifier Sample.webhook_env
               (mkRequest "POST" Sample.tap_headers (Some Sample.tap_body)))
  = Some 200 /\
  status_of (Tap.webhookHandler Sample.newWebhookVerifier Sample.webhook_env
               (mkRequest "POST" Sample.tap_headers (Some Sample.tap_respaced_body)))
  = Some 200 /\
  status_of (Tap.webhookHandler Sample.newWebhookVerifier Sample.webhook_env
               (mkRequest "POST" {[ "hashstring" := "deadbeef" ]} (Some Sample.tap_body)))
  = Some 401.
Proof. split_all; vm_compute; reflexivity. Qed.

(** ** Missing webhook secret *)

(** With no secret, the Tap handler answers 400: the error of
    [getTapVerifier] is thrown inside the [try] block. *)
Lemma Tap_missing_secret (nv : string -> WebhookVerifier)
    (env : gmap string string) (req : Request) :
  secret_absent tap env ->
  status_of (Tap.webhookHandler nv env req) = Some 400.
Proof.
  unfold secret_absent. simpl. intros H.
  unfold Tap.webhookHandler, Tap.getTapVerifier. rewrite H.
  destruct (body req); reflexivity.
Qed.

(** C3, as amended. With the webhook secret absent, the handlers of
    Stripe, LemonSqueezy, Polar and DodoPayments answer 500 to every
    request, and the Creem handler answers 500 to every POST request
    that has a non-empty [creem-signature] header; none of them throws. *)
Theorem missing_webhook_secret_500
    (nv : string -> WebhookVerifier) (p : PaymentProviderName)
    (env : gmap string string) (req : Request) :
  secret_absent p env ->
  p <> tap ->
  (p = creem ->
   method req = "POST" /\ is_Some (nonempty (headers req !! "creem-signature"))) ->
  status_of (webhookHandler_of nv p env req) = Some 500.
Proof.
  unfold secret_absent. intros Habsent Htap Hcreem.
  destruct p; simpl in *; try contradiction.
  - unfold Stripe.webhookHandler. rewrite Habsent. reflexivity.
  - unfold LemonSqueezy.webhookHandler. rewrite Habsent. reflexivity.
  - unfold Polar.webhookHandler. rewrite Habsent. reflexivity.
  - destruct (Hcreem eq_refl) as [Hm [sig Hsig]].
    unfold Creem.webhookHandler. rewrite Hm, Hsig, Habsent. reflexivity.
  - unfold DodoPayments.webhookHandler. rewrite Habsent. reflexivity.
Qed.

Lemma missing_webhook_secret_500_witness :
  let req := mkRequest "POST" {[ "creem-signature" := "abc" ]} (Some "{}") in
  (secret_absent creem ∅ /\
   creem <> tap /\
   (creem = creem ->
    method req = "POST" /\ is_Some (nonempty (headers req !! "creem-signature")))) /\
  status_of (webhookHandler_of Sample.newWebhookVerifier creem ∅ req) = Some 500.
Proof.
  intros req.
  assert (H1 : secret_absent creem ∅) by reflexivity.
  assert (H2 : creem <> tap) by discriminate.
  assert (H3 : creem = creem ->
               method req = "POST" /\ is_Some (nonempty (headers req !! "creem-signature")))
    by (intros _; split; [reflexivity | vm_compute; eexists; reflexivity]).
  split; [exact (conj H1 (conj H2 H3)) |].
  exact (missing_webhook_secret_500 Sample.newWebhookVerifier creem ∅ req H1 H2 H3).
Defined.

(** C3, as stated, fails: with no secret configured the Creem handler
    answers 405 to a GET request and 400 to a POST request without a
    signature. *)
Lemma missing_webhook_secret_creem_not_500 :
  secret_absent creem ∅ /\
  status_of (webhookHandler_of Sample.newWebhookVerifier creem ∅
               (mkRequest "GET" ∅ None)) = Some 405 /\
  status_of (webhookHandler_of Sample.newWebhookVerifier creem ∅
               (mkRequest "POST" ∅ (Some "{}"))) = Some 400.
Proof. split_all; vm_compute; reflexivity. Qed.

(** ** End-to-end scenarios *)

Lemma parse_dodo_body :
  Json.parse Sample.dodo_body
  = Return (JObj [("type", JStr "subscription.created"); ("data", JObj [])]).
Proof. vm_compute. reflexivity. Qed.

(** C4, as amended. With a secret configured, the DodoPayments request
    with [webhook-id] [wh_1], [webhook-timestamp] [1700000000] and the
    body [{"type":"subscription.created","data":{}}] is answered 204
    when [webhook-signature] is the hex HMAC-SHA256 of
    [wh_1.1700000000.] followed by the body, 401 for any other
    non-empty signature, and 400 for an empty one. *)
Theorem dodopayments_end_to_end
    (env : gmap string string) (secret m : string)
    (extra : gmap string string) (signature : string) :
  nonempty (env !! "DODO_PAYMENTS_WEBHOOK_SECRET") = Some secret ->
  (signature = hmac_sha256_hex secret Sample.dodo_signed_message ->
   status_of (DodoPayments.webhookHandler env (Sample.dodo_request m extra signature))
   = Some 204) /\
  (signature <> hmac_sha256_hex secret Sample.dodo_signed_message ->
   signature <> "" ->
   status_of (DodoPayments.webhookHandler env (Sample.dodo_request m extra signature))
   = Some 401) /\
  (signature = "" ->
   status_of (DodoPayments.webhookHandler env (Sample.dodo_request m extra signature))
   = Some 400).
Proof.
  intros Hsecret.
  set (req := Sample.dodo_request m extra signature).
  assert (Hbody : body req <> None) by discriminate.
  assert (Htext : text req = Sample.dodo_body) by reflexivity.
  assert (Hid : nonempty (headers req !! "webhook-id") = Some "wh_1")
    by (simpl; rewrite lookup_insert_eq; reflexivity).
  assert (Hts : nonempty (headers req !! "webhook-timestamp") = Some "1700000000")
    by (simpl; rewrite lookup_insert_ne, lookup_insert_eq by discriminate;
        reflexivity).
  assert (Hsig : headers req !! "webhook-signature" = Some signature)
    by (simpl; rewrite !lookup_insert_ne, lookup_insert_eq by discriminate;
        reflexivity).
  assert (Hparse : Json.parse (text req)
                   = Return (JObj [("type", JStr "subscription.created");
                                   ("data", JObj [])]))
    by (rewrite Htext; apply parse_dodo_body).
  assert (Hmsg : "wh_1" +:+ "." +:+ "1700000000" +:+ "." +:+ text req
                 = Sample.dodo_signed_message) by (rewrite Htext; reflexivity).
  split; [| split].
  - intros E. rewrite E, <- Hmsg in Hsig.
    rewrite (Dodo_accepts env req secret "wh_1" "1700000000" _
               Hsecret Hbody Hid Hts Hsig Hparse); [reflexivity | discriminate].
  - intros Hne Hnonempty. rewrite <- Hmsg in Hne.
    rewrite (Dodo_rejects env req secret "wh_1" "1700000000" signature
               Hsecret Hbody Hid Hts); [reflexivity | | exact Hne].
    rewrite Hsig. apply nonempty_Some, Hnonempty.
  - intros E. apply (Dodo_missing_header env req secret Hsecret).
    right; left. rewrite Hsig, E. reflexivity.
Qed.

Lemma dodopayments_end_to_end_witness :
  nonempty (Sample.webhook_env !! "DODO_PAYMENTS_WEBHOOK_SECRET") = Some "whsec_dodo" /\
  status_of (DodoPayments.webhookHandler Sample.webhook_env
               (Sample.dodo_request "POST" ∅
                  (hmac_sha256_hex "whsec_dodo" Sample.dodo_signed_message)))
  = Some 204 /\
  status_of (DodoPayments.webhookHandler Sample.webhook_env
               (Sample.dodo_request "POST" ∅ "deadbeef"))
  = Some 401.
Proof.
  assert (Hsecret : nonempty (Sample.webhook_env !! "DODO_PAYMENTS_WEBHOOK_SECRET")
                    = Some "whsec_dodo") by (vm_compute; reflexivity).
  assert (Hne : "deadbeef" <> hmac_sha256_hex "whsec_dodo" Sample.dodo_signed_message)
    by (vm_compute; discriminate).
  split; [exact Hsecret |]. split.
  - exact (proj1 (dodopayments_end_to_end Sample.webhook_env "whsec_dodo" "POST" ∅
                    _ Hsecret) eq_refl).
  - exact (proj1 (proj2 (dodopayments_end_to_end Sample.webhook_env "whsec_dodo"
                           "POST" ∅ "deadbeef" Hsecret))
             Hne ltac:(discriminate)).
Defined.

(** C4, as stated, fails: an empty signature is another signature value,
    and it is answered 400. *)
Lemma dodopayments_empty_signature_400 :
  "" <> hmac_sha256_hex "whsec_dodo" ("wh_1.1700000000." +:+ Sample.dodo_body) /\
  nonempty (Sample.webhook_env !! "DODO_PAYMENTS_WEBHOOK_SECRET") = Some "whsec_dodo" /\
  Sample.dodo_headers "" !! "webhook-signature" = Some "" /\
  status_of (DodoPayments.webhookHandler Sample.webhook_env
               (mkRequest "POST" (Sample.dodo_headers "") (Some Sample.dodo_body)))
  = Some 400.
Proof.
  split_all; try (vm_compute; reflexivity). vm_compute. discriminate.
Qed.

(** C5. With the secret [shh], the LemonSqueezy request with the body
    [{"meta":{"event_name":"subscription_created"},"data":{}}] is
    answered 204 when [x-signature] is the hex HMAC-SHA256 of the body
    under [shh], and 400 when it is [deadbeef]. *)
Theorem lemonsqueezy_end_to_end
    (env : gmap string string) (m : string) (extra : gmap string string) :
  env !! "LEMONSQUEEZY_WEBHOOK_SECRET" = Some "shh" ->
  status_of (LemonSqueezy.webhookHandler env
               (Sample.lemonsqueezy_request m extra
                  (hmac_sha256_hex "shh" Sample.lemonsqueezy_body))) = Some 204 /\
  status_of (LemonSqueezy.webhookHandler env
               (Sample.lemonsqueezy_request m extra "deadbeef")) = Some 400.
Proof.
  intros Hsecret.
  assert (Hs : nonempty (env !! "LEMONSQUEEZY_WEBHOOK_SECRET") = Some "shh")
    by (rewrite Hsecret; reflexivity).
  assert (Hne : "deadbeef" <> hmac_sha256_hex "shh" Sample.lemonsqueezy_body)
    by (vm_compute; discriminate).
  split.
  - set (req := Sample.lemonsqueezy_request m extra
                  (hmac_sha256_hex "shh" Sample.lemonsqueezy_body)).
    assert (Hsig : headers req !! "x-signature"
                   = Some (hmac_sha256_hex "shh" (text req)))
      by (change (text req) with Sample.lemonsqueezy_body; simpl;
          apply lookup_insert_eq).
    assert (Hparse : Json.parse (text req) = Return _)
      by (change (text req) with Sample.lemonsqueezy_body;
          apply parse_lemonsqueezy_body).
    rewrite (LemonSqueezy_accepts env req "shh" _ Hs Hsig Hparse); [reflexivity |].
    eexists. split; [reflexivity | discriminate].
  - apply (LemonSqueezy_rejects env _ "shh" Hs).
    simpl. rewrite lookup_insert_eq. unfold text. simpl. congruence.
Qed.

Lemma lemonsqueezy_end_to_end_witness :
  Sample.webhook_env !! "LEMONSQUEEZY_WEBHOOK_SECRET" = Some "shh" /\
  status_of (LemonSqueezy.webhookHandler Sample.webhook_env
               (Sample.lemonsqueezy_request "POST" ∅
                  (hmac_sha256_hex "shh" Sample.lemonsqueezy_body))) = Some 204 /\
  status_of (LemonSqueezy.webhookHandler Sample.webhook_env
               (Sample.lemonsqueezy_request "POST" ∅ "deadbeef")) = Some 400.
Proof.
  assert (Hsecret : Sample.webhook_env !! "LEMONSQUEEZY_WEBHOOK_SECRET" = Some "shh")
    by (vm_compute; reflexivity).
  split; [exact Hsecret |].
  exact (lemonsqueezy_end_to_end Sample.webhook_env "POST" ∅ Hsecret).
Defined.

(** ** Outbound calls *)

Section IOLaws.

Context {A B : Type}.
Variables (w : World) (sent : list HttpRequest).

Lemma bind_required_env_present (name value : string) (k : string -> IO B) :
  nonempty (env w !! name) = Some value ->
  mbind (M:=IO) k (required_env name) w sent = k value w sent.
Proof.
  intros H. unfold required_env, mbind, IO_bind, getenv. rewrite H. reflexivity.
Qed.

Lemma bind_required_env_absent (name : string) (k : string -> IO B) :
  nonempty (env w !! name) = None ->
  mbind (M:=IO) k (required_env name) w sent
  = (Throw (Error ("Missing env variable " +:+ name)), sent).
Proof.
  intros H. unfold required_env, mbind, IO_bind, getenv. rewrite H. reflexivity.
Qed.

Lemma bind_getenv (name : string) (k : option string -> IO B) :
  mbind (M:=IO) k (getenv name) w sent = k (env w !! name) w sent.
Proof. reflexivity. Qed.

Lemma bind_Date_now (k : Z -> IO B) :
  mbind (M:=IO) k Date_now w sent = k (clock w) w sent.
Proof. reflexivity. Qed.

Lemma bind_mret (a : A) (k : A -> IO B) :
  mbind (M:=IO) k (mret a) w sent = k a w sent.
Proof. reflexivity. Qed.

Lemma bind_fetch (r : HttpRequest) (k : HttpResponse -> IO B) :
  mbind (M:=IO) k (fetch r) w sent
  = match network w sent r with
    | Return response => k response w (sent ++ [r])
    | Throw e => (Throw e, sent ++ [r])
    end.
Proof. unfold mbind, IO_bind, fetch. destruct (network w sent r); reflexivity. Qed.

Lemma bind_lift (c : completion A) (k : A -> IO B) :
  mbind (M:=IO) k (lift c) w sent
  = match c with
    | Return a => k a w sent
    | Throw e => (Throw e, sent)
    end.
Proof. unfold mbind, IO_bind, lift. destruct c; reflexivity. Qed.

Lemma bind_json (r : HttpResponse) (k : JSON -> IO B) :
  mbind (M:=IO) k (json r) w sent
  = match Json.parse (httpText r) with
    | Return a => k a w sent
    | Throw e => (Throw e, sent)
    end.
Proof. unfold json. unfold mbind, IO_bind, lift. destruct (Json.parse _); reflexivity. Qed.

Lemma bind_check_ok (prefix : string) (r : HttpResponse) (k : unit -> IO B) :
  mbind (M:=IO) k (check_ok prefix r) w sent
  = if ok r then k tt w sent
    else (d ← Json.parse (httpText r); Throw (ApiError prefix d), sent).
Proof.
  unfold check_ok, json. unfold mbind, IO_bind, lift, mret, IO_ret, throw.
  destruct (ok r); [reflexivity |]. destruct (Json.parse _); reflexivity.
Qed.

Lemma lift_run (c : completion A) : lift c w sent = (c, sent).
Proof. reflexivity. Qed.

Lemma bind_bind {C : Type} (c : IO A) (k : A -> IO B) (k' : B -> IO C) :
  mbind (M:=IO) k' (mbind (M:=IO) k c) w sent
  = mbind (M:=IO) (fun a => mbind (M:=IO) k' (k a)) c w sent.
Proof. unfold mbind, IO_bind. destruct (c w sent) as [[a|e] sent']; reflexivity. Qed.

End IOLaws.

#[local] Opaque required_env fetch check_ok json lift getenv Date_now.

Ltac run_io :=
  repeat first
    [ rewrite bind_fetch | rewrite bind_check_ok | rewrite bind_json
    | rewrite bind_lift | rewrite bind_getenv | rewrite bind_Date_now
    | rewrite bind_mret | rewrite lift_run ].

Ltac io_cases :=
  repeat (run_io; simpl;
          match goal with
          | |- context [match ?x with Return _ => _ | Throw _ => _ end] => destruct x
          | |- context [if ?x then _ else _] => destruct x
          end);
  run_io; simpl.

(** What [chargeCard] does after a refused tokenization. *)
Lemma chargeCard_token_refused (w : World) (params : Tap.ChargeCardParams)
    (key : string) (response : HttpResponse) :
  nonempty (env w !! "TAP_SECRET_KEY") = Some key ->
  network w [] (Tap.token_request key params) = Return response ->
  ok response = false ->
  Tap.chargeCard params w []
  = (d ← Json.parse (httpText response); Throw (ApiError "Tap Token API error: " d),
     [Tap.token_request key params]).
Proof.
  intros Hkey Hnet Hok. unfold Tap.chargeCard, Tap.getTapSecretKey.
  rewrite (bind_required_env_present _ _ _ _ _ Hkey).
  rewrite bind_fetch, Hnet, bind_check_ok, Hok. reflexivity.
Qed.

(** The requests of [chargeCard], in order. *)
Lemma chargeCard_sent (w : World) (params : Tap.ChargeCardParams) :
  sent_by (Tap.chargeCard params) w = [] \/
  exists key, sent_by (Tap.chargeCard params) w = [Tap.token_request key params] \/
    exists id, sent_by (Tap.chargeCard params) w
               = [Tap.token_request key params; Tap.charge_request key id params].
Proof.
  unfold sent_by, Tap.chargeCard, Tap.getTapSecretKey.
  destruct (nonempty (env w !! "TAP_SECRET_KEY")) as [key|] eqn:Hkey.
  - rewrite (bind_required_env_present _ _ _ _ _ Hkey).
    right. exists key. io_cases; eauto.
  - rewrite (bind_required_env_absent _ _ _ _ Hkey). left. reflexivity.
Qed.

(** C6, as amended. The requests [chargeCard] sends are none, the
    tokenization request alone, or the tokenization request followed by
    the charge request. When the tokenization request is answered with a
    non-success response, [chargeCard] throws and sends nothing more:
    it throws the error carrying the diagnostic body when that body is
    JSON, and the parse error of [response.json()] when it is not. *)
Theorem chargeCard_tokenize_then_charge
    (w : World) (params : Tap.ChargeCardParams) :
  let result := completion_of (Tap.chargeCard params) w in
  let sent := sent_by (Tap.chargeCard params) w in
  (sent = [] \/
   exists key, sent = [Tap.token_request key params] \/
     exists id, sent = [Tap.token_request key params;
                        Tap.charge_request key id params]) /\
  (forall before r after,
     sent = before ++ r :: after -> is_charge_call r ->
     exists t, In t before /\ is_token_call t) /\
  (forall key response,
     nonempty (env w !! "TAP_SECRET_KEY") = Some key ->
     network w [] (Tap.token_request key params) = Return response ->
     ok response = false ->
     sent = [Tap.token_request key params] /\
     (forall r, In r sent -> ~ is_charge_call r) /\
     (exists e, result = Throw e) /\
     (forall d, Json.parse (httpText response) = Return d ->
                result = Throw (ApiError "Tap Token API error: " d)) /\
     (forall e, Json.parse (httpText response) = Throw e -> result = Throw e)).
Proof.
  intros result sent. split; [apply chargeCard_sent |]. split.
  { intros before r after Hsent Hcharge. subst sent.
    destruct (chargeCard_sent w params) as [E | (key & [E | (id & E)])];
      rewrite E in Hsent.
    - destruct before; discriminate Hsent.
    - destruct before as [|b [|b' before]]; try discriminate Hsent.
      injection Hsent as <- _. discriminate Hcharge.
    - destruct before as [|b [|b' [|b'' before]]]; try discriminate Hsent.
      + injection Hsent as <- _. discriminate Hcharge.
      + injection Hsent as <- _ _. eexists. split; [left; reflexivity | reflexivity]. }
  intros key response Hkey Hnet Hok. subst result sent.
  unfold sent_by, completion_of.
  rewrite (chargeCard_token_refused w params key response Hkey Hnet Hok). simpl.
  split; [reflexivity |]. split; [intros r [<- | []]; discriminate |].
  destruct (Json.parse (httpText response)) as [d|e]; simpl.
  - split; [eauto |]. split; [intros d' [= <-]; reflexivity | discriminate].
  - split; [eauto |]. split; [discriminate | intros e' [= <-]; reflexivity].
Qed.

Lemma chargeCard_tokenize_then_charge_witness :
  let response :=
    mkHttpResponse 401 (json_text "{'errors':[{'code':'1004'}]}") in
  (nonempty (env Sample.token_refused !! "TAP_SECRET_KEY") = Some "sk_tap" /\
   network Sample.token_refused [] (Tap.token_request "sk_tap" Sample.charge)
   = Return response /\
   ok response = false) /\
  sent_by (Tap.chargeCard Sample.charge) Sample.token_refused
  = [Tap.token_request "sk_tap" Sample.charge] /\
  completion_of (Tap.chargeCard Sample.charge) Sample.token_refused
  = Throw (ApiError "Tap Token API error: "
             (JObj [("errors", JArr [JObj [("code", JStr "1004")]])])).
Proof.
  intros response.
  assert (Hkey : nonempty (env Sample.token_refused !! "TAP_SECRET_KEY") = Some "sk_tap")
    by (vm_compute; reflexivity).
  assert (Hnet : network Sample.token_refused [] (Tap.token_request "sk_tap" Sample.charge)
                 = Return response) by reflexivity.
  assert (Hok : ok response = false) by reflexivity.
  destruct (chargeCard_tokenize_then_charge Sample.token_refused Sample.charge)
    as (_ & _ & H).
  destruct (H "sk_tap" response Hkey Hnet Hok) as (Hsent & _ & _ & Hjson & _).
  split; [exact (conj Hkey (conj Hnet Hok)) |].
  split; [exact Hsent |].
  apply Hjson. vm_compute. reflexivity.
Defined.

(** C6, as stated, fails: when the token endpoint answers 502 with a
    body that is not JSON, what [chargeCard] throws is the parse error
    of [response.json()], which carries no diagnostic body. *)
Lemma chargeCard_gateway_error_is_not_provider_error :
  network Sample.gateway_down [] (Tap.token_request "sk_tap" Sample.charge)
  = Return (mkHttpResponse 502 "Bad Gateway") /\
  ok (mkHttpResponse 502 "Bad Gateway") = false /\
  completion_of (Tap.chargeCard Sample.charge) Sample.gateway_down = Throw SyntaxError /\
  is_ProviderError SyntaxError = false.
Proof. split_all; vm_compute; reflexivity. Qed.

(** ** Saved cards *)

Lemma get_non_null (d : JSON) (k : string) :
  d <> JNull -> Json.get (Some d) k = Return (Json.get_opt (Some d) k).
Proof. intros H. destruct d; try reflexivity. contradiction. Qed.

Lemma extractSavedCard_unfold (d : JSON) :
  d <> JNull ->
  Tap.extractSavedCardFromWebhook (Some d)
  = if negb (Json.truthy (saved_id d "card"))
       || negb (Json.truthy (saved_id d "customer"))
       || negb (Json.truthy (saved_id d "payment_agreement"))
    then Return None
    else Return (Some (Tap.mkSavedCard
                         (default JNull (saved_id d "customer"))
                         (default JNull (saved_id d "card"))
                         (default JNull (saved_id d "payment_agreement")))).
Proof.
  intros H. unfold Tap.extractSavedCardFromWebhook.
  rewrite !(get_non_null d) by assumption. reflexivity.
Qed.

(** C7, as amended. For a payload that is not [null],
    [extractSavedCardFromWebhook] never throws; it returns [null] when one
    of [card.id], [customer.id], [payment_agreement.id] is missing or
    falsy ([null], [false], zero, the empty string), and the three
    identifiers when all three are present and truthy. *)
Theorem extractSavedCard_absent_or_token (webhookData : JSON) :
  webhookData <> JNull ->
  (saved_id webhookData "card" = None \/
   saved_id webhookData "customer" = None \/
   saved_id webhookData "payment_agreement" = None ->
   Tap.extractSavedCardFromWebhook (Some webhookData) = Return None) /\
  (Json.truthy (saved_id webhookData "card") = false \/
   Json.truthy (saved_id webhookData "customer") = false \/
   Json.truthy (saved_id webhookData "payment_agreement") = false ->
   Tap.extractSavedCardFromWebhook (Some webhookData) = Return None) /\
  (forall card customer agreement,
     saved_id webhookData "card" = Some card ->
     saved_id webhookData "customer" = Some customer ->
     saved_id webhookData "payment_agreement" = Some agreement ->
     Json.truthy (Some card) = true ->
     Json.truthy (Some customer) = true ->
     Json.truthy (Some agreement) = true ->
     Tap.extractSavedCardFromWebhook (Some webhookData)
     = Return (Some (Tap.mkSavedCard customer card agreement))).
Proof.
  intros Hnull. rewrite extractSavedCard_unfold by assumption.
  assert (Hfalsy :
    Json.truthy (saved_id webhookData "card") = false \/
    Json.truthy (saved_id webhookData "customer") = false \/
    Json.truthy (saved_id webhookData "payment_agreement") = false ->
    negb (Json.truthy (saved_id webhookData "card"))
    || negb (Json.truthy (saved_id webhookData "customer"))
    || negb (Json.truthy (saved_id webhookData "payment_agreement")) = true).
  { intros [-> | [-> | ->]]; simpl; rewrite ?orb_true_r; reflexivity. }
  split; [| split].
  - intros H. rewrite Hfalsy; [reflexivity |].
    destruct H as [-> | [-> | ->]]; auto.
  - intros H. rewrite Hfalsy; [reflexivity | assumption].
  - intros card customer agreement -> -> -> -> -> ->. reflexivity.
Qed.

Lemma extractSavedCard_witness :
  Sample.saved_card_payload <> JNull /\
  Tap.extractSavedCardFromWebhook (Some Sample.saved_card_payload)
  = Return (Some (Tap.mkSavedCard (JStr "cus_1") (JStr "card_1") (JStr "pa_1"))) /\
  Tap.extractSavedCardFromWebhook
    (Some (JObj [ ("card", JObj [("id", JStr "card_1")]);
                  ("customer", JObj [("id", JStr "cus_1")]) ]))
  = Return None.
Proof.
  split; [discriminate |]. split.
  - apply (extractSavedCard_absent_or_token Sample.saved_card_payload);
      try discriminate; reflexivity.
  - apply (extractSavedCard_absent_or_token
             (JObj [ ("card", JObj [("id", JStr "card_1")]);
                     ("customer", JObj [("id", JStr "cus_1")]) ]));
      [discriminate | right; right; reflexivity].
Defined.

(** C7, as stated, fails: in this payload the three identifiers are
    present, [card.id] is the empty string, and the result is [null]. *)
Lemma extractSavedCard_empty_card_id :
  saved_id Sample.empty_card_id "card" = Some (JStr "") /\
  saved_id Sample.empty_card_id "customer" = Some (JStr "cus_1") /\
  saved_id Sample.empty_card_id "payment_agreement" = Some (JStr "pa_1") /\
  Tap.extractSavedCardFromWebhook (Some Sample.empty_card_id) = Return None.
Proof. split_all; reflexivity. Qed.

(** ** Checkout links *)

Lemma is_ConfigurationError_missing (name : string) :
  is_ConfigurationError (Error ("Missing env variable " +:+ name)) = true.
Proof. reflexivity. Qed.

(** C8. For each provider that requires a key, when a required variable
    is absent (unset or empty), [createCheckoutLink] throws a
    configuration error and the list of requests sent is unchanged. *)
Theorem createCheckoutLink_missing_secret
    (p : PaymentProviderName) (w : World) (params : CreateCheckoutLinkParams)
    (sent : list HttpRequest) (var : string) :
  In var (required_variables p) ->
  nonempty (env w !! var) = None ->
  exists e, createCheckoutLink_of p params w sent = (Throw e, sent)
            /\ is_ConfigurationError e = true.
Proof.
  intros Hin Habsent.
  destruct p; simpl in Hin; repeat destruct Hin as [<- | Hin]; try contradiction;
    simpl.
  - unfold Stripe.createCheckoutLink, Stripe.getStripeSecretKey.
    rewrite (bind_required_env_absent _ _ _ _ Habsent). eauto.
  - unfold LemonSqueezy.createCheckoutLink, LemonSqueezy.getLemonSqueezyApiKey.
    rewrite (bind_required_env_absent _ _ _ _ Habsent). eauto.
  - unfold LemonSqueezy.createCheckoutLink, LemonSqueezy.getLemonSqueezyApiKey,
      LemonSqueezy.getLemonSqueezyStoreId.
    destruct (nonempty (env w !! "LEMONSQUEEZY_API_KEY")) as [apiKey|] eqn:Hkey.
    + rewrite (bind_required_env_present _ _ _ _ _ Hkey).
      rewrite (bind_required_env_absent _ _ _ _ Habsent). eauto.
    + rewrite (bind_required_env_absent _ _ _ _ Hkey). eauto.
  - unfold Polar.createCheckoutLink, Polar.getPolarAccessToken.
    rewrite (bind_required_env_absent _ _ _ _ Habsent). eauto.
  - unfold Creem.createCheckoutLink, Creem.creemFetch, Creem.getCreemApiKey.
    rewrite bind_bind.
    rewrite (bind_required_env_absent _ _ _ _ Habsent). eauto.
  - unfold DodoPayments.createCheckoutLink, DodoPayments.getDodoPaymentsApiKey.
    rewrite (bind_required_env_absent _ _ _ _ Habsent). eauto.
  - unfold Tap.createCheckoutLink, Tap.getTapSecretKey.
    rewrite (bind_required_env_absent _ _ _ _ Habsent). eauto.
Qed.

Lemma createCheckoutLink_missing_secret_witness :
  let w := mkWorld (delete "LEMONSQUEEZY_STORE_ID" Sample.checkout_env)
             (Sample.answer 200 "{}") 0 in
  (In "LEMONSQUEEZY_STORE_ID" (required_variables lemonsqueezy) /\
   nonempty (env w !! "LEMONSQUEEZY_STORE_ID") = None) /\
  exists e, createCheckoutLink_of lemonsqueezy Sample.params w [] = (Throw e, [])
            /\ is_ConfigurationError e = true.
Proof.
  intros w.
  assert (Hin : In "LEMONSQUEEZY_STORE_ID" (required_variables lemonsqueezy))
    by (right; left; reflexivity).
  assert (Habsent : nonempty (env w !! "LEMONSQUEEZY_STORE_ID") = None)
    by (vm_compute; reflexivity).
  split; [exact (conj Hin Habsent) |].
  exact (createCheckoutLink_missing_secret lemonsqueezy w Sample.params []
           "LEMONSQUEEZY_STORE_ID" Hin Habsent).
Defined.

Ltac sent_one :=
  eexists; split; [io_cases; reflexivity |].

(** C9, as amended. For Stripe, LemonSqueezy, Creem, DodoPayments and
    Tap, with the required variables configured, [createCheckoutLink]
    of a request without seats sends one request, and that request
    carries the quantity 1: the number 1 in the JSON bodies of
    LemonSqueezy, Creem and DodoPayments, the string [1] in the form of
    Stripe and in the metadata of Tap. *)
Theorem checkout_without_seats_quantity_one
    (p : PaymentProviderName) (w : World) (params : CreateCheckoutLinkParams) :
  writes_quantity p = true ->
  seats params = None ->
  variables_configured p w ->
  exists r, sent_by (createCheckoutLink_of p params) w = [r]
            /\ quantity_of p r = Some (quantity_one p).
Proof.
  unfold variables_configured, sent_by.
  intros Hp Hseats Hconf.
  destruct p; try discriminate Hp; simpl in Hconf |- *;
    repeat match goal with
           | H : Forall _ (_ :: _) |- _ =>
               let v := fresh "key" in
               let E := fresh "Hkey" in
               apply Forall_cons in H as [[v E] H]
           end.
  - unfold Stripe.createCheckoutLink, Stripe.getStripeSecretKey.
    rewrite (bind_required_env_present _ _ _ _ _ Hkey).
    sent_one. unfold quantity_of, Stripe.checkout_form. simpl.
    rewrite Hseats. reflexivity.
  - unfold LemonSqueezy.createCheckoutLink, LemonSqueezy.getLemonSqueezyApiKey,
      LemonSqueezy.getLemonSqueezyStoreId.
    rewrite (bind_required_env_present _ _ _ _ _ Hkey).
    rewrite (bind_required_env_present _ _ _ _ _ Hkey0).
    sent_one. unfold quantity_of, LemonSqueezy.checkout_body. simpl.
    rewrite Hseats.
    destruct (redirectUrl params), (email params), (name params); reflexivity.
  - unfold Creem.createCheckoutLink, Creem.creemFetch, Creem.getCreemApiKey,
      Creem.getCreemApiUrl.
    rewrite bind_bind. rewrite (bind_required_env_present _ _ _ _ _ Hkey).
    rewrite bind_bind, bind_bind, bind_getenv, bind_mret.
    destruct (is_literal "production" (env w !! "NODE_ENV"));
      (sent_one; unfold quantity_of, Creem.checkout_body; simpl;
       rewrite Hseats; destruct (redirectUrl params), (email params); reflexivity).
  - unfold DodoPayments.createCheckoutLink, DodoPayments.getDodoPaymentsApiKey,
      DodoPayments.getDodoPaymentsApiUrl.
    rewrite (bind_required_env_present _ _ _ _ _ Hkey).
    rewrite bind_bind, bind_getenv, bind_mret.
    destruct (is_literal "production" (env w !! "NODE_ENV"));
      (sent_one; unfold quantity_of, DodoPayments.checkout_body; simpl;
       rewrite Hseats; repeat case_match; reflexivity).
  - unfold Tap.createCheckoutLink, Tap.getTapSecretKey.
    rewrite (bind_required_env_present _ _ _ _ _ Hkey).
    sent_one. unfold quantity_of, Tap.checkout_body, Tap.checkout_metadata,
      metadata_of. simpl. rewrite Hseats.
    destruct (nonempty (organizationId params)), (nonempty (userId params));
      reflexivity.
Qed.

Lemma checkout_without_seats_witness :
  (writes_quantity lemonsqueezy = true /\
   seats Sample.params = None /\
   variables_configured lemonsqueezy Sample.world) /\
  exists r, sent_by (createCheckoutLink_of lemonsqueezy Sample.params) Sample.world = [r]
            /\ quantity_of lemonsqueezy r = Some (quantity_one lemonsqueezy).
Proof.
  assert (Hconf : variables_configured lemonsqueezy Sample.world)
    by (repeat constructor; vm_compute; eexists; reflexivity).
  split; [exact (conj eq_refl (conj eq_refl Hconf)) |].
  exact (checkout_without_seats_quantity_one lemonsqueezy Sample.world Sample.params
           eq_refl eq_refl Hconf).
Defined.

(** C9, as stated, fails: the request Polar's [createCheckoutLink] sends
    for a request without seats has no quantity at all. *)
Lemma polar_checkout_carries_no_quantity :
  seats Sample.params = None /\
  variables_configured polar Sample.world /\
  sent_by (createCheckoutLink_of polar Sample.params) Sample.world
  = [ post_json "https://api.polar.sh/v1/checkouts"
        [("Authorization", "Bearer polar_token")]
        (JObj [ ("products", JArr [JStr "prod_1"]);
                ("success_url", JStr "https://example.com/success");
                ("metadata", JObj [("organization_id", JStr "org_1")]) ]) ] /\
  forall r, In r (sent_by (createCheckoutLink_of polar Sample.params) Sample.world) ->
            body_member_names r
            = ["products"; "success_url"; "metadata"; "organization_id"]
            /\ quantity_of polar r = None.
Proof.
  assert (Hsent :
    sent_by (createCheckoutLink_of polar Sample.params) Sample.world
    = [ post_json "https://api.polar.sh/v1/checkouts"
          [("Authorization", "Bearer polar_token")]
          (JObj [ ("products", JArr [JStr "prod_1"]);
                  ("success_url", JStr "https://example.com/success");
                  ("metadata", JObj [("organization_id", JStr "org_1")]) ]) ])
    by (vm_compute; reflexivity).
  split; [reflexivity |]. split.
  - repeat constructor; vm_compute; eexists; reflexivity.
  - split; [exact Hsent |]. rewrite Hsent. intros r [<- | []].
    split; reflexivity.
Qed.

(** Console sends nothing and Custom throws. *)
Lemma console_custom_checkout_send_nothing (w : World) (params : CreateCheckoutLinkParams) :
  sent_by (createCheckoutLink_of console params) w = [] /\
  sent_by (createCheckoutLink_of custom params) w = [] /\
  completion_of (createCheckoutLink_of custom params) w
  = Throw (Error "Custom createCheckoutLink not implemented").
Proof. split_all; reflexivity. Qed.

(** Whatever the request, the body Polar sends names no quantity. *)
Lemma polar_checkout_body_members (params : CreateCheckoutLinkParams) :
  forall k, In k (member_names (Polar.checkout_body params)) ->
            In k ["products"; "success_url"; "metadata"; "customer_id";
                  "organization_id"; "user_id"].
Proof.
  intros k. unfold Polar.checkout_body, metadata_of.
  destruct (nonempty (organizationId params)), (nonempty (userId params)),
    (nonempty (customerId params)); simpl; intuition.
Qed.

Lemma tap_checkout_sent (w : World) (params : CreateCheckoutLinkParams) (key : string) :
  nonempty (env w !! "TAP_SECRET_KEY") = Some key ->
  sent_by (Tap.createCheckoutLink params) w
  = [ post_json (Tap.TAP_API_URL +:+ "/charges") [bearer key]
        (Tap.checkout_body (clock w) params) ].
Proof.
  intros Hkey. unfold sent_by, Tap.createCheckoutLink, Tap.getTapSecretKey.
  rewrite (bind_required_env_present _ _ _ _ _ Hkey).
  io_cases; reflexivity.
Qed.

(** C10. Every request [createCheckoutLink] of Tap sends goes to the
    charges endpoint with the amount 0 and the currency [USD], whatever
    the product, the type and the seats; with the secret key configured
    it sends exactly one, and none without. *)
Theorem tap_checkout_amount_zero_usd
    (w : World) (params : CreateCheckoutLinkParams) :
  (forall r, In r (sent_by (Tap.createCheckoutLink params) w) ->
             is_charge_call r /\
             body_member "amount" r = Some (JNum 0 0) /\
             body_member "currency" r = Some (JStr "USD")) /\
  (is_Some (nonempty (env w !! "TAP_SECRET_KEY")) ->
   exists r, sent_by (Tap.createCheckoutLink params) w = [r]) /\
  (nonempty (env w !! "TAP_SECRET_KEY") = None ->
   sent_by (Tap.createCheckoutLink params) w = []).
Proof.
  destruct (nonempty (env w !! "TAP_SECRET_KEY")) as [key|] eqn:Hkey.
  - rewrite (tap_checkout_sent w params key Hkey).
    split; [| split].
    + intros r [<- | []]. split_all; reflexivity.
    + intros _. eauto.
    + discriminate.
  - unfold sent_by, Tap.createCheckoutLink, Tap.getTapSecretKey.
    rewrite (bind_required_env_absent _ _ _ _ Hkey). simpl.
    split; [intros r [] | split; [intros [? ?]; discriminate | reflexivity]].
Qed.

Lemma tap_checkout_amount_zero_usd_witness :
  is_Some (nonempty (env Sample.world !! "TAP_SECRET_KEY")) /\
  exists r, sent_by (Tap.createCheckoutLink Sample.params) Sample.world = [r]
            /\ is_charge_call r
            /\ body_member "amount" r = Some (JNum 0 0)
            /\ body_member "currency" r = Some (JStr "USD").
Proof.
  assert (Hkey : is_Some (nonempty (env Sample.world !! "TAP_SECRET_KEY")))
    by (vm_compute; eexists; reflexivity).
  split; [exact Hkey |].
  destruct (tap_checkout_amount_zero_usd Sample.world Sample.params)
    as (Hall & Hone & _).
  destruct (Hone Hkey) as [r Hr]. exists r. split; [exact Hr |].
  apply Hall. rewrite Hr. left. reflexivity.
Defined.

(** ** Signature comparison *)

Lemma Creem_observed_response (env : gmap string string) (req : Request) :
  fst (Creem.webhookHandler_observed env req) = Creem.webhookHandler env req.
Proof.
  unfold Creem.webhookHandler_observed, Creem.webhookHandler.
  repeat case_match; reflexivity.
Qed.

Lemma Dodo_observed_response (env : gmap string string) (req : Request) :
  fst (DodoPayments.webhookHandler_observed env req)
  = DodoPayments.webhookHandler env req.
Proof.
  unfold DodoPayments.webhookHandler_observed, DodoPayments.webhookHandler.
  destruct (nonempty (env !! "DODO_PAYMENTS_WEBHOOK_SECRET")); [| reflexivity].
  destruct (body req); [| reflexivity].
  destruct (nonempty (headers req !! "webhook-id")),
    (nonempty (headers req !! "webhook-signature")),
    (nonempty (headers req !! "webhook-timestamp")); reflexivity.
Qed.

Lemma LemonSqueezy_observed_response (env : gmap string string) (req : Request) :
  fst (LemonSqueezy.webhookHandler_observed env req)
  = LemonSqueezy.webhookHandler env req.
Proof.
  unfold LemonSqueezy.webhookHandler_observed, LemonSqueezy.webhookHandler.
  destruct (nonempty (env !! "LEMONSQUEEZY_WEBHOOK_SECRET")); [| reflexivity].
  unfold Buffer_from. destruct (headers req !! "x-signature"); reflexivity.
Qed.

(** C2. The handlers of Creem and DodoPayments compare the signature
    with [!==], ordinary string equality, on every request that gets as
    far as the comparison; the handler of LemonSqueezy compares with
    [timingSafeEqual] alone. The observed handlers answer what the
    handlers answer. At a Creem request and a DodoPayments request
    with a wrong signature of the right length, the comparison
    performed is not constant-time by the criterion of the
    specification. *)
Theorem creem_dodo_signatures_compared_with_strict_inequality :
  (forall env req,
     fst (Creem.webhookHandler_observed env req) = Creem.webhookHandler env req /\
     fst (DodoPayments.webhookHandler_observed env req)
     = DodoPayments.webhookHandler env req /\
     fst (LemonSqueezy.webhookHandler_observed env req)
     = LemonSqueezy.webhookHandler env req) /\
  (forall env req secret signature,
     method req = "POST" ->
     nonempty (headers req !! "creem-signature") = Some signature ->
     nonempty (env !! "CREEM_WEBHOOK_SECRET") = Some secret ->
     snd (Creem.webhookHandler_observed env req)
     = [StrictInequality (hmac_sha256_hex secret (text req)) signature]) /\
  (forall env req secret id timestamp signature,
     nonempty (env !! "DODO_PAYMENTS_WEBHOOK_SECRET") = Some secret ->
     body req <> None ->
     nonempty (headers req !! "webhook-id") = Some id ->
     nonempty (headers req !! "webhook-timestamp") = Some timestamp ->
     nonempty (headers req !! "webhook-signature") = Some signature ->
     snd (DodoPayments.webhookHandler_observed env req)
     = [StrictInequality signature
          (hmac_sha256_hex secret (id +:+ "." +:+ timestamp +:+ "." +:+ text req))]) /\
  (forall env req c,
     In c (snd (LemonSqueezy.webhookHandler_observed env req)) ->
     constant_time c = true) /\
  (exists c,
     In c (snd (Creem.webhookHandler_observed Sample.webhook_env
                  (Sample.creem_request Sample.creem_wrong_first))) /\
     constant_time c = false /\
     String.length Sample.creem_wrong_first = 64%nat /\
     status_of (Creem.webhookHandler Sample.webhook_env
                  (Sample.creem_request Sample.creem_wrong_first)) = Some 400) /\
  (exists c,
     In c (snd (DodoPayments.webhookHandler_observed Sample.webhook_env
                  (Sample.dodo_request "POST" ∅ Sample.dodo_wrong_first))) /\
     constant_time c = false /\
     String.length Sample.dodo_wrong_first = 64%nat /\
     status_of (DodoPayments.webhookHandler Sample.webhook_env
                  (Sample.dodo_request "POST" ∅ Sample.dodo_wrong_first)) = Some 401).
Proof.
  split; [| split; [| split; [| split; [| split]]]].
  - intros env req. split; [apply Creem_observed_response |].
    split; [apply Dodo_observed_response | apply LemonSqueezy_observed_response].
  - intros env req secret signature Hm Hsig Hsecret.
    unfold Creem.webhookHandler_observed.
    rewrite Hm, Hsig, Hsecret. reflexivity.
  - intros env req secret id timestamp signature Hsecret Hbody Hid Hts Hsig.
    unfold DodoPayments.webhookHandler_observed.
    rewrite Hsecret. destruct (body req); [| contradiction].
    rewrite Hid, Hsig, Hts. reflexivity.
  - intros env req c. unfold LemonSqueezy.webhookHandler_observed, Buffer_from.
    destruct (nonempty (env !! "LEMONSQUEEZY_WEBHOOK_SECRET")); [| intros []].
    destruct (headers req !! "x-signature"); [| intros []].
    intros [<- | []]. reflexivity.
  - eexists. split; [vm_compute; left; reflexivity |].
    split_all; vm_compute; reflexivity.
  - eexists. split; [vm_compute; left; reflexivity |].
    split_all; vm_compute; reflexivity.
Qed.

Lemma creem_dodo_signatures_compared_with_strict_inequality_witness :
  let req := Sample.creem_request Sample.creem_wrong_first in
  (method req = "POST" /\
   nonempty (headers req !! "creem-signature") = Some Sample.creem_wrong_first /\
   nonempty (Sample.webhook_env !! "CREEM_WEBHOOK_SECRET") = Some "whsec_creem") /\
  snd (Creem.webhookHandler_observed Sample.webhook_env req)
  = [StrictInequality (hmac_sha256_hex "whsec_creem" (text req))
       Sample.creem_wrong_first].
Proof.
  intros req.
  assert (Hsig : nonempty (headers req !! "creem-signature")
                 = Some Sample.creem_wrong_first) by (vm_compute; reflexivity).
  assert (Hsecret : nonempty (Sample.webhook_env !! "CREEM_WEBHOOK_SECRET")
                    = Some "whsec_creem") by (vm_compute; reflexivity).
  split; [exact (conj eq_refl (conj Hsig Hsecret)) |].
  exact (proj1 (proj2 creem_dodo_signatures_compared_with_strict_inequality)
           Sample.webhook_env req "whsec_creem" Sample.creem_wrong_first
           eq_refl Hsig Hsecret).
Defined.


(** * Further properties of the adapters *)

(** ** The course of a checkout call *)

Ltac configured_keys :=
  repeat match goal with
         | H : Forall _ (_ :: _) |- _ =>
             let v := fresh "key" in
             let E := fresh "Hkey" in
             apply Forall_cons in H as [[v E] H]
         end.

Ltac io_outcome :=
  unfold outcome, mbind at 1, completion_bind, cbind; io_cases;
  unfold mbind, completion_bind, cbind; simpl;
  repeat match goal with
         | |- context [match ?x with Return _ => _ | Throw _ => _ end] => destruct x
         end;
  reflexivity.

Ltac the_request :=
  rewrite ?bind_Date_now, ?bind_getenv, ?bind_mret; cbv beta;
  match goal with |- context [fetch ?r] => exists r end.

Ltac same_key :=
  intros ? ? [= <-] ?;
  match goal with
  | H : nonempty ?x = Some ?k, H' : nonempty ?x = Some ?k' |- _ =>
      rewrite H in H'; injection H' as <-
  end; simpl; auto.

(** With its variables configured, [createCheckoutLink] sends one POST
    request that carries the key, and completes as [outcome] tells from
    the answer. *)
Lemma checkout_run (p : PaymentProviderName) (w : World)
    (params : CreateCheckoutLinkParams) :
  keyed p = true ->
  variables_configured p w ->
  exists r,
    createCheckoutLink_of p params w []
    = (outcome (error_prefix p) (read_link p) (network w [] r), [r]) /\
    httpMethod r = "POST" /\
    (forall var key, api_key_variable p = Some var ->
                     nonempty (env w !! var) = Some key ->
                     In (auth_header p key) (httpHeaders r)).
Proof.
  unfold variables_configured. intros Hp Hconf.
  destruct p; try discriminate Hp; simpl in Hconf |- *; configured_keys.
  - unfold Stripe.createCheckoutLink, Stripe.getStripeSecretKey.
    rewrite (bind_required_env_present _ _ _ _ _ Hkey).
    the_request. split; [io_outcome |]. split; [reflexivity | same_key].
  - unfold LemonSqueezy.createCheckoutLink, LemonSqueezy.getLemonSqueezyApiKey,
      LemonSqueezy.getLemonSqueezyStoreId.
    rewrite (bind_required_env_present _ _ _ _ _ Hkey).
    rewrite (bind_required_env_present _ _ _ _ _ Hkey0).
    the_request. split; [io_outcome |]. split; [reflexivity | same_key].
  - unfold Polar.createCheckoutLink, Polar.getPolarAccessToken.
    rewrite (bind_required_env_present _ _ _ _ _ Hkey).
    the_request. split; [io_outcome |]. split; [reflexivity | same_key].
  - unfold Creem.createCheckoutLink, Creem.creemFetch, Creem.getCreemApiKey,
      Creem.getCreemApiUrl.
    rewrite bind_bind. rewrite (bind_required_env_present _ _ _ _ _ Hkey).
    rewrite bind_bind, bind_bind, bind_getenv, bind_mret.
    the_request. split; [io_outcome |]. split; [reflexivity | same_key].
  - unfold DodoPayments.createCheckoutLink, DodoPayments.getDodoPaymentsApiKey,
      DodoPayments.getDodoPaymentsApiUrl.
    rewrite (bind_required_env_present _ _ _ _ _ Hkey).
    rewrite bind_bind, bind_getenv, bind_mret.
    the_request. split; [io_outcome |]. split; [reflexivity | same_key].
  - unfold Tap.createCheckoutLink, Tap.getTapSecretKey.
    rewrite (bind_required_env_present _ _ _ _ _ Hkey).
    the_request. split; [io_outcome |]. split; [reflexivity | same_key].
Qed.

Lemma keyed_of_api_key (p : PaymentProviderName) (var : string) :
  api_key_variable p = Some var -> keyed p = true.
Proof. destruct p; simpl; intros; (reflexivity || discriminate). Qed.

(** X1. With its variables configured, [createCheckoutLink] of a keyed
    provider sends exactly one request, whatever the network answers:
    a POST that carries the configured key, as a bearer token or, for
    Creem, in [x-api-key]. *)
Theorem checkout_sends_one_post_with_key
    (p : PaymentProviderName) (w : World) (params : CreateCheckoutLinkParams)
    (var key : string) :
  api_key_variable p = Some var ->
  nonempty (env w !! var) = Some key ->
  variables_configured p w ->
  exists r, sent_by (createCheckoutLink_of p params) w = [r]
            /\ httpMethod r = "POST"
            /\ In (auth_header p key) (httpHeaders r).
Proof.
  intros Hvar Hkey Hconf.
  destruct (checkout_run p w params (keyed_of_api_key p var Hvar) Hconf)
    as (r & Hrun & Hpost & Hauth).
  exists r. unfold sent_by. rewrite Hrun. eauto.
Qed.

Lemma checkout_sends_one_post_with_key_witness :
  (api_key_variable creem = Some "CREEM_API_KEY" /\
   nonempty (env Sample.world !! "CREEM_API_KEY") = Some "creem_key" /\
   variables_configured creem Sample.world) /\
  exists r, sent_by (createCheckoutLink_of creem Sample.params) Sample.world = [r]
            /\ httpMethod r = "POST"
            /\ In (auth_header creem "creem_key") (httpHeaders r).
Proof.
  assert (Hkey : nonempty (env Sample.world !! "CREEM_API_KEY") = Some "creem_key")
    by (vm_compute; reflexivity).
  assert (Hconf : variables_configured creem Sample.world)
    by (repeat constructor; vm_compute; eexists; reflexivity).
  split; [exact (conj eq_refl (conj Hkey Hconf)) |].
  exact (checkout_sends_one_post_with_key creem Sample.world Sample.params
           "CREEM_API_KEY" "creem_key" eq_refl Hkey Hconf).
Defined.

(** X2. The failures of [createCheckoutLink] after its request: when
    [fetch] rejects, its error is thrown; when the answer has a
    non-success status, the error that carries the provider's prefix and
    the diagnostic body is thrown if the body is JSON, and the parse
    error of [response.json()] if it is not. *)
Theorem checkout_failure_surfaces
    (p : PaymentProviderName) (w : World) (params : CreateCheckoutLinkParams) :
  keyed p = true ->
  variables_configured p w ->
  exists r, sent_by (createCheckoutLink_of p params) w = [r] /\
    (forall e, network w [] r = Throw e ->
               completion_of (createCheckoutLink_of p params) w = Throw e) /\
    (forall response, network w [] r = Return response -> ok response = false ->
       (forall d, Json.parse (httpText response) = Return d ->
                  completion_of (createCheckoutLink_of p params) w
                  = Throw (ApiError (error_prefix p) d)) /\
       (forall e, Json.parse (httpText response) = Throw e ->
                  completion_of (createCheckoutLink_of p params) w = Throw e)).
Proof.
  intros Hp Hconf.
  destruct (checkout_run p w params Hp Hconf) as (r & Hrun & _).
  exists r. unfold sent_by, completion_of. rewrite Hrun. simpl.
  split; [reflexivity |]. split.
  - intros e ->. reflexivity.
  - intros response -> Hok. unfold outcome. simpl. rewrite Hok.
    split; [intros d -> | intros e ->]; reflexivity.
Qed.

Lemma checkout_failure_surfaces_witness :
  (keyed polar = true /\ variables_configured polar Sample.token_refused) /\
  completion_of (createCheckoutLink_of polar Sample.params) Sample.token_refused
  = Throw (ApiError "Polar API error: "
             (JObj [("errors", JArr [JObj [("code", JStr "1004")]])])).
Proof.
  assert (Hconf : variables_configured polar Sample.token_refused)
    by (repeat constructor; vm_compute; eexists; reflexivity).
  split; [exact (conj eq_refl Hconf) |].
  destruct (checkout_failure_surfaces polar Sample.token_refused Sample.params
              eq_refl Hconf) as (r & Hsent & _ & Hrefused).
  assert (Hr : network Sample.token_refused [] r
               = Return (mkHttpResponse 401 (json_text "{'errors':[{'code':'1004'}]}")))
    by reflexivity.
  apply (proj1 (Hrefused _ Hr eq_refl)). vm_compute. reflexivity.
Defined.

(** Reading with optional chaining and reading with plain member
    access agree where the former finds a value. *)
Lemma get_of_get_opt (x : option JSON) (k : string) (u : JSON) :
  Json.get_opt x k = Some u -> Json.get x k = Return (Some u).
Proof.
  unfold Json.get_opt, Json.get.
  destruct x as [[]|]; try discriminate. intros ->. reflexivity.
Qed.

Lemma get_opt_object (x : option JSON) (k : string) (u : JSON) :
  Json.get_opt x k = Some u -> exists ms, x = Some (JObj ms).
Proof.
  unfold Json.get_opt. destruct x as [[]|]; try discriminate. eauto.
Qed.

Lemma read_link_found (p : PaymentProviderName) (v u : JSON) :
  link_of p v = Some u -> read_link p v = Return (Some u).
Proof.
  destruct p; simpl; try discriminate; intros H.
  - apply get_of_get_opt, H.
  - destruct (get_opt_object _ _ _ H) as [ms Ea].
    destruct (get_opt_object _ _ _ Ea) as [ms' Ed].
    rewrite Ea in H. rewrite Ed in Ea.
    rewrite (get_of_get_opt _ _ _ Ed). run_handler.
    unfold Json.get_opt in Ea. rewrite Ea. apply get_of_get_opt, H.
  - apply get_of_get_opt, H.
  - apply get_of_get_opt, H.
  - apply get_of_get_opt, H.
  - destruct (get_opt_object _ _ _ H) as [ms Et].
    rewrite Et in H.
    rewrite (get_of_get_opt _ _ _ Et). run_handler. rewrite H. reflexivity.
Qed.

(** X3. On a success status, [createCheckoutLink] returns the link the
    response holds: [url] for Stripe and Polar, [data.attributes.url]
    for LemonSqueezy, [checkout_url] for Creem and DodoPayments,
    [transaction.url] for Tap. *)
Theorem checkout_returns_link
    (p : PaymentProviderName) (w : World) (params : CreateCheckoutLinkParams) :
  keyed p = true ->
  variables_configured p w ->
  exists r, sent_by (createCheckoutLink_of p params) w = [r] /\
    forall response v u,
      network w [] r = Return response -> ok response = true ->
      Json.parse (httpText response) = Return v ->
      link_of p v = Some u ->
      completion_of (createCheckoutLink_of p params) w = Return (Some u).
Proof.
  intros Hp Hconf.
  destruct (checkout_run p w params Hp Hconf) as (r & Hrun & _).
  exists r. unfold sent_by, completion_of. rewrite Hrun. simpl.
  split; [reflexivity |].
  intros response v u -> Hok Hparse Hlink. unfold outcome. simpl.
  rewrite Hok, Hparse. simpl. apply read_link_found, Hlink.
Qed.

Lemma checkout_returns_link_witness :
  (keyed stripe = true /\ variables_configured stripe Sample.world) /\
  completion_of (createCheckoutLink_of stripe Sample.params) Sample.world
  = Return (Some (JStr "https://pay.example/1")).
Proof.
  assert (Hconf : variables_configured stripe Sample.world)
    by (repeat constructor; vm_compute; eexists; reflexivity).
  split; [exact (conj eq_refl Hconf) |].
  destruct (checkout_returns_link stripe Sample.world Sample.params eq_refl Hconf)
    as (r & _ & Hlink).
  apply (Hlink (mkHttpResponse 200 (json_text "{'url':'https://pay.example/1'}"))
           (JObj [("url", JStr "https://pay.example/1")])).
  - reflexivity.
  - reflexivity.
  - vm_compute. reflexivity.
  - reflexivity.
Defined.

Lemma get_cases (x : option JSON) (k : string) :
  (Json.get x k = Throw TypeError /\ (x = None \/ x = Some JNull)) \/
  (Json.get x k = Return (Json.get_opt x k)).
Proof.
  destruct x as [[]|]; simpl; auto.
Qed.

Lemma get_undefined (k : string) : Json.get None k = Throw TypeError.
Proof. reflexivity. Qed.

Lemma get_null (k : string) : Json.get (Some JNull) k = Throw TypeError.
Proof. reflexivity. Qed.

(** X4. On a success status whose body holds no link,
    [createCheckoutLink] returns [undefined] for Stripe, Polar, Creem
    and DodoPayments and [null] for Tap; for LemonSqueezy it throws a
    [TypeError] when the body has no [data.attributes]; for every
    provider it throws a [TypeError] when the body is the JSON [null]. *)
Theorem checkout_without_link
    (p : PaymentProviderName) (w : World) (params : CreateCheckoutLinkParams) :
  keyed p = true ->
  variables_configured p w ->
  exists r, sent_by (createCheckoutLink_of p params) w = [r] /\
    forall response v,
      network w [] r = Return response -> ok response = true ->
      Json.parse (httpText response) = Return v ->
      (In p [stripe; polar; creem; dodopayments] -> v <> JNull ->
       link_of p v = None ->
       completion_of (createCheckoutLink_of p params) w = Return None) /\
      (p = tap -> v <> JNull -> link_of p v = None ->
       completion_of (createCheckoutLink_of p params) w = Return (Some JNull)) /\
      (p = lemonsqueezy ->
       Json.get_opt (Json.get_opt (Some v) "data") "attributes" = None \/
       Json.get_opt (Json.get_opt (Some v) "data") "attributes" = Some JNull ->
       completion_of (createCheckoutLink_of p params) w = Throw TypeError) /\
      (v = JNull ->
       completion_of (createCheckoutLink_of p params) w = Throw TypeError).
Proof.
  intros Hp Hconf.
  destruct (checkout_run p w params Hp Hconf) as (r & Hrun & _).
  exists r. unfold sent_by, completion_of. rewrite Hrun. simpl.
  split; [reflexivity |].
  intros response v -> Hok Hparse. unfold outcome. simpl.
  rewrite Hok, Hparse. simpl. split; [| split; [| split]].
  - intros Hin Hv Hlink.
    assert (Hget : forall k, Json.get (Some v) k = Return (Json.get_opt (Some v) k))
      by (intros k; destruct v; try reflexivity; contradiction).
    simpl in Hin.
    destruct Hin as [<- | [<- | [<- | [<- | []]]]]; simpl in *;
      rewrite Hget, Hlink; reflexivity.
  - intros -> Hv Hlink. simpl in *.
    assert (Hget : Json.get (Some v) "transaction"
                   = Return (Json.get_opt (Some v) "transaction"))
      by (destruct v; try reflexivity; contradiction).
    rewrite Hget. run_handler. rewrite Hlink. reflexivity.
  - intros -> Hattrs. simpl.
    destruct (get_cases (Some v) "data") as [[-> _] | ->]; [reflexivity |].
    run_handler.
    destruct (get_cases (Json.get_opt (Some v) "data") "attributes")
      as [[-> _] | ->]; [reflexivity |].
    destruct Hattrs as [-> | ->]; reflexivity.
  - intros ->. destruct p; try discriminate Hp; reflexivity.
Qed.

Lemma checkout_without_link_witness :
  let w := mkWorld Sample.checkout_env (Sample.answer 200 (json_text "{'id':'chg_1'}")) 0 in
  (keyed tap = true /\ variables_configured tap w) /\
  completion_of (createCheckoutLink_of tap Sample.params) w = Return (Some JNull).
Proof.
  intros w.
  assert (Hconf : variables_configured tap w)
    by (repeat constructor; vm_compute; eexists; reflexivity).
  split; [exact (conj eq_refl Hconf) |].
  destruct (checkout_without_link tap w Sample.params eq_refl Hconf)
    as (r & _ & H).
  destruct (H (mkHttpResponse 200 (json_text "{'id':'chg_1'}"))
              (JObj [("id", JStr "chg_1")]) eq_refl eq_refl)
    as (_ & Htap & _).
  - vm_compute. reflexivity.
  - apply Htap; [reflexivity | discriminate | reflexivity].
Defined.

(** ** The request of a checkout call *)

Lemma Stripe_checkout_sent (w : World) (params : CreateCheckoutLinkParams) (key : string) :
  nonempty (env w !! "STRIPE_SECRET_KEY") = Some key ->
  sent_by (Stripe.createCheckoutLink params) w
  = [ mkHttpRequest (Stripe.STRIPE_API_URL +:+ "/checkout/sessions") "POST"
        [ bearer key; ("Content-Type", "application/x-www-form-urlencoded") ]
        (FormBody (Stripe.checkout_form params)) ].
Proof.
  intros Hkey. unfold sent_by, Stripe.createCheckoutLink, Stripe.getStripeSecretKey.
  rewrite (bind_required_env_present _ _ _ _ _ Hkey).
  io_cases; reflexivity.
Qed.

Lemma LemonSqueezy_checkout_sent (w : World) (params : CreateCheckoutLinkParams)
    (key store : string) :
  nonempty (env w !! "LEMONSQUEEZY_API_KEY") = Some key ->
  nonempty (env w !! "LEMONSQUEEZY_STORE_ID") = Some store ->
  sent_by (LemonSqueezy.createCheckoutLink params) w
  = [ mkHttpRequest (LemonSqueezy.LEMONSQUEEZY_API_URL +:+ "/checkouts") "POST"
        [ bearer key; ("Content-Type", "application/vnd.api+json");
          ("Accept", "application/vnd.api+json") ]
        (JsonBody (LemonSqueezy.checkout_body store params)) ].
Proof.
  intros Hkey Hstore.
  unfold sent_by, LemonSqueezy.createCheckoutLink,
    LemonSqueezy.getLemonSqueezyApiKey, LemonSqueezy.getLemonSqueezyStoreId.
  rewrite (bind_required_env_present _ _ _ _ _ Hkey).
  rewrite (bind_required_env_present _ _ _ _ _ Hstore).
  io_cases; reflexivity.
Qed.

Lemma Polar_checkout_sent (w : World) (params : CreateCheckoutLinkParams) (key : string) :
  nonempty (env w !! "POLAR_ACCESS_TOKEN") = Some key ->
  sent_by (Polar.createCheckoutLink params) w
  = [ post_json (Polar.POLAR_API_URL +:+ "/checkouts") [bearer key]
        (Polar.checkout_body params) ].
Proof.
  intros Hkey. unfold sent_by, Polar.createCheckoutLink, Polar.getPolarAccessToken.
  rewrite (bind_required_env_present _ _ _ _ _ Hkey).
  io_cases; reflexivity.
Qed.

Lemma Creem_checkout_sent (w : World) (params : CreateCheckoutLinkParams) (key : string) :
  nonempty (env w !! "CREEM_API_KEY") = Some key ->
  sent_by (Creem.createCheckoutLink params) w
  = [ mkHttpRequest
        (api_url creem (is_literal "production" (env w !! "NODE_ENV")) +:+ "/checkouts")
        "POST" [ ("x-api-key", key); ("Content-Type", "application/json") ]
        (JsonBody (Creem.checkout_body params)) ].
Proof.
  intros Hkey.
  unfold sent_by, Creem.createCheckoutLink, Creem.creemFetch, Creem.getCreemApiKey,
    Creem.getCreemApiUrl.
  rewrite bind_bind. rewrite (bind_required_env_present _ _ _ _ _ Hkey).
  rewrite bind_bind, bind_bind, bind_getenv, bind_mret.
  destruct (is_literal "production" (env w !! "NODE_ENV")); io_cases; reflexivity.
Qed.

Lemma Dodo_checkout_sent (w : World) (params : CreateCheckoutLinkParams) (key : string) :
  nonempty (env w !! "DODO_PAYMENTS_API_KEY") = Some key ->
  sent_by (DodoPayments.createCheckoutLink params) w
  = [ post_json
        (api_url dodopayments (is_literal "production" (env w !! "NODE_ENV"))
         +:+ "/checkout-sessions")
        [bearer key] (DodoPayments.checkout_body params) ].
Proof.
  intros Hkey.
  unfold sent_by, DodoPayments.createCheckoutLink, DodoPayments.getDodoPaymentsApiKey,
    DodoPayments.getDodoPaymentsApiUrl.
  rewrite (bind_required_env_present _ _ _ _ _ Hkey).
  rewrite bind_bind, bind_getenv, bind_mret.
  destruct (is_literal "production" (env w !! "NODE_ENV")); io_cases; reflexivity.
Qed.

(** The one request of a configured checkout call, provider by provider. *)
Ltac checkout_request p Hconf :=
  unfold variables_configured in Hconf; simpl in Hconf; configured_keys;
  match p with
  | stripe => rewrite (Stripe_checkout_sent _ _ _ ltac:(eassumption))
  | lemonsqueezy =>
      rewrite (LemonSqueezy_checkout_sent _ _ _ _ ltac:(eassumption) ltac:(eassumption))
  | polar => rewrite (Polar_checkout_sent _ _ _ ltac:(eassumption))
  | creem => rewrite (Creem_checkout_sent _ _ _ ltac:(eassumption))
  | dodopayments => rewrite (Dodo_checkout_sent _ _ _ ltac:(eassumption))
  | tap => rewrite (tap_checkout_sent _ _ _ ltac:(eassumption))
  end.

(** How [String] writes a Number that is an integer: all the digits of
    an integer below [2^53] in magnitude; beyond, the digits that are
    enough to tell the double, then zeros, and from [10^21] on the
    exponent notation. *)
Lemma string_of_Z_exact (n : Z) : Z.abs n < 2 ^ 53 -> string_of_Z n = decimal n.
Proof.
  intros Hn. unfold string_of_Z. apply Z.ltb_lt in Hn. rewrite Hn. reflexivity.
Qed.

Example string_of_Z_examples :
  string_of_Z 3 = "3" /\
  string_of_Z (-7) = "-7" /\
  string_of_Z 1700000000000 = "1700000000000" /\
  string_of_Z (2 ^ 53 + 1) = "9007199254740992" /\
  string_of_Z (2 ^ 64) = "18446744073709552000" /\
  string_of_Z (10 ^ 21) = "1e+21" /\
  string_of_Z (- 2 ^ 70) = "-1.1805916207174113e+21" /\
  string_of_Z (10 ^ 23) = "1e+23".
Proof. split_all; vm_compute; reflexivity. Qed.

Lemma checkout_quantity_sent
    (p : PaymentProviderName) (w : World) (params : CreateCheckoutLinkParams) (n : Z) :
  writes_quantity p = true ->
  seats params = Some n ->
  variables_configured p w ->
  exists r, sent_by (createCheckoutLink_of p params) w = [r]
            /\ quantity_of p r = Some (quantity_as p n).
Proof.
  intros Hp Hseats Hconf.
  destruct p; try discriminate Hp; simpl createCheckoutLink_of.
  - checkout_request stripe Hconf. eexists. split; [reflexivity |].
    unfold quantity_of, Stripe.checkout_form. simpl. rewrite Hseats. reflexivity.
  - checkout_request lemonsqueezy Hconf. eexists. split; [reflexivity |].
    unfold quantity_of, LemonSqueezy.checkout_body. simpl. rewrite Hseats.
    destruct (redirectUrl params), (email params), (name params); reflexivity.
  - checkout_request creem Hconf. eexists. split; [reflexivity |].
    unfold quantity_of, Creem.checkout_body. simpl. rewrite Hseats.
    destruct (redirectUrl params), (email params); reflexivity.
  - checkout_request dodopayments Hconf. eexists. split; [reflexivity |].
    unfold quantity_of, DodoPayments.checkout_body. simpl. rewrite Hseats.
    repeat case_match; reflexivity.
  - checkout_request tap Hconf. eexists. split; [reflexivity |].
    unfold quantity_of, Tap.checkout_body, Tap.checkout_metadata, metadata_of.
    simpl. rewrite Hseats.
    destruct (nonempty (organizationId params)), (nonempty (userId params));
      reflexivity.
Qed.

(** X5. With seats given, the one request of [createCheckoutLink]
    carries them as the quantity, whatever the number: as a number for
    LemonSqueezy, Creem and DodoPayments, and as [String(seats)]
    writes it for Stripe and Tap, which is with all its digits for an
    integer below [2^53] in magnitude. *)
Theorem checkout_quantity_is_seats
    (p : PaymentProviderName) (w : World) (params : CreateCheckoutLinkParams) (n : Z) :
  writes_quantity p = true ->
  seats params = Some n ->
  variables_configured p w ->
  exists r, sent_by (createCheckoutLink_of p params) w = [r]
            /\ quantity_of p r = Some (quantity_as p n)
            /\ (p = stripe \/ p = tap -> Z.abs n < 2 ^ 53 ->
                quantity_of p r = Some (JStr (decimal n))).
Proof.
  intros Hp Hseats Hconf.
  destruct (checkout_quantity_sent p w params n Hp Hseats Hconf) as (r & Hsent & Hq).
  exists r. split; [exact Hsent |]. split; [exact Hq |].
  intros Hstring Hn. rewrite Hq, <- (string_of_Z_exact n Hn).
  destruct Hstring as [-> | ->]; reflexivity.
Qed.

Lemma checkout_quantity_is_seats_witness :
  (writes_quantity creem = true /\
   seats Sample.full_params = Some 3 /\
   variables_configured creem Sample.world) /\
  exists r, sent_by (createCheckoutLink_of creem Sample.full_params) Sample.world = [r]
            /\ quantity_of creem r = Some (JNum 3 0).
Proof.
  assert (Hconf : variables_configured creem Sample.world)
    by (repeat constructor; vm_compute; eexists; reflexivity).
  split; [exact (conj eq_refl (conj eq_refl Hconf)) |].
  destruct (checkout_quantity_is_seats creem Sample.world Sample.full_params 3
              eq_refl eq_refl Hconf) as (r & Hsent & Hq & _).
  exists r. split; [exact Hsent | exact Hq].
Defined.

(** X6. The organization and the user go into the request of
    [createCheckoutLink] when they are non-empty strings and are left
    out otherwise; Creem alone always writes both members, with [null]
    for one that is missing or empty. *)
Theorem checkout_metadata_members
    (p : PaymentProviderName) (w : World) (params : CreateCheckoutLinkParams) :
  keyed p = true ->
  variables_configured p w ->
  exists r, sent_by (createCheckoutLink_of p params) w = [r] /\
    (p <> creem ->
     metadata_member "organization_id" p r = JStr <$> nonempty (organizationId params) /\
     metadata_member "user_id" p r = JStr <$> nonempty (userId params)) /\
    (p = creem ->
     metadata_member "organization_id" p r
     = Some (default JNull (JStr <$> nonempty (organizationId params))) /\
     metadata_member "user_id" p r
     = Some (default JNull (JStr <$> nonempty (userId params)))).
Proof.
  intros Hp Hconf.
  destruct p; try discriminate Hp; simpl createCheckoutLink_of.
  - checkout_request stripe Hconf. eexists. split; [reflexivity |].
    split; [intros _ | discriminate].
    unfold metadata_member, Stripe.checkout_form. simpl.
    destruct (nonempty (customerId params)), (nonempty (email params)),
      (nonempty (organizationId params)), (nonempty (userId params));
      simpl; repeat case_match; split; reflexivity.
  - checkout_request lemonsqueezy Hconf. eexists. split; [reflexivity |].
    split; [intros _ | discriminate].
    unfold metadata_member, LemonSqueezy.checkout_body, metadata_of. simpl.
    destruct (redirectUrl params), (email params), (name params),
      (nonempty (organizationId params)), (nonempty (userId params));
      split; reflexivity.
  - checkout_request polar Hconf. eexists. split; [reflexivity |].
    split; [intros _ | discriminate].
    unfold metadata_member, Polar.checkout_body, metadata_of. simpl.
    destruct (nonempty (customerId params)),
      (nonempty (organizationId params)), (nonempty (userId params));
      split; reflexivity.
  - checkout_request creem Hconf. eexists. split; [reflexivity |].
    split; [intros H; contradiction | intros _].
    unfold metadata_member, Creem.checkout_body, Creem.or_null. simpl.
    destruct (redirectUrl params), (email params),
      (nonempty (organizationId params)), (nonempty (userId params));
      split; reflexivity.
  - checkout_request dodopayments Hconf. eexists. split; [reflexivity |].
    split; [intros _ | discriminate].
    unfold metadata_member, DodoPayments.checkout_body, metadata_of. simpl.
    destruct (nonempty (customerId params)), (trialPeriodDays params) as [d|];
      try destruct (d =? 0);
      destruct (nonempty (organizationId params)), (nonempty (userId params));
      split; reflexivity.
  - checkout_request tap Hconf. eexists. split; [reflexivity |].
    split; [intros _ | discriminate].
    unfold metadata_member, Tap.checkout_body, Tap.checkout_metadata, metadata_of.
    simpl.
    destruct (nonempty (organizationId params)), (nonempty (userId params));
      split; reflexivity.
Qed.

Lemma checkout_metadata_members_witness :
  (keyed creem = true /\ variables_configured creem Sample.world) /\
  exists r, sent_by (createCheckoutLink_of creem Sample.params) Sample.world = [r] /\
    metadata_member "organization_id" creem r = Some (JStr "org_1") /\
    metadata_member "user_id" creem r = Some JNull.
Proof.
  assert (Hconf : variables_configured creem Sample.world)
    by (repeat constructor; vm_compute; eexists; reflexivity).
  split; [exact (conj eq_refl Hconf) |].
  destruct (checkout_metadata_members creem Sample.world Sample.params eq_refl Hconf)
    as (r & Hr & _ & H).
  exists r. split; [exact Hr |]. exact (H eq_refl).
Defined.

(** X7. Stripe and DodoPayments take a customer or an email address,
    never both: with a non-empty [customerId] the request names the
    customer and no email address; without one it names no customer,
    and carries the email address when Stripe has one and always for
    DodoPayments, which writes the empty string for a missing one. *)
Theorem checkout_customer_or_email
    (p : PaymentProviderName) (w : World) (params : CreateCheckoutLinkParams) :
  p = stripe \/ p = dodopayments ->
  variables_configured p w ->
  exists r, sent_by (createCheckoutLink_of p params) w = [r] /\
    (forall c, nonempty (customerId params) = Some c ->
       customer_in p r = Some (JStr c) /\ email_in p r = None) /\
    (nonempty (customerId params) = None ->
       customer_in p r = None /\
       (p = stripe -> email_in p r = JStr <$> nonempty (email params)) /\
       (p = dodopayments ->
        email_in p r = Some (JStr (default "" (email params))))).
Proof.
  intros [-> | ->] Hconf; simpl createCheckoutLink_of.
  - checkout_request stripe Hconf. eexists. split; [reflexivity |].
    unfold customer_in, email_in, Stripe.checkout_form. simpl. split.
    + intros c ->. simpl. repeat case_match; split; reflexivity.
    + intros ->. destruct (nonempty (email params)); simpl;
        repeat case_match; split_all; (reflexivity || discriminate).
  - checkout_request dodopayments Hconf. eexists. split; [reflexivity |].
    unfold customer_in, email_in, DodoPayments.checkout_body. simpl. split.
    + intros c ->. simpl. repeat case_match; split; reflexivity.
    + intros ->. simpl. repeat case_match; split_all; (reflexivity || discriminate).
Qed.

Lemma checkout_customer_or_email_witness :
  ((stripe = stripe \/ stripe = dodopayments) /\
   variables_configured stripe Sample.world) /\
  exists r, sent_by (createCheckoutLink_of stripe Sample.full_params) Sample.world = [r] /\
    customer_in stripe r = Some (JStr "cus_1") /\ email_in stripe r = None.
Proof.
  assert (Hconf : variables_configured stripe Sample.world)
    by (repeat constructor; vm_compute; eexists; reflexivity).
  split; [exact (conj (or_introl eq_refl) Hconf) |].
  destruct (checkout_customer_or_email stripe Sample.world Sample.full_params
              (or_introl eq_refl) Hconf) as (r & Hr & H & _).
  exists r. split; [exact Hr |]. exact (H "cus_1" eq_refl).
Defined.

Lemma checkout_trial_sent
    (p : PaymentProviderName) (w : World) (params : CreateCheckoutLinkParams) :
  p = stripe \/ p = dodopayments ->
  variables_configured p w ->
  exists r, sent_by (createCheckoutLink_of p params) w = [r] /\
    (forall d, trialPeriodDays params = Some d -> d <> 0 ->
       (p = stripe -> type params = subscription ->
        trial_of p r = Some (trial_as p d)) /\
       (p = stripe -> type params = one_time -> trial_of p r = None) /\
       (p = dodopayments -> trial_of p r = Some (trial_as p d))) /\
    (trialPeriodDays params = None \/ trialPeriodDays params = Some 0 ->
     trial_of p r = None).
Proof.
  intros [-> | ->] Hconf; simpl createCheckoutLink_of.
  - checkout_request stripe Hconf. eexists. split; [reflexivity |].
    unfold trial_of, Stripe.checkout_form. simpl. split.
    + intros d -> Hd. apply Z.eqb_neq in Hd. rewrite Hd.
      split_all; try discriminate; intros _ ->;
        destruct (nonempty (customerId params)), (nonempty (email params)),
          (nonempty (organizationId params)), (nonempty (userId params));
        reflexivity.
    + intros [-> | ->]; destruct (type params);
        destruct (nonempty (customerId params)), (nonempty (email params)),
          (nonempty (organizationId params)), (nonempty (userId params));
        reflexivity.
  - checkout_request dodopayments Hconf. eexists. split; [reflexivity |].
    unfold trial_of, DodoPayments.checkout_body. simpl. split.
    + intros d -> Hd. apply Z.eqb_neq in Hd. rewrite Hd.
      split_all; try discriminate; intros _;
        destruct (nonempty (customerId params)); reflexivity.
    + intros [-> | ->]; destruct (nonempty (customerId params)); reflexivity.
Qed.

(** X8. Trial days that are given and not zero go into the request of
    Stripe for a subscription only, as [String(trialPeriodDays)] writes
    them, which is with all their digits below [2^53] in magnitude, and
    into the request of DodoPayments as a number for either type of
    payment; trial days that are missing or zero go into neither. *)
Theorem checkout_trial_days
    (p : PaymentProviderName) (w : World) (params : CreateCheckoutLinkParams) :
  p = stripe \/ p = dodopayments ->
  variables_configured p w ->
  exists r, sent_by (createCheckoutLink_of p params) w = [r] /\
    (forall d, trialPeriodDays params = Some d -> d <> 0 ->
       (p = stripe -> type params = subscription ->
        trial_of p r = Some (JStr (string_of_Z d)) /\
        (Z.abs d < 2 ^ 53 -> trial_of p r = Some (JStr (decimal d)))) /\
       (p = stripe -> type params = one_time -> trial_of p r = None) /\
       (p = dodopayments -> trial_of p r = Some (JNum d 0))) /\
    (trialPeriodDays params = None \/ trialPeriodDays params = Some 0 ->
     trial_of p r = None).
Proof.
  intros Hp Hconf.
  destruct (checkout_trial_sent p w params Hp Hconf) as (r & Hsent & Hgiven & Hnone).
  exists r. split; [exact Hsent |]. split; [| exact Hnone].
  intros d Hd Hnonzero. destruct (Hgiven d Hd Hnonzero) as (Hs & Ho & Hdodo).
  split; [| split; [exact Ho |]].
  - intros -> Htype. split; [exact (Hs eq_refl Htype) |].
    intros Hbound. rewrite (Hs eq_refl Htype), <- (string_of_Z_exact d Hbound).
    reflexivity.
  - intros ->. exact (Hdodo eq_refl).
Qed.

Lemma checkout_trial_days_witness :
  let one_time_trial :=
    mkCheckout one_time "prod_1" None None None None None None (Some 14) None in
  ((dodopayments = stripe \/ dodopayments = dodopayments) /\
   variables_configured dodopayments Sample.world) /\
  exists r, sent_by (createCheckoutLink_of dodopayments one_time_trial) Sample.world = [r] /\
    trial_of dodopayments r = Some (JNum 14 0).
Proof.
  intros one_time_trial.
  assert (Hconf : variables_configured dodopayments Sample.world)
    by (repeat constructor; vm_compute; eexists; reflexivity).
  split; [exact (conj (or_intror eq_refl) Hconf) |].
  destruct (checkout_trial_days dodopayments Sample.world one_time_trial
              (or_intror eq_refl) Hconf) as (r & Hr & H & _).
  exists r. split; [exact Hr |].
  apply (H 14 eq_refl); [discriminate | reflexivity].
Defined.

(** ** What a checkout call depends on *)

Lemma alter_same (f g : Field) (a : CreateCheckoutLinkParams) :
  f <> g -> same_at g (alter f a) a.
Proof. destruct f, g; intros H; try reflexivity; contradiction. Qed.

Ltac agree H f :=
  try (let E := fresh "E" in
       assert (E := H f ltac:(simpl; tauto)); simpl in E).

(** X9. [createCheckoutLink] of a provider is the same for two requests
    that agree in the fields listed for it: Stripe never reads the
    name, LemonSqueezy, Creem and Tap never read the customer or the
    trial days, Polar reads neither the type, the email address, the
    name, the trial days nor the seats, and so on; Console and Custom
    read none (Console writes its input to the log, which is not part
    of the outcome). Every field listed matters: changing it alone
    changes the request sent for some input. *)
Theorem checkout_reads_listed_fields (p : PaymentProviderName) :
  (forall a b, (forall f, In f (fields_read p) -> same_at f a b) ->
     forall w sent, createCheckoutLink_of p a w sent = createCheckoutLink_of p b w sent) /\
  (forall f, In f (fields_read p) ->
     exists a w, sent_by (createCheckoutLink_of p (alter f a)) w
                 <> sent_by (createCheckoutLink_of p a) w).
Proof.
  split.
  - intros a b H w sent.
    destruct p;
      agree H f_type; agree H f_productId; agree H f_email; agree H f_name;
      agree H f_redirectUrl; agree H f_customerId; agree H f_organizationId;
      agree H f_userId; agree H f_trialPeriodDays; agree H f_seats;
      clear H; destruct a, b; simpl in *; subst; reflexivity.
  - intros f Hf.
    destruct p; simpl in Hf; intuition (subst f);
      first [ exists Sample.full_params, Sample.world; intros H;
              vm_compute in H; discriminate H
            | exists Sample.guest_params, Sample.world; intros H;
              vm_compute in H; discriminate H ].
Qed.

Lemma checkout_reads_listed_fields_witness :
  createCheckoutLink_of polar (alter f_seats Sample.params) Sample.world []
  = createCheckoutLink_of polar Sample.params Sample.world [].
Proof.
  apply (proj1 (checkout_reads_listed_fields polar)).
  intros f Hf. apply alter_same. simpl in Hf.
  intuition (subst f; discriminate).
Defined.

(** ** Names *)

Lemma split_first_space_spec (s : string) :
  no_space (fst (split_first_space s)) = true /\
  if no_space s
  then split_first_space s = (s, "")
  else s = fst (split_first_space s) +:+ " " +:+ snd (split_first_space s).
Proof.
  induction s as [|c s [IH1 IH2]]; simpl; [split; reflexivity |].
  destruct (Ascii.eqb_spec c " "%char) as [-> | Hc]; simpl.
  - split; reflexivity.
  - destruct (split_first_space s) as [a b] eqn:E. simpl in *.
    apply Ascii.eqb_neq in Hc. rewrite Hc. simpl. split; [exact IH1 |].
    destruct (no_space s).
    + injection IH2 as -> ->. reflexivity.
    + rewrite IH2 at 1. reflexivity.
Qed.

(** X10. Splitting a name at its first space loses nothing: the first
    part has no space; a name without a space is its own first part and
    the rest is empty; any other name is the first part, a space and
    the rest. A name [a b] whose first word is [a] gives back [a] and
    [b]. *)
Theorem split_first_space_round_trip (s a b : string) :
  no_space (fst (split_first_space s)) = true /\
  (no_space s = true -> split_first_space s = (s, "")) /\
  (no_space s = false ->
   s = fst (split_first_space s) +:+ " " +:+ snd (split_first_space s)) /\
  (no_space a = true -> split_first_space (a +:+ " " +:+ b) = (a, b)).
Proof.
  destruct (split_first_space_spec s) as [H1 H2].
  split; [exact H1 |]. split; [| split].
  - intros E. rewrite E in H2. exact H2.
  - intros E. rewrite E in H2. exact H2.
  - clear. induction a as [|c a IH]; simpl; [reflexivity |].
    destruct (Ascii.eqb c " "%char); simpl; [discriminate |].
    intros Ha. rewrite (IH Ha). reflexivity.
Qed.

Lemma split_first_space_round_trip_witness :
  no_space "Ada" = true /\ split_first_space "Ada King Lovelace" = ("Ada", "King Lovelace").
Proof.
  split; [reflexivity |].
  exact (proj2 (proj2 (proj2
           (split_first_space_round_trip "" "Ada" "King Lovelace"))) eq_refl).
Defined.

Lemma customer_of_names (email name : option string) :
  Json.get_opt (Some (Tap.customer_of email name)) "first_name"
  = Some (JStr (default "" (fst <$> (split_first_space <$> name)))) /\
  Json.get_opt (Some (Tap.customer_of email name)) "last_name"
  = Some (JStr (default "" (snd <$> (split_first_space <$> name)))).
Proof. unfold Tap.customer_of. destruct email; split; reflexivity. Qed.

(** X11. The request of Tap's [createCheckoutLink] asks to save the
    card for a subscription and not for a one-time payment, and names
    the customer by the two parts of the name: empty strings without a
    name, and for a name with a space two parts that give the name back
    when put together with a space. *)
Theorem tap_checkout_customer_and_card
    (w : World) (params : CreateCheckoutLinkParams) (key : string) :
  nonempty (env w !! "TAP_SECRET_KEY") = Some key ->
  exists r first last,
    sent_by (Tap.createCheckoutLink params) w = [r] /\
    body_member "save_card" r
    = Some (JBool (if type params is subscription then true else false)) /\
    Json.get_opt (body_member "customer" r) "first_name" = Some (JStr first) /\
    Json.get_opt (body_member "customer" r) "last_name" = Some (JStr last) /\
    no_space first = true /\
    (name params = None -> first = "" /\ last = "") /\
    (forall s, name params = Some s ->
       if no_space s then first = s /\ last = ""
       else s = first +:+ " " +:+ last).
Proof.
  intros Hkey. rewrite (tap_checkout_sent _ _ _ Hkey).
  destruct (customer_of_names (email params) (name params)) as [Hfirst Hlast].
  eexists _, _, _. split; [reflexivity |].
  split; [reflexivity |]. split; [exact Hfirst |]. split; [exact Hlast |].
  destruct (name params) as [s|]; simpl.
  - destruct (split_first_space_spec s) as [H1 H2].
    split; [exact H1 |]. split; [discriminate |].
    intros s' [= <-]. destruct (no_space s).
    + rewrite H2. split; reflexivity.
    + exact H2.
  - split; [reflexivity |]. split; [split; reflexivity | discriminate].
Qed.

Lemma tap_checkout_customer_and_card_witness :
  nonempty (env Sample.world !! "TAP_SECRET_KEY") = Some "sk_tap" /\
  exists r, sent_by (Tap.createCheckoutLink Sample.params) Sample.world = [r] /\
    body_member "save_card" r = Some (JBool true) /\
    Json.get_opt (body_member "customer" r) "first_name" = Some (JStr "Ada") /\
    Json.get_opt (body_member "customer" r) "last_name" = Some (JStr "Lovelace").
Proof.
  assert (Hkey : nonempty (env Sample.world !! "TAP_SECRET_KEY") = Some "sk_tap")
    by (vm_compute; reflexivity).
  split; [exact Hkey |].
  destruct (tap_checkout_customer_and_card Sample.world Sample.params "sk_tap" Hkey)
    as (r & first & last & Hr & Hcard & Hfirst & Hlast & _).
  exists r. split; [exact Hr |]. split; [exact Hcard |].
  rewrite (tap_checkout_sent _ _ _ Hkey) in Hr. injection Hr as <-.
  split; reflexivity.
Defined.

Lemma is_literal_true (lit : string) (x : option string) :
  is_literal lit x = true <-> x = Some lit.
Proof.
  destruct x as [s|]; simpl; [| split; discriminate].
  destruct (String.eqb_spec s lit); split; congruence.
Qed.

(** X12. The one request of a configured [createCheckoutLink] goes to
    the checkout endpoint of the provider. Creem and DodoPayments have
    two bases: the production one when [NODE_ENV] is exactly
    [production], the test one for any other value and when the
    variable is not set. *)
Theorem checkout_endpoint
    (p : PaymentProviderName) (w : World) (params : CreateCheckoutLinkParams) :
  keyed p = true ->
  variables_configured p w ->
  exists r, sent_by (createCheckoutLink_of p params) w = [r] /\
    (env w !! "NODE_ENV" = Some "production" ->
     url r = api_url p true +:+ checkout_path p) /\
    (env w !! "NODE_ENV" <> Some "production" ->
     url r = api_url p false +:+ checkout_path p).
Proof.
  intros Hp Hconf.
  destruct (is_literal "production" (env w !! "NODE_ENV")) eqn:Hmode.
  - apply is_literal_true in Hmode as Hmode'.
    destruct p; try discriminate Hp; simpl createCheckoutLink_of.
    + checkout_request stripe Hconf. eexists. split_all; try reflexivity.
    + checkout_request lemonsqueezy Hconf. eexists. split_all; try reflexivity.
    + checkout_request polar Hconf. eexists. split_all; try reflexivity.
    + checkout_request creem Hconf. rewrite Hmode. eexists.
      split_all; [reflexivity | reflexivity | contradiction].
    + checkout_request dodopayments Hconf. rewrite Hmode. eexists.
      split_all; [reflexivity | reflexivity | contradiction].
    + checkout_request tap Hconf. eexists. split_all; try reflexivity.
  - assert (Hmode' : env w !! "NODE_ENV" <> Some "production")
      by (intros E; apply is_literal_true in E; congruence).
    destruct p; try discriminate Hp; simpl createCheckoutLink_of.
    + checkout_request stripe Hconf. eexists. split_all; try reflexivity.
    + checkout_request lemonsqueezy Hconf. eexists. split_all; try reflexivity.
    + checkout_request polar Hconf. eexists. split_all; try reflexivity.
    + checkout_request creem Hconf. rewrite Hmode. eexists.
      split_all; [reflexivity | contradiction | reflexivity].
    + checkout_request dodopayments Hconf. rewrite Hmode. eexists.
      split_all; [reflexivity | contradiction | reflexivity].
    + checkout_request tap Hconf. eexists. split_all; try reflexivity.
Qed.

Lemma checkout_endpoint_witness :
  (keyed creem = true /\ variables_configured creem Sample.world /\
   env Sample.world !! "NODE_ENV" <> Some "production") /\
  exists r, sent_by (createCheckoutLink_of creem Sample.params) Sample.world = [r] /\
    url r = "https://test-api.creem.io/v1/checkouts".
Proof.
  assert (Hconf : variables_configured creem Sample.world)
    by (repeat constructor; vm_compute; eexists; reflexivity).
  assert (Hmode : env Sample.world !! "NODE_ENV" <> Some "production")
    by (vm_compute; discriminate).
  split; [exact (conj eq_refl (conj Hconf Hmode)) |].
  destruct (checkout_endpoint creem Sample.world Sample.params eq_refl Hconf)
    as (r & Hr & _ & H).
  exists r. split; [exact Hr | exact (H Hmode)].
Defined.

(** ** What a webhook handler answers *)

Ltac answered :=
  run_handler; repeat (case_match; simpl; try discriminate);
  simplify_eq; eexists; (split; [reflexivity | simpl; tauto]).

(** X13. Every webhook handler but the one of Custom returns a
    response for every request, every environment and every verifier,
    and never throws; the status is one of a few: 200, 400 or 500 for
    Stripe, 204, 400 or 500 for LemonSqueezy, 202, 400 or 500 for Polar,
    204, 400, 405 or 500 for Creem, 204, 400, 401 or 500 for
    DodoPayments, 200, 400 or 401 and never 500 for Tap, 200 for
    Console. The handler of Custom throws for every request. *)
Theorem webhook_handler_answers
    (nv : string -> WebhookVerifier) (p : PaymentProviderName)
    (env : gmap string string) (req : Request) :
  (p <> custom ->
   exists response, webhookHandler_of nv p env req = Return response /\
                    In (status response) (possible_statuses p)) /\
  (p = custom -> exists e, webhookHandler_of nv p env req = Throw e).
Proof.
  split.
  - intros Hp. destruct p; try contradiction; simpl.
    + unfold Stripe.webhookHandler. answered.
    + unfold LemonSqueezy.webhookHandler, Buffer_from. answered.
    + unfold Polar.webhookHandler. answered.
    + unfold Creem.webhookHandler. answered.
    + unfold DodoPayments.webhookHandler. answered.
    + unfold Tap.webhookHandler, Tap.getTapVerifier. answered.
    + unfold Console.webhookHandler. answered.
  - intros ->. eexists. reflexivity.
Qed.

Lemma webhook_handler_answers_witness :
  tap <> custom /\
  exists response,
    webhookHandler_of Sample.newWebhookVerifier tap ∅ (mkRequest "POST" ∅ (Some "{}"))
    = Return response /\
    In (status response) [200; 400; 401].
Proof.
  assert (Hp : tap <> custom) by discriminate.
  split; [exact Hp |].
  exact (proj1 (webhook_handler_answers Sample.newWebhookVerifier tap ∅
                  (mkRequest "POST" ∅ (Some "{}"))) Hp).
Defined.

Lemma get_returns (x : option JSON) (k : string) (u : option JSON) :
  Json.get x k = Return u -> exists v, x = Some v /\ v <> JNull.
Proof.
  destruct x as [v|]; [| discriminate].
  destruct v; try discriminate; intros _; eexists; (split; [reflexivity | discriminate]).
Qed.






(** X15. Only the handler of Creem looks at the method of the request:
    it answers 405 to every request that is not a POST, before it looks
    at the signature or the secret; every other handler answers the
    same whatever the method. *)
Theorem webhook_method_matters_to_creem_only
    (nv : string -> WebhookVerifier) (p : PaymentProviderName)
    (env : gmap string string) (m m' : string) (hs : gmap string string)
    (b : option string) :
  (p <> creem ->
   webhookHandler_of nv p env (mkRequest m hs b)
   = webhookHandler_of nv p env (mkRequest m' hs b)) /\
  (p = creem -> m <> "POST" ->
   webhookHandler_of nv p env (mkRequest m hs b)
   = respond 405 (Some "Method not allowed")).
Proof.
  split.
  - intros Hp. destruct p; try contradiction; reflexivity.
  - intros -> Hm. simpl. unfold Creem.webhookHandler. simpl.
    rewrite (proj2 (strict_neq_true _ _) Hm). reflexivity.
Qed.

Lemma webhook_method_matters_to_creem_only_witness :
  (creem = creem /\ "GET" <> "POST") /\
  webhookHandler_of Sample.newWebhookVerifier creem Sample.webhook_env
    (mkRequest "GET" ∅ None)
  = respond 405 (Some "Method not allowed").
Proof.
  assert (Hm : "GET" <> "POST") by discriminate.
  split; [exact (conj eq_refl Hm) |].
  exact (proj2 (webhook_method_matters_to_creem_only Sample.newWebhookVerifier creem
                  Sample.webhook_env "GET" "GET" ∅ None) eq_refl Hm).
Defined.

Lemma Stripe_success (env : gmap string string) (req : Request) :
  status_of (Stripe.webhookHandler env req) = Some 200 ->
  is_Some (nonempty (env !! "STRIPE_WEBHOOK_SECRET")) /\
  body req <> None /\
  is_Some (nonempty (headers req !! "stripe-signature")) /\
  exists payload, Json.parse (text req) = Return payload /\ payload <> JNull.
Proof.
  unfold Stripe.webhookHandler.
  destruct (nonempty (env !! "STRIPE_WEBHOOK_SECRET")) as [secret|]; [| discriminate].
  destruct (body req) as [b|] eqn:Hbody; [| discriminate].
  destruct (nonempty (headers req !! "stripe-signature")) as [sig|]; [| discriminate].
  run_handler.
  destruct (Json.parse (text req)) as [payload|]; [| discriminate].
  destruct (Json.get (Some payload) "type") as [name|] eqn:Hname; [| discriminate].
  intros _. split_all; eauto; try discriminate.
  exists payload. split; [reflexivity |].
  apply get_returns in Hname as (v & [= <-] & Hv). exact Hv.
Qed.

Lemma Polar_success (env : gmap string string) (req : Request) :
  status_of (Polar.webhookHandler env req) = Some 202 ->
  is_Some (nonempty (env !! "POLAR_WEBHOOK_SECRET")) /\
  body req <> None /\
  exists payload, Json.parse (text req) = Return payload /\ payload <> JNull.
Proof.
  unfold Polar.webhookHandler.
  destruct (nonempty (env !! "POLAR_WEBHOOK_SECRET")) as [secret|]; [| discriminate].
  destruct (body req) as [b|] eqn:Hbody; [| discriminate].
  run_handler.
  destruct (Json.parse (text req)) as [payload|]; [| discriminate].
  destruct (Json.get (Some payload) "type") as [name|] eqn:Hname; [| discriminate].
  intros _. split_all; eauto; try discriminate.
  exists payload. split; [reflexivity |].
  apply get_returns in Hname as (v & [= <-] & Hv). exact Hv.
Qed.

(** X16. The handlers of Stripe and Polar answer their success status
    exactly when the secret is configured, the request has a body
    whose text, as [req.text()] reads it (the body less a byte order
    mark at its start), is JSON other than [null] and, for Stripe, the
    [stripe-signature] header is not empty. Neither the secret nor the
    value of a signature enters the answer. *)
Theorem webhook_unverified_acceptance
    (nv : string -> WebhookVerifier) (p : PaymentProviderName)
    (env : gmap string string) (req : Request) :
  p = stripe \/ p = polar ->
  status_of (webhookHandler_of nv p env req) = success_status p <->
  (exists secret, secret_configured p env secret) /\
  body req <> None /\
  (p = stripe -> is_Some (nonempty (headers req !! "stripe-signature"))) /\
  exists payload, Json.parse (text req) = Return payload /\ payload <> JNull.
Proof.
  intros [-> | ->]; simpl; split.
  - intros H. apply Stripe_success in H as ([secret Hsecret] & Hbody & Hsig & Hparse).
    split_all; eauto. exists secret. exact Hsecret.
  - intros ([secret Hsecret] & Hbody & Hsig & payload & Hparse & Hnull).
    destruct (Hsig eq_refl) as [sig Hsig'].
    rewrite (Stripe_accepts env req secret sig payload); auto.
  - intros H. apply Polar_success in H as ([secret Hsecret] & Hbody & Hparse).
    split_all; eauto; [exists secret; exact Hsecret | discriminate].
  - intros ([secret Hsecret] & Hbody & _ & payload & Hparse & Hnull).
    rewrite (Polar_accepts env req secret payload); auto.
Qed.

Lemma webhook_unverified_acceptance_witness :
  let req := mkRequest "POST" {[ "stripe-signature" := "anything" ]}
               (Some Sample.stripe_body) in
  (stripe = stripe \/ stripe = polar) /\
  status_of (webhookHandler_of Sample.newWebhookVerifier stripe Sample.webhook_env req)
  = success_status stripe.
Proof.
  intros req. split; [left; reflexivity |].
  apply (webhook_unverified_acceptance Sample.newWebhookVerifier stripe
           Sample.webhook_env req (or_introl eq_refl)).
  split; [exists "whsec_stripe"; vm_compute; reflexivity |].
  split; [discriminate |].
  split; [intros _; exists "anything"; vm_compute; reflexivity |].
  eexists. split; [vm_compute; reflexivity | discriminate].
Defined.

Lemma Tap_success (nv : string -> WebhookVerifier) (env : gmap string string)
    (req : Request) :
  status_of (Tap.webhookHandler nv env req) = Some 200 ->
  exists secret payload res,
    nonempty (env !! "TAP_WEBHOOK_SECRET") = Some secret /\
    body req <> None /\
    Json.parse (text req) = Return payload /\
    verify (nv secret) payload (headers req) = Return res /\
    isValid res = true /\
    tap_event_readable (data res).
Proof.
  unfold Tap.webhookHandler, Tap.getTapVerifier.
  destruct (body req) as [b|] eqn:Hbody; [| discriminate].
  destruct (nonempty (env !! "TAP_WEBHOOK_SECRET")) as [secret|]; [| discriminate].
  run_handler.
  destruct (Json.parse (text req)) as [payload|]; [| discriminate].
  destruct (verify (nv secret) payload (headers req)) as [res|] eqn:Hverify;
    [| discriminate].
  destruct (isValid res) eqn:Hvalid; [| discriminate]. simpl.
  destruct (Json.get (data res) "event") as [name|] eqn:Hname; [| discriminate].
  intros H. exists secret, payload, res.
  split_all; try reflexivity; try assumption; try discriminate.
  exists name. split; [exact Hname |]. intros Hcaptured. rewrite Hcaptured in H.
  destruct (Json.get (data res) "data") as [d|] eqn:Hdata; [| discriminate H].
  destruct d as [d|]; [| cbv in H; discriminate H].
  exists d. split; [reflexivity |]. intros ->. cbv in H. discriminate H.
Qed.

(** X17. The handler of Tap answers 200 exactly when the secret is
    configured, the text [req.text()] reads of the body (the body less
    a byte order mark at its start) is JSON, the verifier accepts the
    parsed payload and hands back an event the handler can read. A verified
    [CHARGE.CAPTURED] event without [data] is answered 400: the saved
    card is read before the answer is given. *)
Theorem tap_webhook_acceptance
    (nv : string -> WebhookVerifier) (env : gmap string string) (req : Request) :
  (status_of (Tap.webhookHandler nv env req) = Some 200 <->
   exists secret payload res,
     nonempty (env !! "TAP_WEBHOOK_SECRET") = Some secret /\
     body req <> None /\
     Json.parse (text req) = Return payload /\
     verify (nv secret) payload (headers req) = Return res /\
     isValid res = true /\
     tap_event_readable (data res)) /\
  (forall secret payload res name,
     nonempty (env !! "TAP_WEBHOOK_SECRET") = Some secret ->
     body req <> None ->
     Json.parse (text req) = Return payload ->
     verify (nv secret) payload (headers req) = Return res ->
     isValid res = true ->
     Json.get (data res) "event" = Return name ->
     Json.is_string "CHARGE.CAPTURED" name = true ->
     Json.get_opt (data res) "data" = None ->
     status_of (Tap.webhookHandler nv env req) = Some 400).
Proof.
  split; [split |].
  - apply Tap_success.
  - intros (secret & payload & res & Hsecret & Hbody & Hparse & Hverify & Hvalid & Hevent).
    rewrite (Tap_accepts nv env req secret payload res); auto.
  - intros secret payload res name Hsecret Hbody Hparse Hverify Hvalid Hname Hcaptured
      Hdata.
    unfold Tap.webhookHandler, Tap.getTapVerifier.
    destruct (body req); [| contradiction]. rewrite Hsecret.
    run_handler. rewrite Hparse, Hverify, Hvalid. simpl. rewrite Hname, Hcaptured.
    destruct (get_cases (data res) "data") as [[-> _] | ->]; [reflexivity |].
    rewrite Hdata. reflexivity.
Qed.

Lemma tap_webhook_acceptance_witness :
  let req := mkRequest "POST" Sample.tap_headers
               (Some (json_text "{'id':'chg_1','event':'CHARGE.CAPTURED'}")) in
  let payload := JObj [("id", JStr "chg_1"); ("event", JStr "CHARGE.CAPTURED")] in
  let res := mkVerification true None (Some payload) in
  (nonempty (Sample.webhook_env !! "TAP_WEBHOOK_SECRET") = Some "whsec_tap" /\
   body req <> None /\
   Json.parse (text req) = Return payload /\
   verify (Sample.newWebhookVerifier "whsec_tap") payload (headers req) = Return res /\
   isValid res = true /\
   Json.get (data res) "event" = Return (Some (JStr "CHARGE.CAPTURED")) /\
   Json.is_string "CHARGE.CAPTURED" (Some (JStr "CHARGE.CAPTURED")) = true /\
   Json.get_opt (data res) "data" = None) /\
  status_of (Tap.webhookHandler Sample.newWebhookVerifier Sample.webhook_env req)
  = Some 400.
Proof.
  intros req payload res.
  assert (Hsecret : nonempty (Sample.webhook_env !! "TAP_WEBHOOK_SECRET")
                    = Some "whsec_tap") by (vm_compute; reflexivity).
  assert (Hbody : body req <> None) by discriminate.
  assert (Hparse : Json.parse (text req) = Return payload) by (vm_compute; reflexivity).
  assert (Hverify : verify (Sample.newWebhookVerifier "whsec_tap") payload (headers req)
                    = Return res) by (vm_compute; reflexivity).
  split.
  - split_all; try assumption; try reflexivity.
  - exact (proj2 (tap_webhook_acceptance Sample.newWebhookVerifier Sample.webhook_env req)
             "whsec_tap" payload res (Some (JStr "CHARGE.CAPTURED"))
             Hsecret Hbody Hparse Hverify eq_refl eq_refl eq_refl eq_refl).
Defined.

(** ** Customer portal links *)

Lemma portal_run (p : PaymentProviderName) (w : World)
    (params : CreateCustomerPortalLinkParams) (var key : string) :
  has_portal_call p = true ->
  api_key_variable p = Some var ->
  nonempty (env w !! var) = Some key ->
  exists f r,
    createCustomerPortalLink_of p = Some f /\
    f params w []
    = (outcome (error_prefix p) (fun v => Json.get (Some v) (portal_member p))
         (network w [] r), [r]) /\
    httpMethod r = "POST" /\
    In (auth_header p key) (httpHeaders r) /\
    url r = api_url p (is_literal "production" (env w !! "NODE_ENV")) +:+ portal_path p /\
    portal_customer p r = Some (JStr (portal_customerId params)).
Proof.
  intros Hp Hvar Hkey.
  destruct p; try discriminate Hp; simpl in Hvar; injection Hvar as <-;
    simpl createCustomerPortalLink_of.
  - exists Stripe.createCustomerPortalLink.
    unfold Stripe.createCustomerPortalLink, Stripe.getStripeSecretKey.
    rewrite (bind_required_env_present _ _ _ _ _ Hkey).
    the_request. split; [reflexivity |]. split; [io_outcome |].
    split_all; try reflexivity. left. reflexivity.
  - exists Polar.createCustomerPortalLink.
    unfold Polar.createCustomerPortalLink, Polar.getPolarAccessToken.
    rewrite (bind_required_env_present _ _ _ _ _ Hkey).
    the_request. split; [reflexivity |]. split; [io_outcome |].
    split_all; try reflexivity. left. reflexivity.
  - exists Creem.createCustomerPortalLink.
    unfold Creem.createCustomerPortalLink, Creem.creemFetch, Creem.getCreemApiKey,
      Creem.getCreemApiUrl.
    rewrite bind_bind. rewrite (bind_required_env_present _ _ _ _ _ Hkey).
    rewrite bind_bind, bind_bind, bind_getenv, bind_mret.
    the_request. split; [reflexivity |]. split; [io_outcome |].
    split_all; try reflexivity. left. reflexivity.
Qed.

(** X18. With its key configured, [createCustomerPortalLink] of
    Stripe, Polar and Creem sends one POST request: it carries the key
    and the customer and goes to the portal endpoint of the provider,
    for Creem the production one exactly when [NODE_ENV] is
    [production]. *)
Theorem portal_sends_one_post
    (p : PaymentProviderName) (w : World) (params : CreateCustomerPortalLinkParams)
    (var key : string) :
  has_portal_call p = true ->
  api_key_variable p = Some var ->
  nonempty (env w !! var) = Some key ->
  exists f r,
    createCustomerPortalLink_of p = Some f /\
    sent_by (f params) w = [r] /\
    httpMethod r = "POST" /\
    In (auth_header p key) (httpHeaders r) /\
    url r = api_url p (is_literal "production" (env w !! "NODE_ENV")) +:+ portal_path p /\
    portal_customer p r = Some (JStr (portal_customerId params)).
Proof.
  intros Hp Hvar Hkey.
  destruct (portal_run p w params var key Hp Hvar Hkey)
    as (f & r & Hf & Hrun & Hrest).
  exists f, r. split; [exact Hf |]. split; [| exact Hrest].
  unfold sent_by. rewrite Hrun. reflexivity.
Qed.

Lemma portal_sends_one_post_witness :
  (has_portal_call creem = true /\
   api_key_variable creem = Some "CREEM_API_KEY" /\
   nonempty (env Sample.world !! "CREEM_API_KEY") = Some "creem_key") /\
  exists f r,
    createCustomerPortalLink_of creem = Some f /\
    sent_by (f Sample.portal) Sample.world = [r] /\
    httpMethod r = "POST" /\
    In ("x-api-key", "creem_key") (httpHeaders r) /\
    url r = "https://test-api.creem.io/v1/customers/billing" /\
    portal_customer creem r = Some (JStr "cus_1").
Proof.
  assert (Hkey : nonempty (env Sample.world !! "CREEM_API_KEY") = Some "creem_key")
    by (vm_compute; reflexivity).
  split; [exact (conj eq_refl (conj eq_refl Hkey)) |].
  exact (portal_sends_one_post creem Sample.world Sample.portal "CREEM_API_KEY"
           "creem_key" eq_refl eq_refl Hkey).
Defined.

(** X19. What [createCustomerPortalLink] of Stripe, Polar and Creem
    makes of the answer: the error of [fetch] is passed on; a
    non-success status throws the error that carries the parsed body,
    or the parse error when the body is not JSON; a success status with
    a body other than [null] returns the link member of the body, which
    is [undefined] when the body has none. *)
Theorem portal_result
    (p : PaymentProviderName) (w : World) (params : CreateCustomerPortalLinkParams)
    (var key : string) :
  has_portal_call p = true ->
  api_key_variable p = Some var ->
  nonempty (env w !! var) = Some key ->
  exists f r,
    createCustomerPortalLink_of p = Some f /\
    sent_by (f params) w = [r] /\
    (forall e, network w [] r = Throw e -> completion_of (f params) w = Throw e) /\
    (forall response, network w [] r = Return response ->
       (forall e, Json.parse (httpText response) = Throw e ->
          completion_of (f params) w = Throw e) /\
       (forall v, Json.parse (httpText response) = Return v ->
          (ok response = false ->
           completion_of (f params) w = Throw (ApiError (error_prefix p) v)) /\
          (ok response = true -> v <> JNull ->
           completion_of (f params) w
           = Return (Json.get_opt (Some v) (portal_member p))) /\
          (ok response = true -> v = JNull ->
           completion_of (f params) w = Throw TypeError))).
Proof.
  intros Hp Hvar Hkey.
  destruct (portal_run p w params var key Hp Hvar Hkey)
    as (f & r & Hf & Hrun & _).
  exists f, r. split; [exact Hf |].
  unfold sent_by, completion_of. rewrite Hrun. simpl.
  split; [reflexivity |]. unfold outcome. split.
  - intros e ->. reflexivity.
  - intros response ->. simpl. split.
    + intros e ->. destruct (ok response); reflexivity.
    + intros v ->. split_all.
      * intros ->. reflexivity.
      * intros -> Hv. simpl. apply get_non_null, Hv.
      * intros -> ->. reflexivity.
Qed.

Lemma portal_result_witness :
  (has_portal_call stripe = true /\
   api_key_variable stripe = Some "STRIPE_SECRET_KEY" /\
   nonempty (env Sample.world !! "STRIPE_SECRET_KEY") = Some "sk_test") /\
  exists f,
    createCustomerPortalLink_of stripe = Some f /\
    completion_of (f Sample.portal) Sample.world
    = Return (Some (JStr "https://pay.example/1")).
Proof.
  assert (Hkey : nonempty (env Sample.world !! "STRIPE_SECRET_KEY") = Some "sk_test")
    by (vm_compute; reflexivity).
  split; [exact (conj eq_refl (conj eq_refl Hkey)) |].
  destruct (portal_result stripe Sample.world Sample.portal "STRIPE_SECRET_KEY"
              "sk_test" eq_refl eq_refl Hkey) as (f & r & Hf & _ & _ & H).
  exists f. split; [exact Hf |].
  destruct (H (mkHttpResponse 200 (json_text "{'url':'https://pay.example/1'}"))
              eq_refl) as [_ H'].
  destruct (H' (JObj [("url", JStr "https://pay.example/1")])) as (_ & Hok & _).
  - vm_compute. reflexivity.
  - apply Hok; [reflexivity | discriminate].
Defined.

(** X20. Without its key, none of the six [createCustomerPortalLink]
    of [createCustomerPortalLink_of] sends a request: those of Stripe,
    Polar and Creem throw the error that names the missing variable;
    those of Tap and Custom throw whatever the environment; the one of
    Console returns its fixed link. *)
Theorem portal_without_key
    (p : PaymentProviderName) (w : World) (params : CreateCustomerPortalLinkParams)
    (f : CreateCustomerPortalLinkParams -> IO (option JSON)) :
  createCustomerPortalLink_of p = Some f ->
  (forall var, api_key_variable p = Some var -> has_portal_call p = true ->
               nonempty (env w !! var) = None) ->
  sent_by (f params) w = [] /\
  (forall var, api_key_variable p = Some var -> has_portal_call p = true ->
     completion_of (f params) w = Throw (Error ("Missing env variable " +:+ var))) /\
  (p = tap \/ p = custom -> exists m, completion_of (f params) w = Throw (Error m)) /\
  (p = console ->
   completion_of (f params) w
   = Return (Some (JStr "https://example.com/portal/mock-session-id"))).
Proof.
  intros Hf Habsent.
  destruct p; try discriminate Hf; injection Hf as <-;
    try specialize (Habsent _ eq_refl eq_refl); unfold sent_by, completion_of.
  - unfold Stripe.createCustomerPortalLink, Stripe.getStripeSecretKey.
    rewrite (bind_required_env_absent _ _ _ _ Habsent). simpl.
    split_all; try reflexivity; try discriminate.
    + intros var [= <-] _. reflexivity.
    + intros [? | ?]; discriminate.
  - unfold Polar.createCustomerPortalLink, Polar.getPolarAccessToken.
    rewrite (bind_required_env_absent _ _ _ _ Habsent). simpl.
    split_all; try reflexivity; try discriminate.
    + intros var [= <-] _. reflexivity.
    + intros [? | ?]; discriminate.
  - unfold Creem.createCustomerPortalLink, Creem.creemFetch, Creem.getCreemApiKey.
    rewrite bind_bind. rewrite (bind_required_env_absent _ _ _ _ Habsent). simpl.
    split_all; try reflexivity; try discriminate.
    + intros var [= <-] _. reflexivity.
    + intros [? | ?]; discriminate.
  - split_all; try reflexivity; try discriminate.
    intros _. eexists. reflexivity.
  - split_all; try reflexivity; try discriminate.
    intros [? | ?]; discriminate.
  - split_all; try reflexivity; try discriminate.
    intros _. eexists. reflexivity.
Qed.

Lemma portal_without_key_witness :
  let w := mkWorld ∅ (Sample.answer 200 "{}") 0 in
  (createCustomerPortalLink_of polar = Some Polar.createCustomerPortalLink /\
   nonempty (env w !! "POLAR_ACCESS_TOKEN") = None) /\
  sent_by (Polar.createCustomerPortalLink Sample.portal) w = [] /\
  completion_of (Polar.createCustomerPortalLink Sample.portal) w
  = Throw (Error "Missing env variable POLAR_ACCESS_TOKEN").
Proof.
  intros w. split; [split; reflexivity |].
  destruct (portal_without_key polar w Sample.portal Polar.createCustomerPortalLink
              eq_refl) as (Hsent & Hthrow & _).
  - intros var [= <-] _. reflexivity.
  - split; [exact Hsent | exact (Hthrow _ eq_refl eq_refl)].
Defined.

(** X21. A portal link depends on the customer alone, and for Stripe
    also on the address to return to, which goes into the request when
    it is not empty: the subscription is never read, and Polar and
    Creem do not read the return address either. *)
Theorem portal_reads_customer
    (p : PaymentProviderName) (a b : CreateCustomerPortalLinkParams)
    (f : CreateCustomerPortalLinkParams -> IO (option JSON)) :
  createCustomerPortalLink_of p = Some f ->
  portal_customerId a = portal_customerId b ->
  (p = stripe -> nonempty (portal_redirectUrl a) = nonempty (portal_redirectUrl b)) ->
  forall w sent, f a w sent = f b w sent.
Proof.
  intros Hf Hcustomer Hredirect w sent.
  destruct a as [sa ca ra], b as [sb cb rb]. simpl in *. subst cb.
  destruct p; try discriminate Hf; injection Hf as <-; try reflexivity.
  specialize (Hredirect eq_refl).
  unfold Stripe.createCustomerPortalLink, Stripe.portal_form. simpl.
  rewrite Hredirect. reflexivity.
Qed.

Lemma portal_reads_customer_witness :
  let a := mkPortal (Some "sub_1") "cus_1" (Some "") in
  let b := mkPortal None "cus_1" None in
  (createCustomerPortalLink_of stripe = Some Stripe.createCustomerPortalLink /\
   portal_customerId a = portal_customerId b /\
   nonempty (portal_redirectUrl a) = nonempty (portal_redirectUrl b)) /\
  Stripe.createCustomerPortalLink a Sample.world []
  = Stripe.createCustomerPortalLink b Sample.world [].
Proof.
  intros a b. split; [split_all; reflexivity |].
  exact (portal_reads_customer stripe a b Stripe.createCustomerPortalLink
           eq_refl eq_refl (fun _ => eq_refl) Sample.world []).
Defined.

(** ** Charging a saved card *)

(** How [chargeCard] reads the answer to the charge request. *)
Lemma chargeCard_run (w : World) (params : Tap.ChargeCardParams) (key : string)
    (tokenResponse : HttpResponse) (token : JSON) :
  nonempty (env w !! "TAP_SECRET_KEY") = Some key ->
  network w [] (Tap.token_request key params) = Return tokenResponse ->
  ok tokenResponse = true ->
  Json.parse (httpText tokenResponse) = Return token ->
  token <> JNull ->
  let r1 := Tap.token_request key params in
  let r2 := Tap.charge_request key (Json.get_opt (Some token) "id") params in
  Tap.chargeCard params w []
  = (outcome "Tap Charge API error: "
       (fun v => id ← Json.get (Some v) "id";
                 st ← Json.get (Some v) "status";
                 Return (Tap.mkChargeResult id st))
       (network w [r1] r2), [r1; r2]).
Proof.
  intros Hkey Hnet Hok Hparse Htoken r1 r2. subst r1 r2.
  unfold Tap.chargeCard, Tap.getTapSecretKey.
  rewrite (bind_required_env_present _ _ _ _ _ Hkey).
  rewrite bind_fetch, Hnet, bind_check_ok, Hok, bind_json, Hparse, bind_lift.
  rewrite (get_non_null token "id" Htoken). simpl app.
  io_outcome.
Qed.

(** X22. When the token endpoint answers a success status with a body
    other than [null], [chargeCard] sends two requests, both with the
    key: the first names the card and the customer, the second is
    merchant-initiated, has the [id] of the token as its source, names
    the customer and the payment agreement, and carries the amount, the
    currency and the description, [Recurring payment] when none is
    given. A token without an [id] gives a charge request whose source
    has no [id]. *)
Theorem chargeCard_requests
    (w : World) (params : Tap.ChargeCardParams) (key : string)
    (tokenResponse : HttpResponse) (token : JSON) :
  nonempty (env w !! "TAP_SECRET_KEY") = Some key ->
  network w [] (Tap.token_request key params) = Return tokenResponse ->
  ok tokenResponse = true ->
  Json.parse (httpText tokenResponse) = Return token ->
  token <> JNull ->
  exists r1 r2,
    sent_by (Tap.chargeCard params) w = [r1; r2] /\
    (is_token_call r1 /\ In (bearer key) (httpHeaders r1) /\
     Json.get_opt (body_member "saved_card" r1) "card_id"
     = Some (JStr (Tap.charge_cardId params)) /\
     Json.get_opt (body_member "saved_card" r1) "customer_id"
     = Some (JStr (Tap.charge_customerId params))) /\
    (is_charge_call r2 /\ In (bearer key) (httpHeaders r2) /\
     body_member "customer_initiated" r2 = Some (JBool false) /\
     Json.get_opt (body_member "source" r2) "id" = Json.get_opt (Some token) "id" /\
     Json.get_opt (body_member "customer" r2) "id"
     = Some (JStr (Tap.charge_customerId params)) /\
     Json.get_opt (body_member "payment_agreement" r2) "id"
     = Some (JStr (Tap.charge_paymentAgreementId params)) /\
     body_member "amount" r2
     = Some (JNum (Tap.amount_mantissa params) (Tap.amount_exponent params)) /\
     body_member "currency" r2 = Some (JStr (Tap.currency params)) /\
     body_member "description" r2
     = Some (JStr (default "Recurring payment" (Tap.description params)))).
Proof.
  intros Hkey Hnet Hok Hparse Htoken.
  eexists _, _. unfold sent_by.
  rewrite (chargeCard_run w params key tokenResponse token Hkey Hnet Hok Hparse Htoken).
  simpl snd. split; [reflexivity |].
  split; [split_all; try reflexivity; left; reflexivity |].
  unfold Tap.charge_request, Tap.charge_body, body_member. simpl.
  destruct (Json.get_opt (Some token) "id"), (Tap.metadata params);
    split_all; try reflexivity; left; reflexivity.
Qed.

Lemma chargeCard_requests_witness :
  let tokenResponse := mkHttpResponse 200 (json_text "{'id':'tok_1'}") in
  let token := JObj [("id", JStr "tok_1")] in
  (nonempty (env Sample.card_declined !! "TAP_SECRET_KEY") = Some "sk_tap" /\
   network Sample.card_declined [] (Tap.token_request "sk_tap" Sample.charge)
   = Return tokenResponse /\
   ok tokenResponse = true /\
   Json.parse (httpText tokenResponse) = Return token /\
   token <> JNull) /\
  exists r1 r2,
    sent_by (Tap.chargeCard Sample.charge) Sample.card_declined = [r1; r2] /\
    is_token_call r1 /\ is_charge_call r2 /\
    Json.get_opt (body_member "source" r2) "id" = Some (JStr "tok_1").
Proof.
  intros tokenResponse token.
  assert (Hkey : nonempty (env Sample.card_declined !! "TAP_SECRET_KEY") = Some "sk_tap")
    by (vm_compute; reflexivity).
  assert (Hparse : Json.parse (httpText tokenResponse) = Return token)
    by (vm_compute; reflexivity).
  assert (Htoken : token <> JNull) by discriminate.
  split; [exact (conj Hkey (conj eq_refl (conj eq_refl (conj Hparse Htoken)))) |].
  destruct (chargeCard_requests Sample.card_declined Sample.charge "sk_tap"
              tokenResponse token Hkey eq_refl eq_refl Hparse Htoken)
    as (r1 & r2 & Hsent & (H1 & _) & (H2 & _ & _ & Hsource & _)).
  exists r1, r2. split; [exact Hsent |]. split; [exact H1 |]. split; [exact H2 |].
  exact Hsource.
Defined.

(** X23. After the token, what [chargeCard] makes of the answer to the
    charge request: the error of [fetch] is passed on; a non-success
    status throws the error that carries the parsed body; a success
    status returns the [id] and the [status] of the body as they are,
    whatever the status says, so a declined charge is returned and not
    thrown. In each case both requests have been sent. *)
Theorem chargeCard_result
    (w : World) (params : Tap.ChargeCardParams) (key : string)
    (tokenResponse : HttpResponse) (token : JSON) :
  nonempty (env w !! "TAP_SECRET_KEY") = Some key ->
  network w [] (Tap.token_request key params) = Return tokenResponse ->
  ok tokenResponse = true ->
  Json.parse (httpText tokenResponse) = Return token ->
  token <> JNull ->
  let r1 := Tap.token_request key params in
  let r2 := Tap.charge_request key (Json.get_opt (Some token) "id") params in
  let result := completion_of (Tap.chargeCard params) w in
  sent_by (Tap.chargeCard params) w = [r1; r2] /\
  (forall e, network w [r1] r2 = Throw e -> result = Throw e) /\
  (forall response v,
     network w [r1] r2 = Return response ->
     Json.parse (httpText response) = Return v ->
     (ok response = false ->
      result = Throw (ApiError "Tap Charge API error: " v)) /\
     (ok response = true -> v <> JNull ->
      result = Return (Tap.mkChargeResult (Json.get_opt (Some v) "id")
                         (Json.get_opt (Some v) "status")))).
Proof.
  intros Hkey Hnet Hok Hparse Htoken r1 r2 result. subst result.
  unfold sent_by, completion_of.
  rewrite (chargeCard_run w params key tokenResponse token Hkey Hnet Hok Hparse Htoken).
  fold r1 r2. simpl. split; [reflexivity |]. unfold outcome. split.
  - intros e ->. reflexivity.
  - intros response v -> Hv. simpl. rewrite Hv. split.
    + intros ->. reflexivity.
    + intros -> Hnull. simpl. rewrite !(get_non_null v _ Hnull). reflexivity.
Qed.

Lemma chargeCard_result_witness :
  let tokenResponse := mkHttpResponse 200 (json_text "{'id':'tok_1'}") in
  let token := JObj [("id", JStr "tok_1")] in
  (nonempty (env Sample.card_declined !! "TAP_SECRET_KEY") = Some "sk_tap" /\
   network Sample.card_declined [] (Tap.token_request "sk_tap" Sample.charge)
   = Return tokenResponse /\
   ok tokenResponse = true /\
   Json.parse (httpText tokenResponse) = Return token /\
   token <> JNull) /\
  completion_of (Tap.chargeCard Sample.charge) Sample.card_declined
  = Return (Tap.mkChargeResult (Some (JStr "chg_2")) (Some (JStr "DECLINED"))).
Proof.
  intros tokenResponse token.
  assert (Hkey : nonempty (env Sample.card_declined !! "TAP_SECRET_KEY") = Some "sk_tap")
    by (vm_compute; reflexivity).
  assert (Hparse : Json.parse (httpText tokenResponse) = Return token)
    by (vm_compute; reflexivity).
  assert (Htoken : token <> JNull) by discriminate.
  split; [exact (conj Hkey (conj eq_refl (conj eq_refl (conj Hparse Htoken)))) |].
  destruct (chargeCard_result Sample.card_declined Sample.charge "sk_tap"
              tokenResponse token Hkey eq_refl eq_refl Hparse Htoken)
    as (_ & _ & H).
  destruct (H (mkHttpResponse 200 (json_text "{'id':'chg_2','status':'DECLINED'}"))
              (JObj [("id", JStr "chg_2"); ("status", JStr "DECLINED")]) eq_refl)
    as [_ Hok].
  - vm_compute. reflexivity.
  - apply Hok; [reflexivity | discriminate].
Defined.

(** X24. [chargeCard] stops before the charge request when the key is
    missing, and then it sends nothing, and when the token endpoint
    answers a success status with the body [null] or with a body that
    is not JSON, and then it has sent the token request alone. *)
Theorem chargeCard_stops_early (w : World) (params : Tap.ChargeCardParams) :
  (nonempty (env w !! "TAP_SECRET_KEY") = None ->
   Tap.chargeCard params w []
   = (Throw (Error "Missing env variable TAP_SECRET_KEY"), [])) /\
  (forall key tokenResponse,
     nonempty (env w !! "TAP_SECRET_KEY") = Some key ->
     network w [] (Tap.token_request key params) = Return tokenResponse ->
     ok tokenResponse = true ->
     (Json.parse (httpText tokenResponse) = Return JNull ->
      Tap.chargeCard params w [] = (Throw TypeError, [Tap.token_request key params])) /\
     (forall e, Json.parse (httpText tokenResponse) = Throw e ->
      Tap.chargeCard params w [] = (Throw e, [Tap.token_request key params]))).
Proof.
  unfold Tap.chargeCard, Tap.getTapSecretKey. split.
  - intros Hkey. rewrite (bind_required_env_absent _ _ _ _ Hkey). reflexivity.
  - intros key tokenResponse Hkey Hnet Hok.
    rewrite (bind_required_env_present _ _ _ _ _ Hkey).
    rewrite bind_fetch, Hnet, bind_check_ok, Hok, bind_json.
    split.
    + intros ->. rewrite bind_lift. reflexivity.
    + intros e ->. reflexivity.
Qed.

Lemma chargeCard_stops_early_witness :
  let w := mkWorld Sample.checkout_env (Sample.answer 200 "null") 0 in
  (nonempty (env w !! "TAP_SECRET_KEY") = Some "sk_tap" /\
   network w [] (Tap.token_request "sk_tap" Sample.charge)
   = Return (mkHttpResponse 200 "null") /\
   ok (mkHttpResponse 200 "null") = true /\
   Json.parse (httpText (mkHttpResponse 200 "null")) = Return JNull) /\
  Tap.chargeCard Sample.charge w []
  = (Throw TypeError, [Tap.token_request "sk_tap" Sample.charge]).
Proof.
  intros w.
  assert (Hkey : nonempty (env w !! "TAP_SECRET_KEY") = Some "sk_tap")
    by (vm_compute; reflexivity).
  assert (Hparse : Json.parse (httpText (mkHttpResponse 200 "null")) = Return JNull)
    by (vm_compute; reflexivity).
  split; [exact (conj Hkey (conj eq_refl (conj eq_refl Hparse))) |].
  exact (proj1 (proj2 (chargeCard_stops_early w Sample.charge) "sk_tap"
                  (mkHttpResponse 200 "null") Hkey eq_refl eq_refl) Hparse).
Defined.

(** ** Creating a charge *)

Lemma createCharge_run (w : World) (params : Tap.CreateChargeParams) (key : string) :
  nonempty (env w !! "TAP_SECRET_KEY") = Some key ->
  let r := post_json (Tap.TAP_API_URL +:+ "/charges") [bearer key]
             (Tap.createCharge_body params) in
  Tap.createCharge params w []
  = (outcome "Tap Charge API error: "
       (fun v => id ← Json.get (Some v) "id";
                 transaction ← Json.get (Some v) "transaction";
                 Return (Tap.mkCreateChargeResult id
                           (default JNull (Json.get_opt transaction "url"))))
       (network w [] r), [r]).
Proof.
  intros Hkey r. subst r. unfold Tap.createCharge, Tap.getTapSecretKey.
  rewrite (bind_required_env_present _ _ _ _ _ Hkey).
  io_outcome.
Qed.

(** X25. With the key, [createCharge] sends one POST request with the
    key to the charges endpoint: it asks to save the card only when
    [saveCard] is given and true, carries the amount and the currency,
    and has a description exactly when one is given. Without the key
    it sends nothing and throws the error that names the variable. *)
Theorem createCharge_request (w : World) (params : Tap.CreateChargeParams) :
  (forall key, nonempty (env w !! "TAP_SECRET_KEY") = Some key ->
     exists r,
       sent_by (Tap.createCharge params) w = [r] /\
       is_charge_call r /\ httpMethod r = "POST" /\
       In (bearer key) (httpHeaders r) /\
       body_member "save_card" r
       = Some (JBool (bool_decide (Tap.new_saveCard params = Some true))) /\
       body_member "amount" r
       = Some (JNum (Tap.new_amount_mantissa params) (Tap.new_amount_exponent params)) /\
       body_member "currency" r = Some (JStr (Tap.new_currency params)) /\
       body_member "description" r = JStr <$> Tap.new_description params) /\
  (nonempty (env w !! "TAP_SECRET_KEY") = None ->
   Tap.createCharge params w []
   = (Throw (Error "Missing env variable TAP_SECRET_KEY"), [])).
Proof.
  split.
  - intros key Hkey. eexists. unfold sent_by.
    rewrite (createCharge_run w params key Hkey). simpl snd.
    split; [reflexivity |]. split; [reflexivity |]. split; [reflexivity |].
    split; [left; reflexivity |].
    unfold body_member, Tap.createCharge_body. simpl.
    destruct (Tap.new_saveCard params) as [[]|], (Tap.new_description params),
      (Tap.new_metadata params); split_all; reflexivity.
  - intros Hkey. unfold Tap.createCharge, Tap.getTapSecretKey.
    rewrite (bind_required_env_absent _ _ _ _ Hkey). reflexivity.
Qed.

Lemma createCharge_request_witness :
  nonempty (env Sample.world !! "TAP_SECRET_KEY") = Some "sk_tap" /\
  exists r,
    sent_by (Tap.createCharge Sample.new_charge) Sample.world = [r] /\
    is_charge_call r /\
    body_member "save_card" r = Some (JBool false) /\
    body_member "amount" r = Some (JNum 4999 (-2)) /\
    body_member "description" r = None.
Proof.
  assert (Hkey : nonempty (env Sample.world !! "TAP_SECRET_KEY") = Some "sk_tap")
    by (vm_compute; reflexivity).
  split; [exact Hkey |].
  destruct (proj1 (createCharge_request Sample.world Sample.new_charge) "sk_tap" Hkey)
    as (r & Hsent & Hcall & _ & _ & Hsave & Hamount & _ & Hdescription).
  exists r. split; [exact Hsent |]. split; [exact Hcall |].
  split; [exact Hsave |]. split; [exact Hamount | exact Hdescription].
Defined.

(** X26. What [createCharge] makes of the answer: a non-success status
    throws the error that carries the parsed body; a success status
    with a body other than [null] returns the [id] of the body and the
    address [transaction.url], or [null] in its place when the body has
    no transaction or the transaction no address. *)
Theorem createCharge_result
    (w : World) (params : Tap.CreateChargeParams) (key : string)
    (response : HttpResponse) (v : JSON) :
  nonempty (env w !! "TAP_SECRET_KEY") = Some key ->
  network w [] (post_json (Tap.TAP_API_URL +:+ "/charges") [bearer key]
                  (Tap.createCharge_body params)) = Return response ->
  Json.parse (httpText response) = Return v ->
  (ok response = false ->
   completion_of (Tap.createCharge params) w
   = Throw (ApiError "Tap Charge API error: " v)) /\
  (ok response = true -> v <> JNull ->
   completion_of (Tap.createCharge params) w
   = Return (Tap.mkCreateChargeResult (Json.get_opt (Some v) "id")
               (default JNull
                  (Json.get_opt (Json.get_opt (Some v) "transaction") "url")))).
Proof.
  intros Hkey Hnet Hparse. unfold completion_of.
  rewrite (createCharge_run w params key Hkey). simpl fst.
  rewrite Hnet. unfold outcome. simpl. rewrite Hparse. split.
  - intros ->. reflexivity.
  - intros -> Hv. simpl. rewrite !(get_non_null v _ Hv). reflexivity.
Qed.

Lemma createCharge_result_witness :
  let response := mkHttpResponse 200 (json_text "{'url':'https://pay.example/1'}") in
  let v := JObj [("url", JStr "https://pay.example/1")] in
  (nonempty (env Sample.world !! "TAP_SECRET_KEY") = Some "sk_tap" /\
   network Sample.world []
     (post_json (Tap.TAP_API_URL +:+ "/charges") [bearer "sk_tap"]
        (Tap.createCharge_body Sample.new_charge)) = Return response /\
   Json.parse (httpText response) = Return v /\
   ok response = true /\ v <> JNull) /\
  completion_of (Tap.createCharge Sample.new_charge) Sample.world
  = Return (Tap.mkCreateChargeResult None JNull).
Proof.
  intros response v.
  assert (Hkey : nonempty (env Sample.world !! "TAP_SECRET_KEY") = Some "sk_tap")
    by (vm_compute; reflexivity).
  assert (Hparse : Json.parse (httpText response) = Return v)
    by (vm_compute; reflexivity).
  assert (Hv : v <> JNull) by discriminate.
  split; [exact (conj Hkey (conj eq_refl (conj Hparse (conj eq_refl Hv)))) |].
  exact (proj2 (createCharge_result Sample.world Sample.new_charge "sk_tap"
                  response v Hkey eq_refl Hparse) eq_refl Hv).
Defined.

(** ** The variant of a LemonSqueezy checkout *)

Lemma digits_value_acc (d : Decimal.uint) (acc : positive) :
  digits_value (Z.pos acc) (bytes_of_string (NilEmpty.string_of_uint d))
  = Z.pos (Pos.of_uint_acc d acc).
Proof.
  revert acc.
  induction d; intros acc; [reflexivity | ..];
    cbn [NilEmpty.string_of_uint bytes_of_string digits_value Pos.of_uint_acc];
    change (Json.is_digit (byte_of_ascii _)) with true; cbv iota;
    rewrite <- IHd; f_equal;
    match goal with
    | |- context [byte_of_ascii ?c] =>
        let v := eval vm_compute in (byte_of_ascii c) in
        change (byte_of_ascii c) with v
    end; lia.
Qed.

Lemma digits_value_uint (d : Decimal.uint) :
  digits_value 0 (bytes_of_string (NilEmpty.string_of_uint d))
  = Z.of_N (Pos.of_uint d).
Proof.
  induction d; [reflexivity | ..];
    cbn [NilEmpty.string_of_uint bytes_of_string digits_value Pos.of_uint];
    change (Json.is_digit (byte_of_ascii _)) with true; cbv iota;
    [exact IHd | ..]; cbn [Z.of_N]; rewrite <- digits_value_acc; reflexivity.
Qed.

(** A character of ASCII that is no white space ends the white space. *)
Lemma skip_space_ascii (a : Z) (cs : list Z) :
  32 < a < 128 -> skip_space (a :: cs) = a :: cs.
Proof.
  intros Ha. unfold skip_space; fold skip_space. unfold white_space_3.
  replace (a =? 32) with false by lia.
  replace (a <=? 13) with false by lia.
  replace (a =? 194) with false by lia.
  replace (a =? 225) with false by lia.
  replace (a =? 226) with false by lia.
  replace (a =? 227) with false by lia.
  replace (a =? 239) with false by lia.
  rewrite andb_false_r. simpl.
  destruct cs as [|b [|c cs]]; reflexivity.
Qed.

Ltac first_byte :=
  cbn [NilEmpty.string_of_uint bytes_of_string];
  repeat match goal with
         | |- context [byte_of_ascii ?c] =>
             let v := eval vm_compute in (byte_of_ascii c) in
             change (byte_of_ascii c) with v
         end.

Lemma parseInt_uint (d : Decimal.uint) :
  d <> Decimal.Nil ->
  parseInt (NilEmpty.string_of_uint d) = Number_of_Z (Z.of_N (Pos.of_uint d)).
Proof.
  intros Hd. rewrite <- digits_value_uint, <- (Z.mul_1_l (digits_value _ _)).
  unfold parseInt.
  destruct d; [contradiction | ..]; first_byte;
    rewrite skip_space_ascii by lia; reflexivity.
Qed.

Lemma parseInt_minus_uint (d : Decimal.uint) :
  d <> Decimal.Nil ->
  parseInt (String "-" (NilEmpty.string_of_uint d))
  = Number_of_Z (-1 * Z.of_N (Pos.of_uint d)).
Proof.
  intros Hd. rewrite <- digits_value_uint. unfold parseInt.
  first_byte. rewrite skip_space_ascii by lia.
  destruct d; [contradiction | ..]; first_byte; reflexivity.
Qed.

Lemma Number_of_Z_exact (n : Z) : Z.abs n < 2 ^ 53 -> Number_of_Z n = Finite n.
Proof.
  intros Hn. unfold Number_of_Z, to_double, is_infinite.
  apply Z.ltb_lt in Hn as Hn'. rewrite Hn'.
  assert (H : 2 ^ 53 < 2 ^ 1024) by (apply Z.pow_lt_mono_r; lia).
  replace (2 ^ 1024 <=? Z.abs n) with false by lia. reflexivity.
Qed.

(** [parseInt] reads back the decimal writing of an integer that is a
    double. *)
Lemma parseInt_string_of_Z (n : Z) :
  Z.abs n < 2 ^ 53 -> parseInt (string_of_Z n) = Finite n.
Proof.
  intros Hn. unfold string_of_Z, decimal.
  apply Z.ltb_lt in Hn as Hn'. rewrite Hn'.
  rewrite <- (Number_of_Z_exact n Hn).
  destruct n as [|p|p]; simpl Z.to_int; [reflexivity | ..];
    unfold NilZero.string_of_int, NilZero.string_of_uint;
    pose proof (DecimalPos.Unsigned.to_uint_nonnil p) as Hnil;
    pose proof (DecimalPos.Unsigned.of_to p) as Hof;
    destruct (Pos.to_uint p) eqn:E; try contradiction;
    rewrite ?parseInt_uint, ?parseInt_minus_uint by discriminate;
    rewrite Hof; reflexivity.
Qed.

(** [parseInt] rounds to a double, skips the white space of Unicode,
    stops at the first character that is no digit, and gives up
    without a digit. *)
Example parseInt_examples :
  parseInt "9007199254740993" = Finite 9007199254740992 /\
  parseInt "  12abc" = Finite 12 /\
  parseInt (String (ascii_of_nat 194) (String (ascii_of_nat 160) "+7")) = Finite 7 /\
  parseInt "-0" = Finite 0 /\
  parseInt "variant_1" = NaN /\
  parseInt "" = NaN.
Proof. split_all; vm_compute; reflexivity. Qed.

(** X27. LemonSqueezy's [createCheckoutLink] sends the product as the
    Number [parseInt] reads of it where it names the variant of the
    checkout, in the quantities and in the enabled variants alike: for
    a product that is the decimal writing of an integer below [2^53] in
    magnitude, that integer; for a product [parseInt] cannot read,
    [null]. *)
Theorem lemonsqueezy_variant_is_a_number
    (w : World) (params : CreateCheckoutLinkParams) (key store : string) :
  nonempty (env w !! "LEMONSQUEEZY_API_KEY") = Some key ->
  nonempty (env w !! "LEMONSQUEEZY_STORE_ID") = Some store ->
  exists r,
    sent_by (LemonSqueezy.createCheckoutLink params) w = [r] /\
    variant_of r = enabled_variant_of r /\
    variant_of r = Some (json_of_number (parseInt (productId params))) /\
    (forall n, Z.abs n < 2 ^ 53 -> productId params = string_of_Z n ->
               variant_of r = Some (JNum n 0)) /\
    (parseInt (productId params) = NaN -> variant_of r = Some JNull).
Proof.
  intros Hkey Hstore.
  rewrite (LemonSqueezy_checkout_sent w params key store Hkey Hstore).
  eexists. split; [reflexivity |].
  assert (Hvariant :
    variant_of (mkHttpRequest (LemonSqueezy.LEMONSQUEEZY_API_URL +:+ "/checkouts") "POST"
                  [ bearer key; ("Content-Type", "application/vnd.api+json");
                    ("Accept", "application/vnd.api+json") ]
                  (JsonBody (LemonSqueezy.checkout_body store params)))
    = Some (json_of_number (parseInt (productId params)))).
  { unfold variant_of, LemonSqueezy.checkout_body. simpl.
    destruct (redirectUrl params), (email params), (name params); reflexivity. }
  split; [| split; [exact Hvariant | split]].
  - rewrite Hvariant. unfold enabled_variant_of, LemonSqueezy.checkout_body. simpl.
    destruct (redirectUrl params); reflexivity.
  - intros n Hbound Hn. rewrite Hvariant, Hn, (parseInt_string_of_Z n Hbound).
    reflexivity.
  - intros Hnan. rewrite Hvariant, Hnan. reflexivity.
Qed.

Lemma lemonsqueezy_variant_is_a_number_witness :
  let params := mkCheckout one_time "-42" None None None None None None None None in
  (nonempty (env Sample.world !! "LEMONSQUEEZY_API_KEY") = Some "ls_key" /\
   nonempty (env Sample.world !! "LEMONSQUEEZY_STORE_ID") = Some "42" /\
   Z.abs (-42) < 2 ^ 53 /\
   productId params = string_of_Z (-42)) /\
  exists r,
    sent_by (LemonSqueezy.createCheckoutLink params) Sample.world = [r] /\
    variant_of r = Some (JNum (-42) 0).
Proof.
  intros params.
  assert (Hkey : nonempty (env Sample.world !! "LEMONSQUEEZY_API_KEY") = Some "ls_key")
    by (vm_compute; reflexivity).
  assert (Hstore : nonempty (env Sample.world !! "LEMONSQUEEZY_STORE_ID") = Some "42")
    by (vm_compute; reflexivity).
  assert (Hbound : Z.abs (-42) < 2 ^ 53) by reflexivity.
  assert (Hproduct : productId params = string_of_Z (-42)) by reflexivity.
  split; [exact (conj Hkey (conj Hstore (conj Hbound Hproduct))) |].
  destruct (lemonsqueezy_variant_is_a_number Sample.world params "ls_key" "42"
              Hkey Hstore) as (r & Hsent & _ & _ & Hnumber & _).
  exists r. split; [exact Hsent | exact (Hnumber (-42) Hbound Hproduct)].
Defined.
